(** * 1SmileADay: the entry store, the streak engine and the entry routes

    A shallow embedding of [server/db.js] and [server/routes/entries.js].
    The SQLite table [entries] is a list of rows, the clock is an explicit
    argument, and the JavaScript [Date] and [String] builtins the code
    calls are modelled in [JsString] and [JsDate]. *)

From Stdlib Require Import ZArith List String Ascii Bool Lia DecimalString.
From Stdlib Require Import Sorted Permutation.
From Stdlib Require DecimalZ DecimalPos.
Import ListNotations.
Open Scope string_scope.
Open Scope Z_scope.

(* ================================================================== *)
(** ** JavaScript strings *)

(** A string is a sequence of code units below 256. *)
Module JsString.

(** [WhiteSpace] and [LineTerminator] code units below 256: TAB, LF, VT,
    FF, CR, SP and NBSP. *)
Definition isWhiteSpace (c : ascii) : bool :=
  let n := Z.of_N (N_of_ascii c) in
  ((9 <=? n) && (n <=? 13)) || (n =? 32) || (n =? 160).

Fixpoint trimStart (s : string) : string :=
  match s with
  | EmptyString => EmptyString
  | String c r => if isWhiteSpace c then trimStart r else s
  end.

Fixpoint reverse_onto (s acc : string) : string :=
  match s with
  | EmptyString => acc
  | String c r => reverse_onto r (String c acc)
  end.

Definition reverse (s : string) : string := reverse_onto s EmptyString.

Definition trimEnd (s : string) : string := reverse (trimStart (reverse s)).

(** [String.prototype.trim] *)
Definition trim (s : string) : string := trimEnd (trimStart s).

(** [s.length] *)
Definition length (s : string) : Z := Z.of_nat (String.length s).

Fixpoint repeat_char (c : ascii) (n : nat) : string :=
  match n with
  | O => EmptyString
  | S n' => String c (repeat_char c n')
  end.

(** [s.padStart(n, c)] for a one-character fill string. *)
Definition padStart (n : nat) (c : ascii) (s : string) : string :=
  (repeat_char c (n - String.length s) ++ s)%string.

(** [String(n)] for an integer [n]. *)
Definition ofInt (n : Z) : string := NilZero.string_of_int (Z.to_int n).

(** A string is falsy exactly when it is empty. *)
Definition truthy (s : string) : bool :=
  match s with EmptyString => false | _ => true end.

End JsString.

(* ================================================================== *)
(** ** JavaScript dates at local midnight *)

(** Every [Date] the code builds is a local midnight: [new Date()] followed
    by [setHours(0, 0, 0, 0)], or the parse of [date + 'T00:00:00'].  Such a
    date is represented by its local day number, the days elapsed since
    1970-01-01 in the proleptic Gregorian calendar; an Invalid Date is
    [None].  The calendar conversions are the ones of ECMAScript's
    [MakeDay], [YearFromTime], [MonthFromTime] and [DateFromTime]. *)
Module JsDate.

Definition Date := Z.

(** Day number of the civil date [y]-[m]-[d] ([m] from 1 to 12); [d] may
    lie outside the month, as in [MakeDay]. *)
Definition days_from_civil (y m d : Z) : Z :=
  let y' := if m <=? 2 then y - 1 else y in
  let era := y' / 400 in
  let yoe := y' - era * 400 in
  let mp := if m <=? 2 then m + 9 else m - 3 in
  let doy := (153 * mp + 2) / 5 + d - 1 in
  let doe := yoe * 365 + yoe / 4 - yoe / 100 + doy in
  era * 146097 + doe - 719468.

(** Civil date (year, month from 1 to 12, day of the month) of a day
    number. *)
Definition civil_from_days (z : Z) : Z * Z * Z :=
  let z' := z + 719468 in
  let era := z' / 146097 in
  let doe := z' - era * 146097 in
  let yoe := (doe - doe / 1460 + doe / 36524 - doe / 146096) / 365 in
  let doy := doe - (365 * yoe + yoe / 4 - yoe / 100) in
  let mp := (5 * doy + 2) / 153 in
  let d := doy - (153 * mp + 2) / 5 + 1 in
  let m := if mp <? 10 then mp + 3 else mp - 9 in
  let y := yoe + era * 400 in
  ((if m <=? 2 then y + 1 else y), m, d).

Definition getFullYear (t : Date) : Z := fst (fst (civil_from_days t)).

(** Months are numbered from 0. *)
Definition getMonth (t : Date) : Z := snd (fst (civil_from_days t)) - 1.

Definition getDate (t : Date) : Z := snd (civil_from_days t).

(** [t.setDate(dt)]: the day [dt] of the month of [t], where [dt] may
    lie outside the month. *)
Definition setDate (t : Date) (dt : Z) : Date :=
  days_from_civil (getFullYear t) (getMonth t + 1) dt.

(** Milliseconds since the local epoch.  Two local midnights lie a whole
    number of days apart, up to the hour a daylight-saving change moves,
    which the [Math.round] of [getLongestStreak] removes; the model takes
    the days whole. *)
Definition msPerDay : Z := 1000 * 60 * 60 * 24.

Definition getTime (t : Date) : Z := t * msPerDay.

(** [a > b] and [a >= b] on dates; an Invalid Date compares false. *)
Definition gt (a b : option Date) : bool :=
  match a, b with
  | Some x, Some y => y <? x
  | _, _ => false
  end.

Definition ge (a b : option Date) : bool :=
  match a, b with
  | Some x, Some y => y <=? x
  | _, _ => false
  end.

(** [a - b] on dates, in milliseconds; [None] is NaN. *)
Definition sub (a b : option Date) : option Z :=
  match a, b with
  | Some x, Some y => Some (getTime x - getTime y)
  | _, _ => None
  end.

Definition digit (c : ascii) : option Z :=
  let n := Z.of_N (N_of_ascii c) in
  if (48 <=? n) && (n <=? 57) then Some (n - 48) else None.

Definition number2 (a b : ascii) : option Z :=
  match digit a, digit b with
  | Some x, Some y => Some (10 * x + y)
  | _, _ => None
  end.

Definition number4 (a b c d : ascii) : option Z :=
  match number2 a b, number2 c d with
  | Some x, Some y => Some (100 * x + y)
  | _, _ => None
  end.

Definition number6 (a b c d e f : ascii) : option Z :=
  match number2 a b, number4 c d e f with
  | Some x, Some y => Some (10000 * x + y)
  | _, _ => None
  end.

(** The year of a date string and what follows it: four digits, or a
    sign and six digits, [-000000] excepted. *)
Definition parse_year (s : string) : option (Z * string) :=
  match s with
  | String c r =>
      if Ascii.eqb c "+" || Ascii.eqb c "-" then
        match r with
        | String y1 (String y2 (String y3 (String y4 (String y5
            (String y6 rest))))) =>
            match number6 y1 y2 y3 y4 y5 y6 with
            | Some y =>
                if Ascii.eqb c "+" then Some (y, rest)
                else if y =? 0 then None else Some (- y, rest)
            | None => None
            end
        | _ => None
        end
      else
        match r with
        | String y2 (String y3 (String y4 rest)) =>
            match number4 c y2 y3 y4 with
            | Some y => Some (y, rest)
            | None => None
            end
        | _ => None
        end
  | EmptyString => None
  end.

(** [-NN] at the head of a string, and what follows it. *)
Definition parse_field (s : string) : option (Z * string) :=
  match s with
  | String "-" (String a (String b rest)) =>
      match number2 a b with
      | Some n => Some (n, rest)
      | None => None
      end
  | _ => None
  end.

(** [TimeClip]: a time value lies within 100,000,000 days of the epoch.
    The bound is taken on the day number; the first and the last day,
    whose local midnight lies within the bound in some time zones only,
    are left out. *)
Definition clip (t : Date) : option Date :=
  if (-100000000 <? t) && (t <? 100000000) then Some t else None.

(** [new Date(s)] for [s] ending in [T00:00:00], as the code builds it:
    a string of the ECMAScript date-time format, that is a year, a year
    and month or a year, month and day followed by [T00:00:00], read as
    local time.  The month must be 01 to 12 and the day 01 to 31; a
    missing month or day is 1 and a day beyond the end of the month rolls
    over.  ECMAScript leaves the reading of any other string to the
    engine; such a string is taken as an Invalid Date here, and the
    theorems that depend on the reading of a date take the date as
    written by [formatDate] or state its reading as a hypothesis. *)
Definition parse (s : string) : option Date :=
  match parse_year s with
  | None => None
  | Some (y, r1) =>
      if String.eqb r1 "T00:00:00" then clip (days_from_civil y 1 1)
      else
        match parse_field r1 with
        | None => None
        | Some (m, r2) =>
            if negb ((1 <=? m) && (m <=? 12)) then None
            else if String.eqb r2 "T00:00:00"
            then clip (days_from_civil y m 1)
            else
              match parse_field r2 with
              | None => None
              | Some (d, r3) =>
                  if (1 <=? d) && (d <=? 31) && String.eqb r3 "T00:00:00"
                  then clip (days_from_civil y m d)
                  else None
              end
        end
  end.

End JsDate.

(* ================================================================== *)
(** ** server/db.js *)

Module Db.
Import JsDate.

(** A row of the [entries] table.  [text] and [rating] are nullable;
    [skipped] is the INTEGER column, 0 or 1. *)
Record entry := mkEntry {
  id : Z;
  user_id : Z;
  date : string;
  text : option string;
  rating : option Z;
  skipped : Z;
  created_at : string;
  updated_at : string
}.

(** The table, in insertion order, and the AUTOINCREMENT sequence of
    [sqlite_sequence]: the last row id drawn. *)
Record database := mkDb {
  entries : list entry;
  last_rowid : Z
}.

(** The table after [init] on a fresh file. *)
Definition init : database := mkDb [] 0.

(** The UNIQUE(user_id, date) key of a row. *)
Definition has_key (userId : Z) (d : string) (e : entry) : bool :=
  (user_id e =? userId) && String.eqb (date e) d.

(** [ON CONFLICT(user_id, date) DO UPDATE SET text, rating, skipped,
    updated_at]: the row id and [created_at] are kept. *)
Definition do_update (txt : option string) (rate : option Z) (skip : Z)
    (now : string) (e : entry) : entry :=
  mkEntry (id e) (user_id e) (date e) txt rate skip (created_at e) now.

(** [now] is [new Date().toISOString()] and [userId] the id of the
    authenticated user, who has a row in [users].  The statement draws
    the next AUTOINCREMENT row id before it meets the conflict, so the
    sequence advances on the update as on the insert. *)
Definition createOrUpdateEntry (now : string) (userId : Z) (d : string)
    (txt : option string) (skip : bool) (rate : option Z)
    (db : database) : database :=
  let skip01 := if skip then 1 else 0 in
  if existsb (has_key userId d) (entries db)
  then mkDb (map (fun e => if has_key userId d e
                           then do_update txt rate skip01 now e
                           else e) (entries db))
            (last_rowid db + 1)
  else mkDb (entries db ++
               [mkEntry (last_rowid db + 1) userId d txt rate skip01 now now])%list
            (last_rowid db + 1).

(** [SELECT * FROM entries WHERE user_id = ? AND date = ?] *)
Definition getEntry (userId : Z) (d : string) (db : database)
    : option entry :=
  find (has_key userId d) (entries db).

(** [WHERE user_id = ? AND skipped = 0 AND text IS NOT NULL] *)
Definition is_qualifying (userId : Z) (e : entry) : bool :=
  (user_id e =? userId) && (skipped e =? 0)
  && match text e with Some _ => true | None => false end.

Definition qualifying (userId : Z) (db : database) : list entry :=
  filter (is_qualifying userId) (entries db).

(** [ORDER BY]: insertion sort for the order [le]. *)
Fixpoint insert_by {A : Type} (le : A -> A -> bool) (x : A) (l : list A)
    : list A :=
  match l with
  | [] => [x]
  | y :: r => if le x y then x :: l else y :: insert_by le x r
  end.

Fixpoint sort_by {A : Type} (le : A -> A -> bool) (l : list A) : list A :=
  match l with
  | [] => []
  | x :: r => insert_by le x (sort_by le r)
  end.

(** TEXT columns compare byte by byte. *)
Definition date_asc (a b : entry) : bool := String.leb (date a) (date b).
Definition date_desc (a b : entry) : bool := String.leb (date b) (date a).

Definition formatDate (d : Date) : string :=
  let year := JsString.ofInt (getFullYear d) in
  let month := JsString.padStart 2 "0" (JsString.ofInt (getMonth d + 1)) in
  let day := JsString.padStart 2 "0" (JsString.ofInt (getDate d)) in
  (year ++ "-" ++ month ++ "-" ++ day)%string.

(** The [for] loop of [getStreak]; [n] counts the iterations left. *)
Fixpoint streak_loop (n : nat) (rows : list entry) (checkDate : Date)
    (streak : Z) : Z :=
  match n with
  | O => streak
  | S n' =>
      let dateStr := formatDate checkDate in
      match find (fun e => String.eqb (date e) dateStr) rows with
      | Some _ =>
          streak_loop n' rows (setDate checkDate (getDate checkDate - 1))
                      (streak + 1)
      | None => streak
      end
  end.

(** [today] is [new Date()] after [setHours(0, 0, 0, 0)]. *)
Definition getStreak (today : Date) (userId : Z) (db : database) : Z :=
  let rows := sort_by date_desc (qualifying userId db) in
  if Z.of_nat (List.length rows) =? 0 then 0
  else streak_loop 365 rows today 0.

(** [ORDER BY RANDOM() LIMIT 1]: [random i] is the value RANDOM() takes
    for the [i]-th row scanned. *)
Fixpoint with_random (random : nat -> Z) (i : nat) (l : list entry)
    : list (Z * entry) :=
  match l with
  | [] => []
  | e :: r => (random i, e) :: with_random random (S i) r
  end.

Definition getRandomEntry (random : nat -> Z) (userId : Z) (db : database)
    : option entry :=
  match sort_by (fun a b => fst a <=? fst b)
                (with_random random 0 (qualifying userId db)) with
  | [] => None
  | (_, e) :: _ => Some e
  end.

Definition getTotalEntries (userId : Z) (db : database) : Z :=
  Z.of_nat (List.length (qualifying userId db)).

(** The [while] loop of [getMissedDays]; [None] when the fuel runs out
    before the loop ends. *)
Fixpoint missed_loop (fuel : nat) (userId : Z) (db : database)
    (signup : option Date) (checkDate : Date) (missedDays : list string)
    : option (list string) :=
  match fuel with
  | O => None
  | S fuel' =>
      if ge (Some checkDate) signup then
        let dateStr := formatDate checkDate in
        let missedDays' :=
          match getEntry userId dateStr db with
          | None => (missedDays ++ [dateStr])%list
          | Some _ => missedDays
          end in
        missed_loop fuel' userId db signup
                    (setDate checkDate (getDate checkDate - 1)) missedDays'
      else Some missedDays
  end.

Definition getMissedDays (fuel : nat) (today : Date) (userId : Z)
    (signupDate : string) (db : database) : option (list string) :=
  let signup := parse (signupDate ++ "T00:00:00") in
  let checkDate := setDate today (getDate today - 1) in
  option_map (@rev string) (missed_loop fuel userId db signup checkDate []).

(** [Math.round(a / b)] for integers [a] and [b > 0]; NaN is [None]. *)
Definition round_div (a : option Z) (b : Z) : option Z :=
  match a with
  | Some x => Some ((2 * x + b) / (2 * b))
  | None => None
  end.

Definition entry_date (e : entry) : option Date :=
  parse (date e ++ "T00:00:00").

(** [diffDays === 1] for two rows *)
Definition consecutive (prev curr : entry) : bool :=
  match round_div (sub (entry_date curr) (entry_date prev)) msPerDay with
  | Some diffDays => diffDays =? 1
  | None => false
  end.

(** The [for] loop of [getLongestStreak], from [entries[i - 1] = prev]. *)
Fixpoint longest_loop (prev : entry) (rest : list entry)
    (longestStreak currentStreak : Z) : Z :=
  match rest with
  | [] => longestStreak
  | curr :: rest' =>
      if consecutive prev curr
      then longest_loop curr rest'
             (Z.max longestStreak (currentStreak + 1)) (currentStreak + 1)
      else longest_loop curr rest' longestStreak 1
  end.

Definition getLongestStreak (userId : Z) (db : database) : Z :=
  match sort_by date_asc (qualifying userId db) with
  | [] => 0
  | first :: rest => longest_loop first rest 1 1
  end.

(** [SELECT * FROM entries WHERE user_id = ? ORDER BY date DESC] *)
Definition getAllEntries (userId : Z) (db : database) : list entry :=
  sort_by date_desc (filter (fun e => user_id e =? userId) (entries db)).

(** [year] and [month] are numbers, the [parseInt] of the parameters of
    the route; the bounds are the template strings of the code, with day
    31 for every month.  A template string prints an integer that a
    number holds exactly by its decimal digits, and the model prints every
    integer so: the theorems on the month take safe integers. *)
Definition month_start (year month : Z) : string :=
  (JsString.ofInt year ++ "-"
   ++ JsString.padStart 2 "0" (JsString.ofInt month) ++ "-01")%string.

Definition month_end (year month : Z) : string :=
  (JsString.ofInt year ++ "-"
   ++ JsString.padStart 2 "0" (JsString.ofInt month) ++ "-31")%string.

(** [WHERE user_id = ? AND date >= ? AND date <= ? ORDER BY date ASC] *)
Definition getEntriesForMonth (userId year month : Z) (db : database)
    : list entry :=
  sort_by date_asc
    (filter (fun e => (user_id e =? userId)
                      && String.leb (month_start year month) (date e)
                      && String.leb (date e) (month_end year month))
            (entries db)).

End Db.

(* ================================================================== *)
(** ** server/db.js: the users table *)

Module Users.

Record user := mkUser {
  id : Z;
  email : string;
  password : string;
  signup_date : string;
  created_at : string
}.

(** The table, in insertion order, and the last AUTOINCREMENT row id. *)
Record table := mkTable {
  rows : list user;
  last_rowid : Z
}.

Definition init : table := mkTable [] 0.

(** [INSERT INTO users (email, password, signup_date)]: the statement
    throws on a second row with the same email (UNIQUE), which is [None],
    and returns [lastInsertRowid] otherwise.  [clock] is the
    CURRENT_TIMESTAMP of the insert. *)
Definition createUser (clock : string) (mail hashedPassword signupDate : string)
    (t : table) : option Z * table :=
  if existsb (fun u => String.eqb (email u) mail) (rows t)
  then (None, t)
  else (Some (last_rowid t + 1),
        mkTable (rows t ++ [mkUser (last_rowid t + 1) mail hashedPassword
                                   signupDate clock])%list
                (last_rowid t + 1)).

(** [SELECT * FROM users WHERE email = ?] *)
Definition getUserByEmail (mail : string) (t : table) : option user :=
  find (fun u => String.eqb (email u) mail) (rows t).

(** The columns [id, email, signup_date, created_at]. *)
Record user_info := mkInfo {
  info_id : Z;
  info_email : string;
  info_signup_date : string;
  info_created_at : string
}.

(** [SELECT id, email, signup_date, created_at FROM users WHERE id = ?] *)
Definition getUserById (userId : Z) (t : table) : option user_info :=
  match find (fun u => id u =? userId) (rows t) with
  | Some u => Some (mkInfo (id u) (email u) (signup_date u) (created_at u))
  | None => None
  end.

(** [UPDATE users SET password = ? WHERE id = ?] *)
Definition updateUserPassword (userId : Z) (hashedPassword : string)
    (t : table) : table :=
  mkTable (map (fun u => if id u =? userId
                         then mkUser (id u) (email u) hashedPassword
                                     (signup_date u) (created_at u)
                         else u) (rows t))
          (last_rowid t).

End Users.

(* ================================================================== *)
(** ** server/routes/entries.js *)

Module Routes.
Import JsDate Db.

Definition MIN_CHARS : Z := 100.

(** [req.body] of POST /api/entries, with fields of the types the
    client sends: [date] and [text] strings, [rating] a number and
    [skipped] a boolean.  A field that is [undefined] or [null] is
    [None]; [skipped] is taken by its truthiness.  A rating that is not
    an integer satisfies no [===] of [includes], as an integer outside
    1, 2, 3 does. *)
Record body := mkBody {
  body_date : option string;
  body_text : option string;
  body_rating : option Z;
  body_skipped : bool
}.

(** [res.json] after [res.status]; status 200 when none is set. *)
Inductive response :=
| Saved (message : string) (d : string) (rate : option Z) (skip : bool)
| Found (d : string) (txt : option string) (rate : option Z)
| Error (status : Z) (error : string).

(** [!text || !text.trim()] *)
Definition text_blank (txt : option string) : bool :=
  match txt with
  | None => true
  | Some t =>
      negb (JsString.truthy t) || negb (JsString.truthy (JsString.trim t))
  end.

(** [text.trim()], evaluated only where [text] is a string. *)
Definition trimmed (txt : option string) : string :=
  match txt with
  | Some t => JsString.trim t
  | None => ""
  end.

(** [rating !== undefined && rating !== null &&
    ![1, 2, 3].includes(rating)] *)
Definition rating_invalid (rate : option Z) : bool :=
  match rate with
  | Some r => negb (existsb (Z.eqb r) [1; 2; 3])
  | None => false
  end.

(** [rating || null] *)
Definition or_null (rate : option Z) : option Z :=
  match rate with
  | Some 0 => None
  | _ => rate
  end.

(** [router.post('/')]; [today] is [new Date()] after
    [setHours(0, 0, 0, 0)] and [now] the time stamp of the write. *)
Definition post_entry (today : Date) (now : string) (userId : Z)
    (b : body) (db : database) : response * database :=
  let skip := body_skipped b in
  match body_date b with
  | None => (Error 400 "Date is required", db)
  | Some d =>
      if negb (JsString.truthy d) then (Error 400 "Date is required", db)
      else if negb skip && text_blank (body_text b)
      then (Error 400 "Entry text is required", db)
      else if negb skip
              && (JsString.length (trimmed (body_text b)) <? MIN_CHARS)
      then (Error 400 ("Entry must be at least "
                         ++ JsString.ofInt MIN_CHARS ++ " characters"), db)
      else if rating_invalid (body_rating b)
      then (Error 400 "Invalid rating value", db)
      else if gt (parse (d ++ "T00:00:00")) (Some today)
      then (Error 400 "Cannot create entry for future date", db)
      else
        let rate := if skip then None else or_null (body_rating b) in
        (Saved (if skip then "Day skipped" else "Entry saved") d rate skip,
         createOrUpdateEntry now userId d
           (if skip then None else Some (trimmed (body_text b)))
           skip rate db)
  end.

(** [router.get('/action/random')] *)
Definition get_random (random : nat -> Z) (userId : Z) (db : database)
    : response :=
  match getRandomEntry random userId db with
  | None => Error 404 "No entries found"
  | Some e => Found (date e) (text e) (rating e)
  end.

(** The answer of the other routes: [res.json] of a value, or of
    [{ error }] after [res.status]. *)
Inductive reply (A : Type) :=
| Json (a : A)
| Fail (status : Z) (error : string).

Arguments Json {A} a.
Arguments Fail {A} status error.

(** [!!entry.skipped] *)
Definition as_bool (n : Z) : bool := negb (n =? 0).

(** A JavaScript object used as a map from strings, by its own
    properties, which are what [res.json] writes. *)
Definition object (V : Type) := list (string * V).

(** An own property is replaced when the key is there and added
    otherwise. *)
Fixpoint own_set {V : Type} (k : string) (v : V) (o : object V)
    : object V :=
  match o with
  | [] => [(k, v)]
  | (k', v') :: r =>
      if String.eqb k' k then (k, v) :: r else (k', v') :: own_set k v r
  end.

(** [obj[k] = v] on an object that started as the literal [{}], for an
    object [v].  The key [__proto__] is the accessor of
    [Object.prototype]: the assignment sets the prototype of [obj] and
    adds no own property. *)
Definition object_set {V : Type} (k : string) (v : V) (o : object V)
    : object V :=
  if String.eqb k "__proto__" then o else own_set k v o.

Definition object_get {V : Type} (k : string) (o : object V) : option V :=
  match find (fun p => String.eqb (fst p) k) o with
  | Some p => Some (snd p)
  | None => None
  end.




Record month_entry := mkMonthEntry {
  month_text : option string;
  month_rating : option Z;
  month_skipped : bool
}.

(** [router.get('/month/:year/:month')], [year] and [month] being the
    [parseInt] of the parameters. *)
Definition get_month (userId year month : Z) (db : database)
    : object month_entry :=
  fold_left (fun entriesMap e =>
               object_set (date e)
                 (mkMonthEntry (text e) (rating e) (as_bool (skipped e)))
                 entriesMap)
            (getEntriesForMonth userId year month db) [].

Record entry_json := mkEntryJson {
  json_date : string;
  json_text : option string;
  json_rating : option Z;
  json_skipped : bool;
  json_createdAt : string;
  json_updatedAt : string
}.

(** [router.get('/:date')] *)
Definition get_entry (userId : Z) (d : string) (db : database)
    : reply entry_json :=
  match getEntry userId d db with
  | None => Fail 404 "Entry not found"
  | Some e => Json (mkEntryJson (date e) (text e) (rating e)
                      (as_bool (skipped e)) (created_at e) (updated_at e))
  end.

Record stats_json := mkStats {
  stats_totalEntries : Z;
  stats_currentStreak : Z;
  stats_longestStreak : Z
}.

(** [router.get('/action/stats')] *)
Definition get_stats (now : Date) (userId : Z) (db : database) : stats_json :=
  mkStats (getTotalEntries userId db) (getStreak now userId db)
          (getLongestStreak userId db).

(** A value that is a string, [null] or [undefined]. *)
Inductive label :=
| Label (s : string)
| NullLabel
| UndefinedLabel.

(** [entry.rating ? ratingLabels[entry.rating] : null] with
    [ratingLabels = { 1: 'Small win', 2: 'Made my day', 3: 'Pure joy' }] *)
Definition ratingLabel (rate : option Z) : label :=
  match rate with
  | None => NullLabel
  | Some 0 => NullLabel
  | Some 1 => Label "Small win"
  | Some 2 => Label "Made my day"
  | Some 3 => Label "Pure joy"
  | Some _ => UndefinedLabel
  end.

Record export_entry := mkExportEntry {
  export_text : option string;
  export_rating : option Z;
  export_ratingLabel : label;
  export_skipped : bool;
  export_createdAt : string;
  export_updatedAt : string
}.

Record export_json := mkExport {
  export_exportedAt : string;
  export_version : Z;
  export_user_email : string;
  export_entries : object export_entry;
  export_totalEntries : Z;
  export_currentStreak : Z
}.

Definition to_export (e : entry) : export_entry :=
  mkExportEntry (text e) (rating e) (ratingLabel (rating e))
                (as_bool (skipped e)) (created_at e) (updated_at e).

(** [router.get('/action/export')]; [clock] is
    [new Date().toISOString()].  Without a user row [user.email] throws,
    which the [catch] answers with status 500. *)
Definition get_export (clock : string) (now : Date) (userId : Z)
    (users : Users.table) (db : database) : reply export_json :=
  match Users.getUserById userId users with
  | None => Fail 500 "Server error"
  | Some user =>
      let rows := getAllEntries userId db in
      let streak := getStreak now userId db in
      Json (mkExport clock 3 (Users.info_email user)
              (fold_left (fun acc e => object_set (date e) (to_export e) acc)
                         rows [])
              (getTotalEntries userId db) streak)
  end.

End Routes.

(* ================================================================== *)
(** ** Specification vocabulary *)

Module Spec.
Import JsDate Db Routes.

(** The user has a qualifying entry dated calendar day [d]. *)
Definition has_qualifying (userId : Z) (db : database) (d : Date) : bool :=
  let dateStr := formatDate d in
  existsb (fun e => is_qualifying userId e && String.eqb (date e) dateStr)
          (entries db).

(** The user has an entry row of any kind dated calendar day [d]. *)
Definition has_row (userId : Z) (db : database) (d : Date) : bool :=
  existsb (has_key userId (formatDate d)) (entries db).

(** The [n] days from [from] on, oldest first. *)
Fixpoint day_range (from : Date) (n : nat) : list Date :=
  match n with
  | O => []
  | S n' => from :: day_range (from + 1) n'
  end.

(** The missed days of section 4.4: the days from [signup] through the
    day before [today] without a row, oldest first. *)
Definition missed_dates (today signup : Date) (userId : Z) (db : database)
    : list Date :=
  filter (fun d => negb (has_row userId db d))
         (day_range signup (Z.to_nat (today - signup))).

(** Every two neighbours of [l] are dated one calendar day apart. *)
Fixpoint is_run (l : list entry) : bool :=
  match l with
  | [] => true
  | a :: r =>
      match r with
      | [] => true
      | b :: _ => consecutive a b && is_run r
      end
  end.

(** The rows of the table under one (user, date) key. *)
Definition rows_for (userId : Z) (d : string) (db : database)
    : list entry :=
  filter (has_key userId d) (entries db).

(** Tables built from the empty one by upserts alone. *)
Inductive reachable : database -> Prop :=
| reachable_init : reachable init
| reachable_upsert now userId d txt skip rate db :
    reachable db ->
    reachable (createOrUpdateEntry now userId d txt skip rate db).

(** Tables built from the empty one by POST /api/entries requests. *)
Inductive served : database -> Prop :=
| served_init : served init
| served_post today now userId b db :
    served db -> served (snd (post_entry today now userId b db)).

(** The entry invariant of section 3. *)
Definition entry_invariant (e : entry) : Prop :=
  (skipped e = 0 \/ skipped e = 1)
  /\ (skipped e = 1 -> text e = None /\ rating e = None)
  /\ (skipped e = 0 ->
      exists s, text e = Some s /\ s <> ""
                /\ MIN_CHARS <= JsString.length s).

(** The conditions of section 4.1 under which an upsert is refused. *)
Definition date_missing (b : body) : Prop :=
  body_date b = None \/ body_date b = Some "".

(** The date of the request is read by [new Date] as a day after
    today. *)
Definition date_in_future (today : Date) (b : body) : Prop :=
  exists d t, body_date b = Some d
              /\ parse (d ++ "T00:00:00") = Some t /\ today < t.

(** The date of the request is the calendar day [t], written YYYY-MM-DD
    with a year of four digits, as the client writes its dates. *)
Definition dated (b : body) (t : Date) : Prop :=
  1000 <= getFullYear t <= 9999 /\ body_date b = Some (formatDate t).

(** The date of the request is a calendar day after today. *)
Definition date_after (today : Date) (b : body) : Prop :=
  exists t, dated b t /\ today < t.

Definition rating_outside (b : body) : Prop :=
  exists r, body_rating b = Some r /\ r <> 1 /\ r <> 2 /\ r <> 3.

(** The text of a request that is not a skip is absent, empty or shorter
    than [MIN_CHARS], measured as it is sent. *)
Definition text_too_short (b : body) : Prop :=
  body_skipped b = false
  /\ (body_text b = None
      \/ exists t, body_text b = Some t
                   /\ (t = "" \/ JsString.length t < MIN_CHARS)).

(** The same, measured after [trim]. *)
Definition trimmed_text_too_short (b : body) : Prop :=
  body_skipped b = false
  /\ (body_text b = None
      \/ exists t, body_text b = Some t
                   /\ JsString.length (JsString.trim t) < MIN_CHARS).

(** The row an accepted request stores. *)
Definition stored_text (b : body) : option string :=
  if body_skipped b then None else Some (trimmed (body_text b)).

Definition stored_rating (b : body) : option Z :=
  if body_skipped b then None else or_null (body_rating b).

(** A text of 100 code units of which the first is a space. *)
Definition padded_text : string :=
  String " " (JsString.repeat_char "a" 99).

(** A text of 112 code units. *)
Definition barista_text : string :=
  "The barista remembered my name and drew a little sun in the foam, and the grey morning felt a good deal lighter.".

(** [n] consecutive days logged by user 1, the first dated [d]. *)
Fixpoint log_run (n : nat) (d : Date) (db : database) : database :=
  match n with
  | O => db
  | S n' =>
      log_run n' (d + 1)
        (createOrUpdateEntry "2024-06-01T12:00:00.000Z" 1 (formatDate d)
                             (Some barista_text) false None db)
  end.

(** User 1 wrote on 2024-01-01 and skipped 2024-01-03. *)
Definition january_log : database :=
  createOrUpdateEntry "2024-01-04T08:00:00.000Z" 1 "2024-01-03" None true None
    (createOrUpdateEntry "2024-01-01T20:00:00.000Z" 1 "2024-01-01"
       (Some barista_text) false (Some 2) init).

(** User 1 wrote on 2024-01-01 and on 2024-01-03, not on the day
    between. *)
Definition gap_log : database :=
  createOrUpdateEntry "2024-01-03T21:00:00.000Z" 1 "2024-01-03"
    (Some barista_text) false None
    (createOrUpdateEntry "2024-01-01T20:00:00.000Z" 1 "2024-01-01"
       (Some barista_text) false (Some 2) init).

(** Each of the [n] days from [a] on has a qualifying entry of the
    user: a run of [n] consecutive calendar days. *)
Definition run_of_days (userId : Z) (db : database) (a : Date) (n : Z)
    : Prop :=
  forall d, a <= d < a + n -> has_qualifying userId db d = true.

(** [Number.isSafeInteger]: the integers a JavaScript number holds
    exactly, which a template string prints by their decimal digits. *)
Definition safe_integer (z : Z) : Prop :=
  -9007199254740992 < z < 9007199254740992.

(** The number YYYYMMDD of a day. *)
Definition date_number (t : Date) : Z :=
  getFullYear t * 10000 + (getMonth t + 1) * 100 + getDate t.

(** Users tables built from the empty one by [createUser] and
    [updateUserPassword]. *)
Inductive registered : Users.table -> Prop :=
| registered_init : registered Users.init
| registered_create clock mail hashedPassword signupDate t :
    registered t ->
    registered (snd (Users.createUser clock mail hashedPassword signupDate t))
| registered_update userId hashedPassword t :
    registered t ->
    registered (Users.updateUserPassword userId hashedPassword t).

(** The users table after one registration, on 2024-01-01. *)
Definition one_user : Users.table :=
  snd (Users.createUser "2024-01-01 10:00:00" "ada@example.org"
         "$2b$10$N9qo8uLOickgx2ZMRZoMye" "2024-01-01" Users.init).

(** [f] holds on the [n] days from [z] on. *)
Fixpoint all_days (n : nat) (z : Date) (f : Date -> bool) : bool :=
  match n with
  | O => true
  | S n' => f z && all_days n' (z + 1) f
  end.

End Spec.

Import JsDate Db Routes Spec.

(* ================================================================== *)
(** ** The calendar *)

Section Calendar.

Lemma year_of_era_bounds (doe : Z) :
  0 <= doe < 146097 ->
  let yoe := (doe - doe / 1460 + doe / 36524 - doe / 146096) / 365 in
  let doy := doe - (365 * yoe + yoe / 4 - yoe / 100) in
  0 <= yoe < 400 /\ 0 <= doy < 366.
Proof.
  intros H yoe doy. subst yoe doy.
  Z.div_mod_to_equations. lia.
Qed.

Lemma month_bounds (doy : Z) :
  0 <= doy < 366 -> 0 <= (5 * doy + 2) / 153 < 12.
Proof. intros H. Z.div_mod_to_equations. lia. Qed.

Lemma era_of_year (era yoe : Z) :
  0 <= yoe < 400 -> (yoe + era * 400) / 400 = era.
Proof.
  intros H. rewrite Z.div_add by lia. rewrite Z.div_small by lia. lia.
Qed.

(** The day number of the civil date of a day is that day. *)
Lemma days_from_civil_of_day (z : Z) :
  let '(y, m, d) := civil_from_days z in days_from_civil y m d = z.
Proof.
  unfold civil_from_days.
  set (z' := z + 719468).
  set (era := z' / 146097).
  set (doe := z' - era * 146097).
  assert (Hdoe : 0 <= doe < 146097).
  { subst doe era. pose proof (Z.mod_pos_bound z' 146097 ltac:(lia)) as Hm.
    rewrite Z.mod_eq in Hm by lia. lia. }
  destruct (year_of_era_bounds doe Hdoe) as [Hyoe Hdoy].
  set (yoe := (doe - doe / 1460 + doe / 36524 - doe / 146096) / 365) in *.
  set (doy := doe - (365 * yoe + yoe / 4 - yoe / 100)) in *.
  pose proof (month_bounds doy Hdoy) as Hmp.
  set (mp := (5 * doy + 2) / 153) in *.
  unfold days_from_civil.
  destruct (mp <? 10) eqn:Hlt.
  - apply Z.ltb_lt in Hlt.
    replace (mp + 3 <=? 2) with false by (symmetry; apply Z.leb_gt; lia).
    rewrite era_of_year by lia.
    replace (mp + 3 - 3) with mp by lia.
    replace (yoe + era * 400 - era * 400) with yoe by lia.
    clearbody mp yoe era. subst doy doe z'. lia.
  - apply Z.ltb_ge in Hlt.
    replace (mp - 9 <=? 2) with true by (symmetry; apply Z.leb_le; lia).
    replace (yoe + era * 400 + 1 - 1) with (yoe + era * 400) by lia.
    rewrite era_of_year by lia.
    replace (mp - 9 + 9) with mp by lia.
    replace (yoe + era * 400 - era * 400) with yoe by lia.
    clearbody mp yoe era. subst doy doe z'. lia.
Qed.

Lemma days_from_civil_shift (y m d k : Z) :
  days_from_civil y m (d + k) = days_from_civil y m d + k.
Proof. unfold days_from_civil. lia. Qed.

(** [checkDate.setDate(checkDate.getDate() - 1)] is the day before. *)
Lemma setDate_previous_day (t : Date) : setDate t (getDate t - 1) = t - 1.
Proof.
  unfold setDate, getDate, getMonth, getFullYear.
  pose proof (days_from_civil_of_day t) as H.
  destruct (civil_from_days t) as [[y m] d]. cbn [fst snd].
  replace (m - 1 + 1) with m by lia.
  replace (d - 1) with (d + -1) by lia.
  rewrite days_from_civil_shift, H. lia.
Qed.

Lemma round_div_days (a b : Date) :
  round_div (sub (Some a) (Some b)) msPerDay = Some (a - b).
Proof.
  unfold round_div, sub, getTime, msPerDay. f_equal.
  Z.div_mod_to_equations. lia.
Qed.

(** [diffDays === 1] holds for two rows dated one calendar day apart, and
    for no others. *)
Lemma consecutive_iff (a b : entry) :
  consecutive a b = true <->
  exists D, entry_date a = Some D /\ entry_date b = Some (D + 1).
Proof.
  unfold consecutive.
  destruct (entry_date a) as [x|], (entry_date b) as [y|];
    try (split; [discriminate|intros [D [H1 H2]]; discriminate]).
  rewrite round_div_days, Z.eqb_eq. split.
  - intros H. exists x. split; [reflexivity|]. f_equal. lia.
  - intros [D [H1 H2]]. injection H1 as ->. injection H2 as ->. lia.
Qed.

End Calendar.

(* ================================================================== *)
(** ** Queries *)

Section Queries.

Lemma insert_by_In {A : Type} (le : A -> A -> bool) (x y : A) (l : list A) :
  In x (insert_by le y l) <-> x = y \/ In x l.
Proof.
  induction l as [|z r IH]; simpl.
  - intuition congruence.
  - destruct (le y z); simpl; [intuition congruence|].
    rewrite IH. intuition congruence.
Qed.

Lemma sort_by_In {A : Type} (le : A -> A -> bool) (x : A) (l : list A) :
  In x (sort_by le l) <-> In x l.
Proof.
  induction l as [|y r IH]; simpl; [tauto|].
  rewrite insert_by_In, IH. intuition congruence.
Qed.

Lemma sort_by_nil {A : Type} (le : A -> A -> bool) (l : list A) :
  sort_by le l = [] -> l = [].
Proof.
  destruct l as [|y r]; [reflexivity|]. intros H.
  assert (Hin : In y (sort_by le (y :: r))) by (apply sort_by_In; now left).
  rewrite H in Hin. destruct Hin.
Qed.

Lemma existsb_sort_by {A : Type} (le : A -> A -> bool) (f : A -> bool)
    (l : list A) :
  existsb f (sort_by le l) = existsb f l.
Proof.
  apply eq_true_iff_eq. rewrite !existsb_exists.
  split; intros [x [Hx Hf]]; exists x; split; auto;
    now apply (sort_by_In le).
Qed.

Lemma existsb_filter {A : Type} (g f : A -> bool) (l : list A) :
  existsb f (filter g l) = existsb (fun x => g x && f x) l.
Proof.
  induction l as [|x r IH]; simpl; [reflexivity|].
  destruct (g x); simpl; rewrite IH; reflexivity.
Qed.

Lemma find_existsb {A : Type} (f : A -> bool) (l : list A) :
  match find f l with Some _ => true | None => false end = existsb f l.
Proof.
  induction l as [|x r IH]; simpl; [reflexivity|].
  destruct (f x); simpl; auto.
Qed.

Lemma qualifying_In (userId : Z) (db : database) (e : entry) :
  In e (qualifying userId db) <->
  In e (entries db) /\ user_id e = userId /\ skipped e = 0
  /\ text e <> None.
Proof.
  unfold qualifying, is_qualifying. rewrite filter_In.
  rewrite !andb_true_iff, !Z.eqb_eq.
  destruct (text e); intuition congruence.
Qed.

(** What [entries.find(e => e.date === dateStr)] finds in [getStreak]. *)
Lemma find_qualifying (le : entry -> entry -> bool) (userId : Z)
    (db : database) (d : Date) :
  match find (fun e => String.eqb (date e) (formatDate d))
             (sort_by le (qualifying userId db)) with
  | Some _ => true
  | None => false
  end = has_qualifying userId db d.
Proof.
  rewrite find_existsb, existsb_sort_by. unfold qualifying.
  rewrite existsb_filter. reflexivity.
Qed.

Lemma all_days_spec (n : nat) (z : Date) (f : Date -> bool) :
  all_days n z f = true ->
  forall d, z <= d < z + Z.of_nat n -> f d = true.
Proof.
  revert z. induction n as [|n IH]; intros z H d Hd; [lia|].
  simpl in H. apply andb_true_iff in H. destruct H as [Hz Hr].
  destruct (Z.eq_dec d z) as [ -> |Hne]; [assumption|].
  apply (IH (z + 1)); [assumption|lia].
Qed.

End Queries.

(* ================================================================== *)
(** ** Current streak *)

Section CurrentStreak.

Variables (userId : Z) (db : database).

Let rows := sort_by date_desc (qualifying userId db).

Lemma streak_loop_spec (n : nat) (d : Date) (s : Z) :
  let r := streak_loop n rows d s in
  s <= r <= s + Z.of_nat n
  /\ (forall j, 0 <= j < r - s -> has_qualifying userId db (d - j) = true)
  /\ (r - s < Z.of_nat n ->
      has_qualifying userId db (d - (r - s)) = false).
Proof.
  revert d s. induction n as [|n IH]; intros d s; cbn zeta.
  - simpl. repeat split; intros; lia.
  - cbn [streak_loop]. cbv zeta.
    pose proof (find_qualifying date_desc userId db d) as Hfind.
    fold rows in Hfind.
    destruct (find (fun e => String.eqb (date e) (formatDate d)) rows).
    + rewrite setDate_previous_day.
      destruct (IH (d - 1) (s + 1)) as [Hb [Hall Hstop]].
      set (r := streak_loop n rows (d - 1) (s + 1)) in *.
      repeat split; try lia.
      * intros j Hj. destruct (Z.eq_dec j 0) as [ -> |Hne].
        -- now rewrite Z.sub_0_r.
        -- replace (d - j) with (d - 1 - (j - 1)) by lia.
           apply Hall. lia.
      * intros Hlt. replace (d - (r - s)) with (d - 1 - (r - (s + 1))) by lia.
        apply Hstop. lia.
    + repeat split; try lia.
      intros _. now rewrite Z.sub_diag, Z.sub_0_r.
Qed.

(** The streak is the length of the run of qualifying days that ends
    today, as far as the 365 iterations of the loop see it. *)
Lemma getStreak_spec (today : Date) :
  let n := getStreak today userId db in
  0 <= n <= 365
  /\ (forall j, 0 <= j < n -> has_qualifying userId db (today - j) = true)
  /\ (n < 365 -> has_qualifying userId db (today - n) = false).
Proof.
  unfold getStreak. fold rows. cbv zeta.
  destruct (Z.of_nat (List.length rows) =? 0) eqn:Hlen.
  - repeat split; try lia. intros _.
    rewrite Z.sub_0_r, <- (find_qualifying date_desc). fold rows.
    apply Z.eqb_eq in Hlen. destruct rows; [reflexivity|simpl in Hlen; lia].
  - destruct (streak_loop_spec 365 today 0) as [Hb [Hall Hstop]].
    repeat split; try lia.
    + intros j Hj. apply Hall. lia.
    + intros Hlt. specialize (Hstop ltac:(lia)).
      now rewrite Z.sub_0_r in Hstop.
Qed.

End CurrentStreak.

(** Claim C1 (as amended).  The current streak is the number of
    consecutive calendar days, counted backward from today, each having a
    qualifying entry, the walk stopping at the first day without one or
    after 365 days: when the run that ends today has length [k], the streak
    is the smaller of [k] and 365.  In particular the streak is 0 when today
    has no qualifying entry, and it is 3 when D, D+1 and D+2 = today have
    qualifying entries and D-1 has none. *)
Theorem getStreak_counts_run_up_to_lookback
    (today : Date) (userId : Z) (db : database) :
  (forall k, 0 <= k ->
     (forall j, 0 <= j < k ->
        has_qualifying userId db (today - j) = true) ->
     has_qualifying userId db (today - k) = false ->
     getStreak today userId db = Z.min k 365)
  /\ (has_qualifying userId db today = false ->
      getStreak today userId db = 0)
  /\ (forall D, today = D + 2 ->
        has_qualifying userId db D = true ->
        has_qualifying userId db (D + 1) = true ->
        has_qualifying userId db (D + 2) = true ->
        has_qualifying userId db (D - 1) = false ->
        getStreak today userId db = 3).
Proof.
  assert (Hrun : forall k, 0 <= k ->
     (forall j, 0 <= j < k ->
        has_qualifying userId db (today - j) = true) ->
     has_qualifying userId db (today - k) = false ->
     getStreak today userId db = Z.min k 365).
  { intros k Hk Hall Hstop.
    destruct (getStreak_spec userId db today) as [Hb [Hn Hend]].
    set (n := getStreak today userId db) in *.
    destruct (Z.lt_trichotomy n k) as [Hlt|[Heq|Hgt]].
    - destruct (Z.eq_dec n 365) as [H365|Hne]; [lia|].
      specialize (Hend ltac:(lia)).
      rewrite (Hall n) in Hend by lia. discriminate.
    - lia.
    - rewrite (Hn k) in Hstop by lia. discriminate. }
  split; [exact Hrun|split].
  - intros Hnone. apply (Hrun 0); [lia| |now rewrite Z.sub_0_r].
    intros j Hj. lia.
  - intros D -> H0 H1 H2 Hbefore.
    apply (Hrun 3); [lia| |].
    + intros j Hj.
      assert (Hcase : j = 0 \/ j = 1 \/ j = 2) by lia.
      destruct Hcase as [ -> | [ -> | -> ] ].
      * now rewrite Z.sub_0_r.
      * now replace (D + 2 - 1) with (D + 1) by lia.
      * now replace (D + 2 - 2) with D by lia.
    + now replace (D + 2 - 3) with (D - 1) by lia.
Qed.

(** Three days logged up to 2024-01-05, seen from that day. *)
Lemma getStreak_three_days :
  has_qualifying 1 (log_run 3 19725 init) 19725 = true
  /\ has_qualifying 1 (log_run 3 19725 init) 19724 = false
  /\ getStreak 19727 1 (log_run 3 19725 init) = 3.
Proof.
  split; [reflexivity|split; [reflexivity|]].
  apply (proj2 (proj2 (getStreak_counts_run_up_to_lookback
                         19727 1 (log_run 3 19725 init))) 19725);
    reflexivity.
Defined.

(** Claim C1 as stated fails beyond the lookback: with 366 consecutive
    qualifying days ending today (2024-01-05) and none the day before
    them, the run has length 366 and the streak returned is 365. *)
Lemma getStreak_stops_at_365_of_366 :
  (forall j, 0 <= j < 366 ->
     has_qualifying 1 (log_run 366 19362 init) (19727 - j) = true)
  /\ has_qualifying 1 (log_run 366 19362 init) (19727 - 366) = false
  /\ getStreak 19727 1 (log_run 366 19362 init) = 365.
Proof.
  split; [|split; vm_compute; reflexivity].
  intros j Hj.
  apply (all_days_spec 366 19362
           (has_qualifying 1 (log_run 366 19362 init)));
    [vm_compute; reflexivity|lia].
Qed.

(** Claim C8.  The walk of [getStreak] is a loop of at most 365
    iterations: the streak lies between 0 and 365, and it is decided by
    the 365 days that end today. *)
Theorem getStreak_bounded_by_lookback
    (today : Date) (userId : Z) (db : database) :
  0 <= getStreak today userId db <= 365
  /\ (forall db',
        (forall j, 0 <= j < 365 ->
           has_qualifying userId db' (today - j)
           = has_qualifying userId db (today - j)) ->
        getStreak today userId db' = getStreak today userId db).
Proof.
  destruct (getStreak_spec userId db today) as [Hb [Hn Hend]].
  split; [exact Hb|].
  intros db' Hsame.
  destruct (getStreak_spec userId db' today) as [Hb' [Hn' Hend']].
  set (n := getStreak today userId db) in *.
  set (n' := getStreak today userId db') in *.
  destruct (Z.lt_trichotomy n' n) as [Hlt|[Heq|Hgt]]; [|exact Heq|].
  - specialize (Hend' ltac:(lia)).
    rewrite Hsame, (Hn n') in Hend' by lia. discriminate.
  - specialize (Hend ltac:(lia)).
    rewrite <- Hsame, (Hn' n) in Hend by lia. discriminate.
Qed.

(** An entry 400 days back does not change the streak. *)
Lemma getStreak_ignores_older_days :
  getStreak 19727 1 (log_run 1 19327 (log_run 3 19725 init))
  = getStreak 19727 1 (log_run 3 19725 init).
Proof.
  apply (proj2 (getStreak_bounded_by_lookback
                  19727 1 (log_run 3 19725 init))).
  intros j Hj.
  apply Bool.eqb_prop.
  apply (all_days_spec 365 19363
           (fun d => Bool.eqb
              (has_qualifying 1 (log_run 1 19327 (log_run 3 19725 init)) d)
              (has_qualifying 1 (log_run 3 19725 init) d)));
    [vm_compute; reflexivity|lia].
Defined.

(* ================================================================== *)
(** ** Missed days *)

Section MissedDays.

Variables (userId : Z) (db : database).

Lemma day_range_snoc (s : Date) (n : nat) :
  day_range s (S n) = (day_range s n ++ [s + Z.of_nat n])%list.
Proof.
  revert s. induction n as [|n IH]; intros s.
  - simpl. now rewrite Z.add_0_r.
  - change (day_range s (S (S n))) with (s :: day_range (s + 1) (S n)).
    rewrite IH. simpl. do 3 f_equal. lia.
Qed.

Lemma day_range_In (s : Date) (n : nat) (d : Date) :
  In d (day_range s n) <-> s <= d < s + Z.of_nat n.
Proof.
  revert s. induction n as [|n IH]; intros s.
  - simpl. lia.
  - cbn [day_range In]. rewrite IH. lia.
Qed.

Lemma day_range_sorted (s : Date) (n : nat) :
  StronglySorted Z.lt (day_range s n).
Proof.
  revert s. induction n as [|n IH]; intros s; simpl; constructor.
  - apply IH.
  - apply Forall_forall. intros d Hd. apply day_range_In in Hd. lia.
Qed.

Lemma filter_sorted (f : Date -> bool) (l : list Date) :
  StronglySorted Z.lt l -> StronglySorted Z.lt (filter f l).
Proof.
  induction 1 as [|x l Hs IH Hall]; simpl; [constructor|].
  destruct (f x); [|exact IH]. constructor; [exact IH|].
  apply Forall_forall. intros y Hy. apply filter_In in Hy.
  rewrite Forall_forall in Hall. now apply Hall.
Qed.

(** [getEntry] finds a row exactly on the days that have one. *)
Lemma getEntry_has_row (d : Date) :
  match getEntry userId (formatDate d) db with
  | Some _ => true
  | None => false
  end = has_row userId db d.
Proof. unfold getEntry, has_row. apply find_existsb. Qed.

Lemma missed_loop_spec (s : Date) (n : nat) :
  forall (fuel : nat) (c : Date) (acc : list string),
    Z.to_nat (c - s + 1) = n -> (n < fuel)%nat ->
    missed_loop fuel userId db (Some s) c acc
    = Some (acc ++ rev (map formatDate
                          (filter (fun d => negb (has_row userId db d))
                                  (day_range s n))))%list.
Proof.
  induction n as [|n IH]; intros fuel c acc Hn Hfuel;
    (destruct fuel as [|fuel]; [lia|]); cbn [missed_loop ge].
  - replace (s <=? c) with false by (symmetry; apply Z.leb_gt; lia).
    simpl. now rewrite app_nil_r.
  - replace (s <=? c) with true by (symmetry; apply Z.leb_le; lia).
    cbv zeta. rewrite setDate_previous_day.
    rewrite (IH fuel (c - 1)) by lia.
    rewrite day_range_snoc, filter_app, map_app, rev_app_distr.
    replace (s + Z.of_nat n) with c by lia.
    pose proof (getEntry_has_row c) as Hrow.
    cbn [filter]. rewrite <- Hrow.
    destruct (getEntry userId (formatDate c) db); simpl.
    + reflexivity.
    + now rewrite <- app_assoc.
Qed.

End MissedDays.

(** Claim C2.  With enough fuel for the loop, [getMissedDays] returns the
    dates from the signup date through yesterday, today excluded, that have
    no entry row of any kind, oldest first. *)
Theorem getMissedDays_lists_days_without_row
    (fuel : nat) (today : Date) (userId : Z) (signupDate : string)
    (signup : Date) (db : database) :
  parse (signupDate ++ "T00:00:00") = Some signup ->
  (Z.to_nat (today - signup) < fuel)%nat ->
  getMissedDays fuel today userId signupDate db
  = Some (map formatDate (missed_dates today signup userId db))
  /\ (forall d, In d (missed_dates today signup userId db) <->
                signup <= d < today /\ has_row userId db d = false)
  /\ StronglySorted Z.lt (missed_dates today signup userId db).
Proof.
  intros Hparse Hfuel. unfold getMissedDays, missed_dates. rewrite Hparse.
  cbv zeta. rewrite setDate_previous_day. split; [|split].
  - rewrite (missed_loop_spec userId db signup
               (Z.to_nat (today - signup))) by (try assumption; f_equal; lia).
    simpl. now rewrite rev_involutive.
  - intros d. rewrite filter_In, day_range_In, negb_true_iff.
    split; intros [Hd Hrow]; (split; [lia|exact Hrow]).
  - apply filter_sorted, day_range_sorted.
Qed.

(** The example of section 8: signup 2024-01-01, today 2024-01-05, rows for
    2024-01-01 and 2024-01-03. *)
Lemma getMissedDays_january :
  parse ("2024-01-01" ++ "T00:00:00") = Some 19723
  /\ (Z.to_nat (19727 - 19723) < 5)%nat
  /\ getMissedDays 5 19727 1 "2024-01-01" january_log
     = Some ["2024-01-02"; "2024-01-04"].
Proof.
  split; [reflexivity|split; [vm_compute; lia|]].
  destruct (getMissedDays_lists_days_without_row
              5 19727 1 "2024-01-01" 19723 january_log) as [H _];
    [reflexivity|vm_compute; lia|].
  rewrite H. reflexivity.
Defined.

(* ================================================================== *)
(** ** Longest streak *)

Section Sorting.

Context {A : Type} (le : A -> A -> bool).
Hypothesis le_total : forall x y, le x y = true \/ le y x = true.

Lemma insert_by_perm (x : A) (l : list A) :
  Permutation (x :: l) (insert_by le x l).
Proof.
  induction l as [|y r IH]; simpl; [apply Permutation_refl|].
  destruct (le x y); [apply Permutation_refl|].
  eapply perm_trans; [apply perm_swap|]. now apply perm_skip.
Qed.

Lemma sort_by_perm (l : list A) : Permutation l (sort_by le l).
Proof.
  induction l as [|x r IH]; simpl; [constructor|].
  eapply perm_trans; [|apply insert_by_perm]. now apply perm_skip.
Qed.

Lemma insert_by_sorted (x : A) (l : list A) :
  Sorted (fun a b => le a b = true) l ->
  Sorted (fun a b => le a b = true) (insert_by le x l).
Proof.
  induction 1 as [|y r Hs IH Hhd]; simpl.
  - repeat constructor.
  - destruct (le x y) eqn:Hxy.
    + constructor; [now constructor|now constructor].
    + constructor; [exact IH|].
      assert (Hyx : le y x = true).
      { destruct (le_total x y) as [H|H]; [congruence|exact H]. }
      destruct r as [|z r']; simpl; [now constructor|].
      destruct (le x z); constructor; [exact Hyx|].
      now inversion Hhd.
Qed.

Lemma sort_by_sorted (l : list A) :
  Sorted (fun a b => le a b = true) (sort_by le l).
Proof.
  induction l as [|x r IH]; simpl; [constructor|].
  now apply insert_by_sorted.
Qed.

End Sorting.

Section LongestStreak.

Lemma cons_eq_app {A : Type} (x : A) (l s post : list A) :
  x :: l = (s ++ post)%list ->
  (s = [] /\ post = x :: l)
  \/ (exists s', s = x :: s' /\ l = (s' ++ post)%list).
Proof.
  destruct s as [|y s']; simpl; intros H.
  - left. now split.
  - right. injection H as -> ->. now exists s'.
Qed.

Lemma is_run_tail (a : entry) (l : list entry) :
  is_run (a :: l) = true -> is_run l = true.
Proof.
  destruct l as [|b r]; [reflexivity|].
  cbn [is_run]. intros H. apply andb_true_iff in H. apply H.
Qed.

Lemma longest_loop_ge (rest : list entry) :
  forall (prev : entry) (L C : Z), L <= longest_loop prev rest L C.
Proof.
  induction rest as [|curr rest IH]; intros prev L C; simpl; [lia|].
  destruct (consecutive prev curr).
  - specialize (IH curr (Z.max L (C + 1)) (C + 1)). lia.
  - apply IH.
Qed.

(** A run that starts at [prev] extends the [C] days counted so far. *)
Lemma longest_loop_prefix (rest : list entry) :
  forall (prev : entry) (L C : Z) (s post : list entry),
    1 <= C <= L ->
    prev :: rest = (s ++ post)%list -> is_run s = true ->
    C - 1 + Z.of_nat (List.length s) <= longest_loop prev rest L C.
Proof.
  induction rest as [|curr rest IH]; intros prev L C s post HC Hs Hrun.
  - pose proof (f_equal (@List.length entry) Hs) as Hlen.
    rewrite length_app in Hlen. simpl in *. lia.
  - pose proof (longest_loop_ge (curr :: rest) prev L C) as Hge.
    destruct (cons_eq_app _ _ _ _ Hs) as [[-> _]|[s' [-> Hs']]];
      [cbn [List.length]; lia|].
    destruct (cons_eq_app _ _ _ _ Hs') as [[-> _]|[s'' [-> Hs'']]];
      [cbn [List.length]; lia|].
    cbn [is_run] in Hrun. apply andb_true_iff in Hrun.
    destruct Hrun as [Hcons Hrun].
    cbn [longest_loop]. rewrite Hcons.
    specialize (IH curr (Z.max L (C + 1)) (C + 1) (curr :: s'') post
                   ltac:(lia) Hs' Hrun).
    cbn [List.length] in *. lia.
Qed.

(** No run anywhere in the list is longer than the result. *)
Lemma longest_loop_segment (rest : list entry) :
  forall (prev : entry) (L C : Z) (pre s post : list entry),
    1 <= C <= L ->
    prev :: rest = (pre ++ s ++ post)%list -> is_run s = true ->
    Z.of_nat (List.length s) <= longest_loop prev rest L C.
Proof.
  induction rest as [|curr rest IH]; intros prev L C pre s post HC Hs Hrun.
  - pose proof (f_equal (@List.length entry) Hs) as Hlen.
    rewrite !length_app in Hlen. simpl in *. lia.
  - destruct pre as [|p pre].
    + pose proof (longest_loop_prefix (curr :: rest) prev L C s post
                    HC Hs Hrun). lia.
    + simpl in Hs. injection Hs as _ Hs.
      cbn [longest_loop]. destruct (consecutive prev curr).
      * apply (IH curr _ _ pre s post); [lia|exact Hs|exact Hrun].
      * apply (IH curr _ _ pre s post); [lia|exact Hs|exact Hrun].
Qed.

(** The result is the bound it started from, or the length of a run. *)
Lemma longest_loop_attained (rest : list entry) :
  forall (prev : entry) (L C : Z),
    let r := longest_loop prev rest L C in
    r = L
    \/ (exists s post,
          prev :: rest = (prev :: s ++ post)%list /\ is_run (prev :: s) = true
          /\ r = C + Z.of_nat (List.length s))
    \/ (exists pre s post,
          s <> [] /\ rest = (pre ++ s ++ post)%list /\ is_run s = true
          /\ r = Z.of_nat (List.length s)).
Proof.
  induction rest as [|curr rest IH]; intros prev L C; cbv zeta.
  - now left.
  - cbn [longest_loop]. destruct (consecutive prev curr) eqn:Hcons.
    + destruct (IH curr (Z.max L (C + 1)) (C + 1))
        as [Hr|[[s [post [Hs [Hrun Hr]]]]|[pre [s [post [Hne [Hs [Hrun Hr]]]]]]]].
      * destruct (Z.max_spec L (C + 1)) as [[_ Hm]|[_ Hm]].
        -- right. left. exists [curr], rest. repeat split.
           ++ cbn [is_run]. now rewrite Hcons.
           ++ rewrite Hr, Hm. simpl. lia.
        -- left. congruence.
      * right. left. exists (curr :: s), post. repeat split.
        -- simpl. now injection Hs as ->.
        -- change (is_run (prev :: curr :: s))
             with (consecutive prev curr && is_run (curr :: s)).
           now rewrite Hcons, Hrun.
        -- rewrite Hr. cbn [List.length]. lia.
      * right. right. exists (curr :: pre), s, post. repeat split; auto.
        simpl. now rewrite Hs.
    + destruct (IH curr L 1)
        as [Hr|[[s [post [Hs [Hrun Hr]]]]|[pre [s [post [Hne [Hs [Hrun Hr]]]]]]]].
      * now left.
      * right. right. exists [], (curr :: s), post. repeat split.
        -- discriminate.
        -- simpl. now injection Hs as ->.
        -- exact Hrun.
        -- rewrite Hr. cbn [List.length]. lia.
      * right. right. exists (curr :: pre), s, post. repeat split; auto.
        simpl. now rewrite Hs.
Qed.

End LongestStreak.

(* ================================================================== *)
(** ** The upsert *)

Section Upsert.

Variables (now : string) (userId : Z) (d : string) (txt : option string)
          (skip : bool) (rate : option Z).

Let skip01 : Z := if skip then 1 else 0.

Lemma has_key_do_update (u : Z) (k : string) (e : entry) :
  has_key u k (do_update txt rate skip01 now e) = has_key u k e.
Proof. reflexivity. Qed.

Lemma has_key_eq (u u' : Z) (k k' : string) (e : entry) :
  has_key u k e = true -> has_key u' k' e = true -> u = u' /\ k = k'.
Proof.
  unfold has_key. rewrite !andb_true_iff, !Z.eqb_eq, !String.eqb_eq.
  intuition congruence.
Qed.

Lemma filter_none {A : Type} (f : A -> bool) (l : list A) :
  existsb f l = false -> filter f l = [].
Proof.
  induction l as [|x r IH]; simpl; [reflexivity|].
  destruct (f x); simpl; [discriminate|exact IH].
Qed.

Lemma filter_some {A : Type} (f : A -> bool) (l : list A) :
  existsb f l = true -> filter f l <> [].
Proof.
  induction l as [|x r IH]; simpl; [discriminate|].
  destruct (f x); simpl; [discriminate|exact IH].
Qed.

(** The rows under the key written: the row updated, or the row added. *)
Lemma rows_for_written (db : database) :
  rows_for userId d (createOrUpdateEntry now userId d txt skip rate db)
  = if existsb (has_key userId d) (entries db)
    then map (do_update txt rate skip01 now) (rows_for userId d db)
    else [mkEntry (last_rowid db + 1) userId d txt rate skip01 now now].
Proof.
  unfold createOrUpdateEntry, rows_for. fold skip01.
  destruct (existsb (has_key userId d) (entries db)) eqn:Hex; cbn [entries].
  - clear Hex. induction (entries db) as [|e r IH]; [reflexivity|].
    cbn [map filter].
    destruct (has_key userId d e) eqn:Hk.
    + rewrite has_key_do_update, Hk. cbn [map]. now rewrite IH.
    + rewrite Hk. exact IH.
  - rewrite filter_app, (filter_none _ _ Hex). cbn [filter app].
    unfold has_key. cbn [user_id date].
    now rewrite Z.eqb_refl, String.eqb_refl.
Qed.

(** The rows under every other key are left as they were. *)
Lemma rows_for_other (u : Z) (k : string) (db : database) :
  (u, k) <> (userId, d) ->
  rows_for u k (createOrUpdateEntry now userId d txt skip rate db)
  = rows_for u k db.
Proof.
  intros Hne. unfold createOrUpdateEntry, rows_for. fold skip01.
  destruct (existsb (has_key userId d) (entries db)); cbn [entries].
  - induction (entries db) as [|e r IH]; [reflexivity|].
    cbn [map filter].
    destruct (has_key userId d e) eqn:Hk.
    + rewrite has_key_do_update.
      destruct (has_key u k e) eqn:Hk'; [|exact IH].
      destruct (has_key_eq _ _ _ _ _ Hk Hk'). congruence.
    + destruct (has_key u k e); [now rewrite IH|exact IH].
  - rewrite filter_app. cbn [filter].
    destruct (has_key u k _) eqn:Hk; [|apply app_nil_r].
    unfold has_key in Hk. cbn [user_id date] in Hk.
    apply andb_true_iff in Hk. destruct Hk as [Hu Hd].
    apply Z.eqb_eq in Hu. apply String.eqb_eq in Hd. congruence.
Qed.

(** One row at most under a key stays so after an upsert, and the key
    written then has exactly one row, holding what was written. *)
Lemma upsert_unique (db : database) :
  (forall u k, (List.length (rows_for u k db) <= 1)%nat) ->
  forall u k,
    (List.length
       (rows_for u k (createOrUpdateEntry now userId d txt skip rate db))
     <= 1)%nat.
Proof.
  intros Huniq u k.
  destruct (Z.eq_dec u userId) as [Hu|Hu];
    [destruct (string_dec k d) as [Hk|Hk]|].
  - subst u k. rewrite rows_for_written.
    destruct (existsb (has_key userId d) (entries db)); [|simpl; lia].
    rewrite length_map. apply Huniq.
  - rewrite rows_for_other by congruence. apply Huniq.
  - rewrite rows_for_other by congruence. apply Huniq.
Qed.

Lemma upsert_row (db : database) :
  (forall u k, (List.length (rows_for u k db) <= 1)%nat) ->
  exists e,
    rows_for userId d (createOrUpdateEntry now userId d txt skip rate db)
    = [e]
    /\ text e = txt /\ rating e = rate /\ skipped e = skip01
    /\ updated_at e = now.
Proof.
  intros Huniq. rewrite rows_for_written.
  destruct (existsb (has_key userId d) (entries db)) eqn:Hex.
  - specialize (Huniq userId d).
    pose proof (filter_some _ _ Hex) as Hne. fold (rows_for userId d db) in Hne.
    destruct (rows_for userId d db) as [|e [|e' r]];
      [congruence| |simpl in Huniq; lia].
    exists (do_update txt rate skip01 now e). now repeat split.
  - eexists. now repeat split.
Qed.

(** [getEntry] after the upsert reads the row written. *)
Lemma getEntry_written (db : database) :
  exists e,
    getEntry userId d (createOrUpdateEntry now userId d txt skip rate db)
    = Some e
    /\ text e = txt /\ rating e = rate /\ skipped e = skip01
    /\ updated_at e = now.
Proof.
  unfold getEntry, createOrUpdateEntry. fold skip01.
  destruct (existsb (has_key userId d) (entries db)) eqn:Hex; cbn [entries].
  - induction (entries db) as [|e r IH]; [discriminate|].
    cbn [existsb] in Hex. cbn [map find].
    destruct (has_key userId d e) eqn:Hk.
    + rewrite has_key_do_update, Hk. eexists. now repeat split.
    + rewrite Hk. apply IH. exact Hex.
  - induction (entries db) as [|e r IH].
    + cbn [app find]. unfold has_key. cbn [user_id date].
      rewrite Z.eqb_refl, String.eqb_refl. eexists. now repeat split.
    + cbn [existsb] in Hex. apply orb_false_iff in Hex.
      destruct Hex as [Hk Hex]. cbn [app find]. rewrite Hk. now apply IH.
Qed.

(** A row of the table after the upsert is an old row or holds what was
    written. *)
Lemma upsert_In (db : database) (e : entry) :
  In e (entries (createOrUpdateEntry now userId d txt skip rate db)) ->
  In e (entries db)
  \/ (text e = txt /\ rating e = rate /\ skipped e = skip01).
Proof.
  unfold createOrUpdateEntry. fold skip01.
  destruct (existsb (has_key userId d) (entries db)); cbn [entries].
  - rewrite in_map_iff. intros [e0 [He Hin]].
    destruct (has_key userId d e0); subst e; [right|left]; auto.
  - rewrite in_app_iff. intros [Hin|[<-|[]]]; [left|right]; auto.
Qed.

End Upsert.

Lemma reachable_unique (db : database) :
  reachable db -> forall u k, (List.length (rows_for u k db) <= 1)%nat.
Proof.
  induction 1 as [|now userId d txt skip rate db Hr IH].
  - intros u k. simpl. lia.
  - now apply upsert_unique.
Qed.

(** Claim C6.  In a table built by upserts no key has two rows; an upsert
    leaves exactly one row under its key, holding the text, rating, skipped
    flag and update time stamp it wrote; a second upsert under the same key
    leaves one row again, holding what the second one wrote. *)
Theorem upsert_keeps_one_row_per_key (db : database) :
  reachable db ->
  (forall userId d, (List.length (rows_for userId d db) <= 1)%nat)
  /\ (forall now userId d txt skip rate,
        exists e,
          rows_for userId d
                   (createOrUpdateEntry now userId d txt skip rate db) = [e]
          /\ text e = txt /\ rating e = rate
          /\ skipped e = (if skip then 1 else 0) /\ updated_at e = now)
  /\ (forall now1 txt1 skip1 rate1 now2 txt2 skip2 rate2 userId d,
        exists e,
          rows_for userId d
            (createOrUpdateEntry now2 userId d txt2 skip2 rate2
               (createOrUpdateEntry now1 userId d txt1 skip1 rate1 db))
          = [e]
          /\ text e = txt2 /\ rating e = rate2
          /\ skipped e = (if skip2 then 1 else 0) /\ updated_at e = now2).
Proof.
  intros Hr. split; [now apply reachable_unique|split].
  - intros now userId d txt skip rate.
    apply upsert_row. now apply reachable_unique.
  - intros now1 txt1 skip1 rate1 now2 txt2 skip2 rate2 userId d.
    apply upsert_row. apply reachable_unique. now constructor.
Qed.

(** A skipped day rewritten with a text: one row, the text in it. *)
Lemma upsert_twice_january :
  reachable january_log
  /\ exists e,
       rows_for 1 "2024-01-03"
         (createOrUpdateEntry "2024-01-05T09:00:00.000Z" 1 "2024-01-03"
            (Some barista_text) false (Some 3) january_log) = [e]
       /\ text e = Some barista_text /\ rating e = Some 3
       /\ skipped e = 0 /\ updated_at e = "2024-01-05T09:00:00.000Z".
Proof.
  assert (Hr : reachable january_log) by (repeat constructor).
  split; [exact Hr|].
  exact (proj1 (proj2 (upsert_keeps_one_row_per_key january_log Hr))
           "2024-01-05T09:00:00.000Z" 1 "2024-01-03"
           (Some barista_text) false (Some 3)).
Defined.

(* ================================================================== *)
(** ** POST /api/entries *)

Section PostEntry.

Variables (today : Date) (now : string) (userId : Z).

Lemma truthy_false (s : string) : JsString.truthy s = false <-> s = "".
Proof. destruct s; simpl; split; congruence. Qed.

Lemma rating_invalid_iff (rate : option Z) :
  rating_invalid rate = true <->
  exists r, rate = Some r /\ r <> 1 /\ r <> 2 /\ r <> 3.
Proof.
  destruct rate as [r|]; simpl.
  - rewrite negb_true_iff, !orb_false_iff, !Z.eqb_neq.
    split.
    + intros [H1 [H2 [H3 _]]]. exists r. auto.
    + intros [r' [Hr [H1 [H2 H3]]]]. injection Hr as <-. auto.
  - split; [discriminate|]. intros [r [Hr _]]. discriminate.
Qed.

Lemma gt_iff (d : string) :
  gt (parse (d ++ "T00:00:00")) (Some today) = true <->
  exists t, parse (d ++ "T00:00:00") = Some t /\ today < t.
Proof.
  destruct (parse (d ++ "T00:00:00")) as [t|]; simpl.
  - rewrite Z.ltb_lt. split.
    + intros H. now exists t.
    + intros [t' [Ht H]]. now injection Ht as <-.
  - split; [discriminate|]. intros [t [Ht _]]. discriminate.
Qed.

(** The two text checks of the route together measure the trimmed text. *)
Lemma text_checks_iff (b : body) :
  negb (body_skipped b) && text_blank (body_text b)
  || negb (body_skipped b)
     && (JsString.length (trimmed (body_text b)) <? MIN_CHARS) = true
  <-> trimmed_text_too_short b.
Proof.
  unfold trimmed_text_too_short, text_blank, trimmed.
  destruct (body_skipped b); simpl.
  - split; [discriminate|]. intros [H _]. discriminate.
  - destruct (body_text b) as [t|]; simpl.
    + rewrite orb_true_iff, Z.ltb_lt. split.
      * intros H. split; [reflexivity|]. right. exists t.
        split; [reflexivity|].
        destruct H as [H|H]; [|exact H].
        apply orb_true_iff in H. rewrite !negb_true_iff in H.
        destruct H as [H|H]; apply truthy_false in H.
        -- subst t. vm_compute. reflexivity.
        -- rewrite H. vm_compute. reflexivity.
      * intros [_ [H|[t' [Ht H]]]]; [discriminate|].
        injection Ht as <-. now right.
    + split; [|reflexivity]. intros _. split; [reflexivity|now left].
Qed.

(** The request is refused with status 400 exactly on these inputs. *)
Lemma post_entry_refused_iff (b : body) (db : database) :
  (exists msg, fst (post_entry today now userId b db) = Error 400 msg)
  <-> (date_missing b \/ date_in_future today b
       \/ trimmed_text_too_short b \/ rating_outside b).
Proof.
  unfold date_missing, date_in_future, rating_outside.
  rewrite <- text_checks_iff, <- rating_invalid_iff.
  unfold post_entry. destruct (body_date b) as [d|].
  - destruct (JsString.truthy d) eqn:Hd; cbn [negb].
    + assert (Hd' : d <> "") by (intros ->; discriminate).
      destruct (negb (body_skipped b) && text_blank (body_text b)); cbn [fst orb].
      { split; [intros _|intros _; eexists; reflexivity]. auto. }
      destruct (negb (body_skipped b)
                && (JsString.length (trimmed (body_text b)) <? MIN_CHARS));
        cbn [fst].
      { split; [intros _|intros _; eexists; reflexivity]. auto. }
      destruct (rating_invalid (body_rating b)); cbn [fst].
      { split; [intros _|intros _; eexists; reflexivity]. auto. }
      pose proof (gt_iff d) as Hgt.
      destruct (gt (parse (d ++ "T00:00:00")) (Some today)); cbn [fst].
      { split; [intros _|intros _; eexists; reflexivity].
        right. left. destruct (proj1 Hgt eq_refl) as [t Ht].
        exists d, t. tauto. }
      split; [intros [msg Hmsg]; discriminate|].
      intros [[H|H]|[[d' [t [Hd'' Ht]]]|[H|H]]]; try congruence.
      injection Hd'' as <-.
      assert (false = true) by (apply Hgt; now exists t). discriminate.
    + apply truthy_false in Hd. subst d.
      split; [intros _|intros _; eexists; reflexivity]. auto.
  - split; [intros _|intros _; eexists; reflexivity]. auto.
Qed.

(** An accepted request answers 200 and runs the upsert once. *)
Lemma post_entry_accepted (b : body) (db : database) :
  ~ (date_missing b \/ date_in_future today b
     \/ trimmed_text_too_short b \/ rating_outside b) ->
  exists d,
    body_date b = Some d
    /\ post_entry today now userId b db
       = (Saved (if body_skipped b then "Day skipped" else "Entry saved")
                d (stored_rating b) (body_skipped b),
          createOrUpdateEntry now userId d (stored_text b) (body_skipped b)
                              (stored_rating b) db).
Proof.
  intros Hvalid. rewrite <- post_entry_refused_iff with (db := db) in Hvalid.
  revert Hvalid. unfold post_entry, stored_rating, stored_text.
  destruct (body_date b) as [d|];
    [|intros H; exfalso; apply H; eexists; reflexivity].
  repeat match goal with
         | |- context [if ?c then (Error _ _, _) else _] =>
             destruct c;
             [intros H; exfalso; apply H; eexists; reflexivity|]
         end.
  intros _. exists d. split; reflexivity.
Qed.

(** A refused request leaves the table as it was. *)
Lemma post_entry_error_keeps_db (b : body) (db : database)
    (status : Z) (msg : string) :
  fst (post_entry today now userId b db) = Error status msg ->
  snd (post_entry today now userId b db) = db.
Proof.
  unfold post_entry. destruct (body_date b) as [d|]; [|reflexivity].
  repeat match goal with
         | |- context [if ?c then (Error _ _, _) else _] =>
             destruct c; [reflexivity|]
         end.
  discriminate.
Qed.

(** What an accepted request stores satisfies the entry invariant. *)
Lemma stored_invariant (b : body) :
  ~ trimmed_text_too_short b ->
  forall e,
    text e = stored_text b -> rating e = stored_rating b ->
    skipped e = (if body_skipped b then 1 else 0) ->
    entry_invariant e.
Proof.
  intros Hlong e Ht Hr Hs. unfold entry_invariant.
  unfold stored_text, stored_rating, trimmed_text_too_short in *.
  destruct (body_skipped b).
  - repeat split; auto; lia.
  - split; [now left|split; [lia|]]. intros _.
    destruct (body_text b) as [t|];
      [|exfalso; apply Hlong; split; [reflexivity|now left]].
    exists (JsString.trim t). cbn [trimmed] in Ht.
    assert (Hlen : MIN_CHARS <= JsString.length (JsString.trim t)).
    { apply Z.nlt_ge. intros Hlt. apply Hlong.
      split; [reflexivity|]. right. now exists t. }
    repeat split; auto.
    intros He. rewrite He in Hlen. vm_compute in Hlen. now apply Hlen.
Qed.

End PostEntry.

(** Claim C9.  Every row of a table built by upsert requests satisfies the
    entry invariant: a skipped row has neither text nor rating, whatever
    was sent with the skip flag, and a row that is not skipped has a text
    that is not empty and has at least [MIN_CHARS] code units. *)
Theorem post_entry_rows_satisfy_invariant (db : database) (e : entry) :
  served db -> In e (entries db) ->
  (skipped e = 0 \/ skipped e = 1)
  /\ (skipped e = 1 -> text e = None /\ rating e = None)
  /\ (skipped e = 0 ->
      exists s, text e = Some s /\ s <> ""
                /\ MIN_CHARS <= JsString.length s).
Proof.
  intros Hserved. revert e.
  induction Hserved as [|today now userId b db Hs IH]; intros e Hin.
  - destruct Hin.
  - destruct (fst (post_entry today now userId b db)) eqn:Hres.
    + pose proof (post_entry_refused_iff today now userId b db) as Hiff.
      assert (Hvalid : ~ (date_missing b \/ date_in_future today b
                          \/ trimmed_text_too_short b \/ rating_outside b)).
      { intros H. apply Hiff in H. destruct H as [msg' H]. congruence. }
      destruct (post_entry_accepted today now userId b db Hvalid)
        as [d' [Hd Hpost]].
      rewrite Hpost in Hin. cbn [snd] in Hin.
      apply upsert_In in Hin. destruct Hin as [Hin|[Ht [Hr Hsk]]].
      * now apply IH.
      * apply (stored_invariant b); auto. tauto.
    + unfold post_entry in Hres. destruct (body_date b); [|discriminate].
      repeat match type of Hres with
             | context [if ?c then (Error _ _, _) else _] =>
                 destruct c; [discriminate|]
             end.
      discriminate.
    + rewrite (post_entry_error_keeps_db _ _ _ _ _ _ _ Hres) in Hin.
      now apply IH.
Qed.

(** The row of a skip sent with a text and a rating. *)
Lemma post_entry_skip_row_invariant :
  In (mkEntry 1 1 "2024-01-05" None None 1
        "2024-01-05T09:00:00.000Z" "2024-01-05T09:00:00.000Z")
     (entries (snd (post_entry 19727 "2024-01-05T09:00:00.000Z" 1
                      (mkBody (Some "2024-01-05") (Some "meh") (Some 3) true)
                      init)))
  /\ entry_invariant
       (mkEntry 1 1 "2024-01-05" None None 1
          "2024-01-05T09:00:00.000Z" "2024-01-05T09:00:00.000Z").
Proof.
  split; [now left|].
  apply (post_entry_rows_satisfy_invariant
           (snd (post_entry 19727 "2024-01-05T09:00:00.000Z" 1
                   (mkBody (Some "2024-01-05") (Some "meh") (Some 3) true)
                   init))).
  - apply served_post. apply served_init.
  - now left.
Defined.

(** Claim C10.  An upsert request that fails validation (missing date,
    future date, absent or too short text when not skipped, invalid rating)
    is answered with status 400 and writes nothing: the table after it is
    the table before it. *)
Theorem post_entry_refused_writes_nothing
    (today : Date) (now : string) (userId : Z) (b : body) (db : database) :
  (date_missing b \/ date_in_future today b
   \/ trimmed_text_too_short b \/ rating_outside b ->
   (exists msg, fst (post_entry today now userId b db) = Error 400 msg)
   /\ snd (post_entry today now userId b db) = db)
  /\ (forall msg,
        fst (post_entry today now userId b db) = Error 400 msg ->
        snd (post_entry today now userId b db) = db).
Proof.
  assert (Hkeep : forall msg,
            fst (post_entry today now userId b db) = Error 400 msg ->
            snd (post_entry today now userId b db) = db).
  { intros msg. unfold post_entry.
    destruct (body_date b) as [d|]; [|reflexivity].
    destruct (negb (JsString.truthy d)); [reflexivity|].
    destruct (negb (body_skipped b) && text_blank (body_text b));
      [reflexivity|].
    destruct (negb (body_skipped b)
              && (JsString.length (trimmed (body_text b)) <? MIN_CHARS));
      [reflexivity|].
    destruct (rating_invalid (body_rating b)); [reflexivity|].
    destruct (gt (parse (d ++ "T00:00:00")) (Some today)); [reflexivity|].
    discriminate. }
  split; [|exact Hkeep].
  intros Hinvalid.
  apply (post_entry_refused_iff today now userId b db) in Hinvalid.
  split; [exact Hinvalid|].
  destruct Hinvalid as [msg Hmsg]. exact (Hkeep msg Hmsg).
Qed.

(** An entry for tomorrow is refused and the table kept. *)
Lemma post_entry_tomorrow_writes_nothing :
  fst (post_entry 19727 "2024-01-05T09:00:00.000Z" 1
         (mkBody (Some "2024-01-06") (Some barista_text) None false)
         january_log)
  = Error 400 "Cannot create entry for future date"
  /\ snd (post_entry 19727 "2024-01-05T09:00:00.000Z" 1
            (mkBody (Some "2024-01-06") (Some barista_text) None false)
            january_log)
     = january_log.
Proof.
  split; [reflexivity|].
  apply (proj2 (post_entry_refused_writes_nothing
                  19727 "2024-01-05T09:00:00.000Z" 1
                  (mkBody (Some "2024-01-06") (Some barista_text) None false)
                  january_log)
           "Cannot create entry for future date").
  reflexivity.
Defined.

(* ================================================================== *)
(** ** GET /api/entries/action/random *)

Section RandomEntry.

Variable random : nat -> Z.

Lemma with_random_In (l : list entry) :
  forall (i : nat) (k : Z) (e : entry),
    In (k, e) (with_random random i l) -> In e l.
Proof.
  induction l as [|x r IH]; intros i k e; simpl; [tauto|].
  intros [H|H]; [left; congruence|right; eauto].
Qed.

Lemma with_random_nil (l : list entry) (i : nat) :
  with_random random i l = [] -> l = [].
Proof. destruct l; [reflexivity|discriminate]. Qed.

(** The row drawn, when one is, is a qualifying row of the user. *)
Lemma getRandomEntry_qualifying (userId : Z) (db : database) (e : entry) :
  getRandomEntry random userId db = Some e -> In e (qualifying userId db).
Proof.
  unfold getRandomEntry.
  destruct (sort_by _ _) as [|[k e'] r] eqn:E; [discriminate|].
  intros H. injection H as <-.
  apply (with_random_In _ 0 k).
  apply (sort_by_In (fun a b => fst a <=? fst b)).
  rewrite E. now left.
Qed.

Lemma getRandomEntry_none (userId : Z) (db : database) :
  getRandomEntry random userId db = None <-> qualifying userId db = [].
Proof.
  unfold getRandomEntry. split.
  - destruct (sort_by _ _) as [|[k e'] r] eqn:E; [|discriminate].
    intros _. apply sort_by_nil in E. now apply with_random_nil in E.
  - now intros ->.
Qed.

End RandomEntry.

(** Claim C7.  For a user without qualifying entries the random selection
    answers 404 and no entry, whatever the draw; for a user with one or
    more it answers one of that user's qualifying entries. *)
Theorem get_random_is_qualifying_or_404
    (random : nat -> Z) (userId : Z) (db : database) :
  (qualifying userId db = [] ->
   get_random random userId db = Error 404 "No entries found")
  /\ (qualifying userId db <> [] ->
      exists e,
        In e (entries db) /\ user_id e = userId /\ skipped e = 0
        /\ text e <> None
        /\ get_random random userId db = Found (date e) (text e) (rating e)).
Proof.
  unfold get_random. split.
  - intros Hnone. apply (getRandomEntry_none random) in Hnone.
    now rewrite Hnone.
  - intros Hsome.
    destruct (getRandomEntry random userId db) as [e|] eqn:E.
    + exists e. apply getRandomEntry_qualifying in E.
      apply qualifying_In in E. tauto.
    + apply getRandomEntry_none in E. contradiction.
Qed.

(** User 2 has no entry; user 1 has two and the draw picks the later. *)
Lemma get_random_january :
  get_random (fun i => - Z.of_nat i) 2 gap_log
  = Error 404 "No entries found"
  /\ exists e,
       In e (entries gap_log) /\ user_id e = 1 /\ skipped e = 0
       /\ text e <> None
       /\ get_random (fun i => - Z.of_nat i) 1 gap_log
          = Found (date e) (text e) (rating e).
Proof.
  split.
  - apply (proj1 (get_random_is_qualifying_or_404
                    (fun i => - Z.of_nat i) 2 gap_log)).
    reflexivity.
  - apply (proj2 (get_random_is_qualifying_or_404
                    (fun i => - Z.of_nat i) 1 gap_log)).
    discriminate.
Defined.

(* ================================================================== *)
(** ** Date strings *)

Section DateStrings.

Lemma ofInt_inj (a b : Z) : JsString.ofInt a = JsString.ofInt b -> a = b.
Proof.
  unfold JsString.ofInt. intros H.
  assert (Hnz : forall z, Z.to_int z <> Decimal.Pos Decimal.Nil
                          /\ Z.to_int z <> Decimal.Neg Decimal.Nil).
  { intros [|p|p]; simpl; split; try discriminate;
      intros E; injection E as E; now apply DecimalPos.Unsigned.to_uint_nonnil in E. }
  apply DecimalZ.to_int_inj.
  assert (E : Some (Z.to_int a) = Some (Z.to_int b)).
  { rewrite <- (NilZero.isi (Z.to_int a)), <- (NilZero.isi (Z.to_int b));
      try apply Hnz. now rewrite H. }
  now injection E.
Qed.

(** A number from 1 to 31, padded, is two digits that read as the
    number. *)
Lemma two_digits (n : Z) :
  1 <= n <= 31 ->
  exists a b,
    JsString.padStart 2 "0" (JsString.ofInt n) = String a (String b "")
    /\ number2 a b = Some n.
Proof.
  intros Hn.
  assert (H : all_days 31 1
            (fun n => match JsString.padStart 2 "0" (JsString.ofInt n) with
                      | String a (String b "") =>
                          match number2 a b with
                          | Some m => m =? n
                          | None => false
                          end
                      | _ => false
                      end) = true) by (vm_compute; reflexivity).
  pose proof (all_days_spec _ _ _ H n ltac:(lia)) as Hc. cbv beta in Hc.
  destruct (JsString.padStart 2 "0" (JsString.ofInt n))
    as [|a [|b [|c r]]]; try discriminate.
  exists a, b. split; [reflexivity|].
  destruct (number2 a b) as [m|]; [|discriminate].
  apply Z.eqb_eq in Hc. now subst m.
Qed.

(** A year from 1000 to 9999 is four digits that read as the year. *)
Lemma four_digits (y : Z) :
  1000 <= y <= 9999 ->
  exists a b c d,
    JsString.ofInt y = String a (String b (String c (String d "")))
    /\ number4 a b c d = Some y.
Proof.
  intros Hy.
  assert (Hrange : 1000 <= y < 1000 + Z.of_nat (Z.to_nat 9000)) by lia.
  clear Hy.
  assert (H : all_days (Z.to_nat 9000) 1000
            (fun y => match JsString.ofInt y with
                      | String a (String b (String c (String d ""))) =>
                          match number4 a b c d with
                          | Some m => m =? y
                          | None => false
                          end
                      | _ => false
                      end) = true) by (vm_compute; reflexivity).
  pose proof (all_days_spec _ _ _ H y Hrange) as Hc. cbv beta in Hc.
  clear H Hrange.
  destruct (JsString.ofInt y) as [|a [|b [|c [|d [|e r]]]]]; try discriminate.
  exists a, b, c, d. split; [reflexivity|].
  destruct (number4 a b c d) as [m|]; [|discriminate].
  apply Z.eqb_eq in Hc. now subst m.
Qed.

(** The month and the day of the month of every day are in range. *)
Lemma civil_from_days_bounds (t : Date) :
  1 <= getMonth t + 1 <= 12 /\ 1 <= getDate t <= 31.
Proof.
  unfold getMonth, getDate, civil_from_days. cbn [fst snd].
  set (z' := t + 719468).
  set (era := z' / 146097).
  set (doe := z' - era * 146097).
  assert (Hdoe : 0 <= doe < 146097).
  { subst doe era. pose proof (Z.mod_pos_bound z' 146097 ltac:(lia)) as Hm.
    rewrite Z.mod_eq in Hm by lia. lia. }
  destruct (year_of_era_bounds doe Hdoe) as [Hyoe Hdoy].
  set (yoe := (doe - doe / 1460 + doe / 36524 - doe / 146096) / 365) in *.
  set (doy := doe - (365 * yoe + yoe / 4 - yoe / 100)) in *.
  pose proof (month_bounds doy Hdoy) as Hmp.
  set (mp := (5 * doy + 2) / 153) in *.
  assert (Hday : 1 <= doy - (153 * mp + 2) / 5 + 1 <= 31).
  { subst mp. clearbody doy. Z.div_mod_to_equations. lia. }
  split; [|exact Hday].
  destruct (mp <? 10) eqn:Hlt;
    [apply Z.ltb_lt in Hlt|apply Z.ltb_ge in Hlt]; lia.
Qed.

Lemma civil_from_days_eta (t : Date) :
  civil_from_days t = (getFullYear t, getMonth t + 1, getDate t).
Proof.
  unfold getFullYear, getMonth, getDate.
  destruct (civil_from_days t) as [[y m] d]. cbn [fst snd].
  f_equal. f_equal. lia.
Qed.

Lemma day_of_civil (t : Date) :
  days_from_civil (getFullYear t) (getMonth t + 1) (getDate t) = t.
Proof.
  pose proof (days_from_civil_of_day t) as H.
  now rewrite civil_from_days_eta in H.
Qed.

(** The shape of a formatted date. *)
Lemma formatDate_shape (t : Date) :
  exists m1 m2 d1 d2,
    formatDate t
    = (JsString.ofInt (getFullYear t)
       ++ String "-" (String m1 (String m2
            (String "-" (String d1 (String d2 ""))))))%string
    /\ number2 m1 m2 = Some (getMonth t + 1)
    /\ number2 d1 d2 = Some (getDate t).
Proof.
  destruct (civil_from_days_bounds t) as [Hm Hd].
  destruct (two_digits (getMonth t + 1) ltac:(lia)) as [m1 [m2 [Em Hm2]]].
  destruct (two_digits (getDate t) ltac:(lia)) as [d1 [d2 [Ed Hd2]]].
  exists m1, m2, d1, d2. unfold formatDate. cbv zeta.
  rewrite Em, Ed. repeat split; assumption.
Qed.

Lemma length_append (s t : string) :
  String.length (s ++ t) = (String.length s + String.length t)%nat.
Proof. induction s as [|c s IH]; simpl; [reflexivity|now rewrite IH]. Qed.

Lemma append_inj_suffix (s1 s2 t1 t2 : string) :
  String.length t1 = String.length t2 ->
  (s1 ++ t1)%string = (s2 ++ t2)%string -> s1 = s2 /\ t1 = t2.
Proof.
  revert s2. induction s1 as [|c s1 IH]; intros s2 Hlen H.
  - destruct s2 as [|c2 s2]; [now split|].
    simpl in H. subst t1. simpl in Hlen.
    rewrite length_append in Hlen. lia.
  - destruct s2 as [|c2 s2].
    + simpl in H. subst t2. simpl in Hlen.
      rewrite length_append in Hlen. lia.
    + simpl in H. injection H as -> H.
      destruct (IH s2 Hlen H) as [-> ->]. now split.
Qed.

End DateStrings.

Lemma formatDate_inj (a b : Date) : formatDate a = formatDate b -> a = b.
Proof.
  intros H.
  destruct (formatDate_shape a) as [m1 [m2 [d1 [d2 [Ea [Hma Hda]]]]]].
  destruct (formatDate_shape b) as [n1 [n2 [e1 [e2 [Eb [Hmb Hdb]]]]]].
  rewrite Ea, Eb in H.
  apply append_inj_suffix in H; [|reflexivity].
  destruct H as [Hy H]. injection H as -> -> -> ->.
  apply ofInt_inj in Hy.
  rewrite <- (day_of_civil a), <- (day_of_civil b).
  congruence.
Qed.

Lemma number4_not_sign (a b c d : ascii) (y : Z) :
  number4 a b c d = Some y -> Ascii.eqb a "+" || Ascii.eqb a "-" = false.
Proof.
  unfold number4, number2.
  destruct (digit a) as [n|] eqn:E; [|discriminate]. intros _.
  destruct a as [[] [] [] [] [] [] [] []]; vm_compute in E |- *;
    try discriminate; reflexivity.
Qed.

Lemma four_digit_year_in_range (t : Date) :
  1000 <= getFullYear t <= 9999 -> clip t = Some t.
Proof.
  intros Hy.
  assert (H : -100000000 < t < 100000000).
  { revert Hy. unfold getFullYear, civil_from_days. cbv zeta. cbn [fst].
    set (z' := t + 719468).
    set (era := z' / 146097).
    set (doe := z' - era * 146097).
    assert (Hdoe : 0 <= doe < 146097).
    { subst doe era.
      pose proof (Z.mod_pos_bound z' 146097 ltac:(lia)) as Hm.
      rewrite Z.mod_eq in Hm by lia. lia. }
    destruct (year_of_era_bounds doe Hdoe) as [Hyoe _].
    set (yoe := (doe - doe / 1460 + doe / 36524 - doe / 146096) / 365) in *.
    clearbody yoe.
    match goal with |- context [if ?c then _ else _] => destruct c end;
      intros Hy; subst doe z'; clearbody era; lia. }
  unfold clip.
  replace (-100000000 <? t) with true by (symmetry; apply Z.ltb_lt; lia).
  replace (t <? 100000000) with true by (symmetry; apply Z.ltb_lt; lia).
  reflexivity.
Qed.

Lemma parse_formatDate (t : Date) :
  1000 <= getFullYear t <= 9999 ->
  parse (formatDate t ++ "T00:00:00") = Some t.
Proof.
  intros Hy.
  destruct (formatDate_shape t) as [m1 [m2 [d1 [d2 [E [Hm Hd]]]]]].
  destruct (four_digits _ Hy) as [y1 [y2 [y3 [y4 [Ey Hy4]]]]].
  destruct (civil_from_days_bounds t) as [Hmb Hdb].
  rewrite E, Ey. cbn [String.append]. unfold parse. cbn [parse_year].
  rewrite (number4_not_sign _ _ _ _ _ Hy4), Hy4.
  cbn [String.eqb Ascii.eqb Bool.eqb parse_field].
  rewrite Hm.
  replace (1 <=? getMonth t + 1) with true by (symmetry; apply Z.leb_le; lia).
  replace (getMonth t + 1 <=? 12) with true by (symmetry; apply Z.leb_le; lia).
  cbn [andb negb String.eqb Ascii.eqb Bool.eqb parse_field].
  rewrite Hd.
  replace (1 <=? getDate t) with true by (symmetry; apply Z.leb_le; lia).
  replace (getDate t <=? 31) with true by (symmetry; apply Z.leb_le; lia).
  cbn [andb]. rewrite String.eqb_refl, day_of_civil.
  now apply four_digit_year_in_range.
Qed.

(** X1.  A day whose year has four digits, formatted by [formatDate] and
    read back the way the routes read a date, is the same day; the
    formatted date has ten characters. *)
Theorem formatDate_parse_round_trip (t : Date) :
  1000 <= getFullYear t <= 9999 ->
  parse (formatDate t ++ "T00:00:00") = Some t
  /\ String.length (formatDate t) = 10%nat.
Proof.
  intros Hy. split; [now apply parse_formatDate|].
  destruct (formatDate_shape t) as [m1 [m2 [d1 [d2 [E _]]]]].
  destruct (four_digits _ Hy) as [y1 [y2 [y3 [y4 [Ey _]]]]].
  rewrite E, Ey. reflexivity.
Qed.

(** 2024-02-29, a leap day. *)
Lemma formatDate_parse_leap_day :
  1000 <= getFullYear 19782 <= 9999
  /\ formatDate 19782 = "2024-02-29"
  /\ parse (formatDate 19782 ++ "T00:00:00") = Some 19782.
Proof.
  split; [vm_compute; split; discriminate|].
  split; [reflexivity|].
  apply (formatDate_parse_round_trip 19782).
  vm_compute; split; discriminate.
Defined.

(** X2.  Different days are formatted to different strings, whatever the
    year: the formatted date identifies the day. *)
Theorem formatDate_distinct_days (a b : Date) :
  a <> b ->
  formatDate a <> formatDate b
  /\ String.eqb (formatDate a) (formatDate b) = false.
Proof.
  intros Hne.
  assert (H : formatDate a <> formatDate b).
  { intros H. apply Hne. now apply formatDate_inj. }
  split; [exact H|]. now apply String.eqb_neq.
Qed.

(** The last day of year 999 and the first of year 1000. *)
Lemma formatDate_year_999_and_1000 :
  formatDate (-354286) = "999-12-31"
  /\ formatDate (-354285) = "1000-01-01"
  /\ formatDate (-354286) <> formatDate (-354285).
Proof.
  split; [reflexivity|split; [reflexivity|]].
  apply (formatDate_distinct_days (-354286) (-354285)). discriminate.
Defined.

(* ================================================================== *)
(** ** What an upsert changes *)

Section UpsertEffects.

Variables (now : string) (userId : Z) (d : string) (txt : option string)
          (skip : bool) (rate : option Z).

Let skip01 : Z := if skip then 1 else 0.

Let rewritten (e : entry) : entry :=
  if has_key userId d e then do_update txt rate skip01 now e else e.

Let added (db : database) : entry :=
  mkEntry (last_rowid db + 1) userId d txt rate skip01 now now.

Let upserted (db : database) : database :=
  createOrUpdateEntry now userId d txt skip rate db.

(** The new row qualifies when it is not a skip and has a text. *)
Let new_qualifies : bool :=
  negb skip && match txt with Some _ => true | None => false end.

Lemma upsert_entries (db : database) :
  entries (upserted db)
  = (map rewritten (entries db)
     ++ if existsb (has_key userId d) (entries db) then [] else [added db])%list.
Proof.
  unfold upserted, createOrUpdateEntry. fold skip01.
  destruct (existsb (has_key userId d) (entries db)) eqn:Hex; cbn [entries].
  - now rewrite app_nil_r.
  - f_equal. symmetry. clear - Hex.
    induction (entries db) as [|x l IH]; [reflexivity|].
    cbn [existsb] in Hex. apply orb_false_iff in Hex. destruct Hex as [Hx Hl].
    cbn [map]. unfold rewritten at 1. rewrite Hx. f_equal. now apply IH.
Qed.

Lemma is_qualifying_rewritten (e : entry) :
  has_key userId d e = true ->
  is_qualifying userId (rewritten e) = new_qualifies.
Proof.
  intros Hk. unfold rewritten. rewrite Hk.
  unfold has_key in Hk. apply andb_true_iff in Hk. destruct Hk as [Hu _].
  unfold is_qualifying, do_update, new_qualifies, skip01.
  cbn [user_id skipped text]. rewrite Hu.
  destruct skip; reflexivity.
Qed.

Lemma is_qualifying_added (db : database) :
  is_qualifying userId (added db) = new_qualifies.
Proof.
  unfold is_qualifying, added, new_qualifies, skip01.
  cbn [user_id skipped text]. rewrite Z.eqb_refl.
  destruct skip; reflexivity.
Qed.

Lemma has_key_added (db : database) : has_key userId d (added db) = true.
Proof.
  unfold has_key, added. cbn [user_id date].
  now rewrite Z.eqb_refl, String.eqb_refl.
Qed.

Lemma has_key_rewritten (u : Z) (k : string) (e : entry) :
  has_key u k (rewritten e) = has_key u k e.
Proof. unfold rewritten. now destruct (has_key userId d e). Qed.

(** The row read back under the key written. *)
Lemma getEntry_upsert_same (db : database) :
  getEntry userId d (upserted db)
  = Some match getEntry userId d db with
         | Some old => do_update txt rate skip01 now old
         | None => added db
         end.
Proof.
  unfold getEntry. rewrite upsert_entries.
  induction (entries db) as [|x l IH].
  - cbn [existsb map app find]. now rewrite has_key_added.
  - cbn [existsb map app find]. rewrite has_key_rewritten.
    destruct (has_key userId d x) eqn:Hk; cbn [orb].
    + unfold rewritten. now rewrite Hk.
    + exact IH.
Qed.

(** The rows read back under the other keys. *)
Lemma getEntry_upsert_other (u : Z) (k : string) (db : database) :
  (u, k) <> (userId, d) ->
  getEntry u k (upserted db) = getEntry u k db.
Proof.
  intros Hne. unfold getEntry. rewrite upsert_entries.
  assert (Hkey : forall e, has_key userId d e = true -> has_key u k e = false).
  { intros e He. destruct (has_key u k e) eqn:Hk; [|reflexivity].
    destruct (has_key_eq _ _ _ _ _ He Hk). congruence. }
  induction (entries db) as [|x l IH].
  - cbn [existsb map app find]. now rewrite (Hkey _ (has_key_added db)).
  - cbn [existsb map app find]. rewrite has_key_rewritten.
    destruct (has_key u k x) eqn:Hk.
    + unfold rewritten.
      destruct (has_key userId d x) eqn:Hx; [|reflexivity].
      rewrite (Hkey _ Hx) in Hk. discriminate.
    + destruct (has_key userId d x); cbn [orb]; [|exact IH].
      clear IH. induction l as [|y l IH]; [reflexivity|].
      cbn [map app find]. rewrite has_key_rewritten.
      destruct (has_key u k y) eqn:Hy; [|exact IH].
      unfold rewritten.
      destruct (has_key userId d y) eqn:Hy'; [|reflexivity].
      rewrite (Hkey _ Hy') in Hy. discriminate.
Qed.

(** The days with a qualifying entry, for the user written to. *)
Lemma has_qualifying_upsert (db : database) (t : Date) :
  has_qualifying userId (upserted db) t
  = if String.eqb (formatDate t) d then new_qualifies
    else has_qualifying userId db t.
Proof.
  unfold has_qualifying. cbv zeta. rewrite upsert_entries, existsb_app.
  destruct (String.eqb (formatDate t) d) eqn:Hd.
  - apply String.eqb_eq in Hd.
    assert (Hrow : forall e,
              is_qualifying userId (rewritten e)
              && String.eqb (date (rewritten e)) (formatDate t)
              = has_key userId d e && new_qualifies).
    { intros e. destruct (has_key userId d e) eqn:Hk.
      - rewrite (is_qualifying_rewritten e Hk).
        unfold rewritten. rewrite Hk. cbn [do_update date].
        unfold has_key in Hk. apply andb_true_iff in Hk.
        destruct Hk as [_ Hk]. rewrite Hd, Hk. now rewrite andb_true_r.
      - unfold rewritten. rewrite Hk. unfold has_key in Hk.
        unfold is_qualifying. rewrite Hd.
        destruct (user_id e =? userId); [|reflexivity].
        cbn [andb] in Hk. rewrite Hk. now rewrite andb_false_r. }
    induction (entries db) as [|x l IH].
    + cbn. rewrite is_qualifying_added, Hd, String.eqb_refl.
      now rewrite andb_true_r, orb_false_r.
    + cbn [map existsb]. rewrite Hrow.
      destruct (has_key userId d x); cbn [andb orb].
      * destruct new_qualifies; [reflexivity|]. cbn [orb].
        clear IH. rewrite orb_false_r.
        induction l as [|y l IH]; [reflexivity|].
        cbn [map existsb]. rewrite Hrow, IH.
        now rewrite andb_false_r.
      * exact IH.
  - apply String.eqb_neq in Hd.
    assert (Hrow : forall e,
              is_qualifying userId (rewritten e)
              && String.eqb (date (rewritten e)) (formatDate t)
              = is_qualifying userId e && String.eqb (date e) (formatDate t)).
    { intros e. unfold rewritten.
      destruct (has_key userId d e) eqn:Hk; [|reflexivity].
      cbn [do_update date].
      unfold has_key in Hk. apply andb_true_iff in Hk. destruct Hk as [_ Hk].
      apply String.eqb_eq in Hk. rewrite Hk.
      replace (String.eqb d (formatDate t)) with false
        by (symmetry; apply String.eqb_neq; congruence).
      now rewrite !andb_false_r. }
    assert (Htail : existsb
              (fun e => is_qualifying userId e
                        && String.eqb (date e) (formatDate t))
              (if existsb (has_key userId d) (entries db)
               then [] else [added db]) = false).
    { destruct (existsb (has_key userId d) (entries db)); [reflexivity|].
      cbn. replace (String.eqb d (formatDate t)) with false
        by (symmetry; apply String.eqb_neq; congruence).
      now rewrite andb_false_r. }
    rewrite Htail, orb_false_r. clear Htail.
    induction (entries db) as [|x l IH]; [reflexivity|].
    cbn [map existsb]. now rewrite Hrow, IH.
Qed.

(** The days with a qualifying entry, for every other user. *)
Lemma has_qualifying_upsert_other (u : Z) (db : database) (t : Date) :
  u <> userId ->
  has_qualifying u (upserted db) t = has_qualifying u db t.
Proof.
  intros Hu. unfold has_qualifying. cbv zeta.
  rewrite upsert_entries, existsb_app.
  assert (Hq : forall e, user_id e = userId -> is_qualifying u e = false).
  { intros e He. unfold is_qualifying. rewrite He.
    now replace (userId =? u) with false
      by (symmetry; apply Z.eqb_neq; congruence). }
  assert (Hrow : forall e,
            is_qualifying u (rewritten e)
            && String.eqb (date (rewritten e)) (formatDate t)
            = is_qualifying u e && String.eqb (date e) (formatDate t)).
  { intros e. unfold rewritten.
    destruct (has_key userId d e) eqn:Hk; [|reflexivity].
    unfold has_key in Hk. apply andb_true_iff in Hk. destruct Hk as [Hk _].
    apply Z.eqb_eq in Hk.
    rewrite (Hq e Hk), (Hq (do_update txt rate skip01 now e) Hk).
    reflexivity. }
  assert (Htail : existsb
            (fun e => is_qualifying u e
                      && String.eqb (date e) (formatDate t))
            (if existsb (has_key userId d) (entries db)
             then [] else [added db]) = false).
  { destruct (existsb (has_key userId d) (entries db)); [reflexivity|].
    cbn [existsb]. now rewrite (Hq (added db) eq_refl). }
  rewrite Htail, orb_false_r. clear Htail.
  induction (entries db) as [|x l IH]; [reflexivity|].
  cbn [map existsb]. now rewrite Hrow, IH.
Qed.

End UpsertEffects.

(** X3.  [getEntry] after [createOrUpdateEntry] under the same key reads
    the row written: the text, rating, skipped flag and update time of the
    call, with the id and creation time of the row that was there, or a
    fresh id and the time of the call when there was none.  Under every
    other key it reads what it read before. *)
Theorem getEntry_after_upsert
    (now : string) (userId : Z) (d : string) (txt : option string)
    (skip : bool) (rate : option Z) (db : database) :
  getEntry userId d (createOrUpdateEntry now userId d txt skip rate db)
  = Some (mkEntry
            match getEntry userId d db with
            | Some old => id old
            | None => last_rowid db + 1
            end
            userId d txt rate (if skip then 1 else 0)
            match getEntry userId d db with
            | Some old => created_at old
            | None => now
            end
            now)
  /\ (forall u k, (u, k) <> (userId, d) ->
        getEntry u k (createOrUpdateEntry now userId d txt skip rate db)
        = getEntry u k db).
Proof.
  split; [|intros u k Hne; now apply getEntry_upsert_other].
  rewrite getEntry_upsert_same.
  destruct (getEntry userId d db) as [old|] eqn:Hold; [|reflexivity].
  apply find_some in Hold. destruct Hold as [_ Hk].
  unfold has_key in Hk. apply andb_true_iff in Hk. destruct Hk as [Hu Hd].
  apply Z.eqb_eq in Hu. apply String.eqb_eq in Hd.
  unfold do_update. now rewrite Hu, Hd.
Qed.

Section OtherUsers.

Variables (now : string) (userId : Z) (d : string) (txt : option string)
          (skip : bool) (rate : option Z) (u : Z).
Hypothesis other : u <> userId.

Lemma filter_upsert_other (p : entry -> bool) (db : database) :
  (forall e, user_id e = userId -> p e = false) ->
  filter p (entries (createOrUpdateEntry now userId d txt skip rate db))
  = filter p (entries db).
Proof.
  intros Hp. rewrite upsert_entries, filter_app.
  assert (Htail : filter p
            (if existsb (has_key userId d) (entries db) then []
             else [mkEntry (last_rowid db + 1) userId d txt rate
                           (if skip then 1 else 0) now now]) = []).
  { destruct (existsb (has_key userId d) (entries db)); [reflexivity|].
    cbn [filter]. now rewrite Hp. }
  rewrite Htail, app_nil_r. clear Htail.
  induction (entries db) as [|x l IH]; [reflexivity|].
  cbn [map filter]. rewrite IH.
  destruct (has_key userId d x) eqn:Hk; [|reflexivity].
  unfold has_key in Hk. apply andb_true_iff in Hk. destruct Hk as [Hk _].
  apply Z.eqb_eq in Hk.
  now rewrite (Hp x Hk), (Hp (do_update _ _ _ _ x) Hk).
Qed.

Lemma qualifying_upsert_other (db : database) :
  qualifying u (createOrUpdateEntry now userId d txt skip rate db)
  = qualifying u db.
Proof.
  unfold qualifying. apply filter_upsert_other.
  intros e He. unfold is_qualifying. rewrite He.
  now replace (userId =? u) with false
    by (symmetry; apply Z.eqb_neq; congruence).
Qed.

End OtherUsers.

(** X4.  An upsert by one user changes nothing another user reads: the
    other user's streak, longest streak, total, random entry, missed days,
    month and full listings and single entries are what they were. *)
Theorem upsert_leaves_other_users
    (now : string) (userId : Z) (d : string) (txt : option string)
    (skip : bool) (rate : option Z) (u : Z) (db : database) :
  u <> userId ->
  (forall today,
     getStreak today u (createOrUpdateEntry now userId d txt skip rate db)
     = getStreak today u db)
  /\ getLongestStreak u (createOrUpdateEntry now userId d txt skip rate db)
     = getLongestStreak u db
  /\ getTotalEntries u (createOrUpdateEntry now userId d txt skip rate db)
     = getTotalEntries u db
  /\ (forall random,
        getRandomEntry random u
          (createOrUpdateEntry now userId d txt skip rate db)
        = getRandomEntry random u db)
  /\ (forall fuel today signupDate,
        getMissedDays fuel today u signupDate
          (createOrUpdateEntry now userId d txt skip rate db)
        = getMissedDays fuel today u signupDate db)
  /\ (forall year month,
        getEntriesForMonth u year month
          (createOrUpdateEntry now userId d txt skip rate db)
        = getEntriesForMonth u year month db)
  /\ getAllEntries u (createOrUpdateEntry now userId d txt skip rate db)
     = getAllEntries u db
  /\ (forall k,
        getEntry u k (createOrUpdateEntry now userId d txt skip rate db)
        = getEntry u k db).
Proof.
  intros Hu.
  assert (Hget : forall k,
            getEntry u k (createOrUpdateEntry now userId d txt skip rate db)
            = getEntry u k db).
  { intros k. apply getEntry_upsert_other. congruence. }
  assert (Hno : forall k e, user_id e = userId ->
                            (user_id e =? u) && k = false).
  { intros k e He. rewrite He.
    now replace (userId =? u) with false
      by (symmetry; apply Z.eqb_neq; congruence). }
  repeat split.
  - intros today. unfold getStreak.
    now rewrite qualifying_upsert_other.
  - unfold getLongestStreak. now rewrite qualifying_upsert_other.
  - unfold getTotalEntries. now rewrite qualifying_upsert_other.
  - intros random. unfold getRandomEntry.
    now rewrite qualifying_upsert_other.
  - intros fuel today signupDate. unfold getMissedDays. cbv zeta. f_equal.
    generalize (@nil string) as acc.
    generalize (setDate today (getDate today - 1)) as c.
    induction fuel as [|fuel IH]; intros c acc; [reflexivity|].
    cbn [missed_loop].
    destruct (ge (Some c) (parse (signupDate ++ "T00:00:00")));
      [|reflexivity].
    cbv zeta. rewrite Hget. apply IH.
  - intros year month. unfold getEntriesForMonth. f_equal.
    apply filter_upsert_other.
    intros e He. rewrite <- andb_assoc. now apply Hno.
  - unfold getAllEntries. f_equal.
    apply filter_upsert_other.
    intros e He. rewrite <- (andb_true_r (user_id e =? u)). now apply Hno.
  - exact Hget.
Qed.

(** User 2 logs the day user 1 skipped. *)
Lemma upsert_by_user_2 :
  2 <> 1
  /\ getTotalEntries 1
       (createOrUpdateEntry "2024-01-05T09:00:00.000Z" 2 "2024-01-03"
          (Some barista_text) false None january_log)
     = getTotalEntries 1 january_log.
Proof.
  split; [discriminate|].
  apply (upsert_leaves_other_users
           "2024-01-05T09:00:00.000Z" 2 "2024-01-03" (Some barista_text)
           false None 1 january_log).
  discriminate.
Defined.

(* ================================================================== *)
(** ** Streaks and totals under upserts *)

(** X5.  Writing a text for today makes the current streak one more than
    the streak that was current yesterday, up to the 365 of the loop. *)
Theorem getStreak_after_logging_today
    (now : string) (today : Date) (userId : Z) (t : string)
    (rate : option Z) (db : database) :
  getStreak today userId
    (createOrUpdateEntry now userId (formatDate today) (Some t) false rate db)
  = Z.min 365 (getStreak (today - 1) userId db + 1).
Proof.
  set (db' := createOrUpdateEntry now userId (formatDate today) (Some t)
                false rate db).
  assert (Hq0 : has_qualifying userId db' today = true).
  { unfold db'. rewrite has_qualifying_upsert. now rewrite String.eqb_refl. }
  assert (Hq : forall j, j <> 0 ->
            has_qualifying userId db' (today - j)
            = has_qualifying userId db (today - j)).
  { intros j Hj. unfold db'. rewrite has_qualifying_upsert.
    destruct (String.eqb_spec (formatDate (today - j)) (formatDate today))
      as [E|_]; [|reflexivity].
    apply formatDate_inj in E. lia. }
  destruct (getStreak_spec userId db' today) as [Hb' [Hall' Hstop']].
  destruct (getStreak_spec userId db (today - 1)) as [Hb [Hall Hstop]].
  set (n' := getStreak today userId db') in *.
  set (n := getStreak (today - 1) userId db) in *.
  assert (Hpos : 1 <= n').
  { destruct (Z.eq_dec n' 0) as [E|E]; [|lia].
    specialize (Hstop' ltac:(lia)). rewrite E, Z.sub_0_r, Hq0 in Hstop'.
    discriminate. }
  assert (Hle : n' <= n + 1).
  { destruct (Z_le_gt_dec n' (n + 1)) as [H|H]; [exact H|].
    specialize (Hstop ltac:(lia)).
    specialize (Hall' (n + 1) ltac:(lia)).
    rewrite Hq in Hall' by lia.
    replace (today - (n + 1)) with (today - 1 - n) in Hall' by lia.
    congruence. }
  destruct (Z_lt_ge_dec n' 365) as [Hlt|Hge]; [|lia].
  specialize (Hstop' Hlt). rewrite Hq in Hstop' by lia.
  destruct (Z_lt_ge_dec (n' - 1) n) as [H|H]; [|lia].
  specialize (Hall (n' - 1) ltac:(lia)).
  replace (today - 1 - (n' - 1)) with (today - n') in Hall by lia.
  congruence.
Qed.

(** X6.  A day that is skipped ends every streak that would run through
    it: after the skip of day [t], the streak seen from [t] is 0 and the
    streak seen from any later day is shorter than the distance to [t]. *)
Theorem getStreak_after_skipping_a_day
    (now : string) (t today : Date) (userId : Z) (txt : option string)
    (rate : option Z) (db : database) :
  t <= today ->
  getStreak today userId
    (createOrUpdateEntry now userId (formatDate t) txt true rate db)
  <= today - t.
Proof.
  intros Hle.
  set (db' := createOrUpdateEntry now userId (formatDate t) txt true rate db).
  destruct (getStreak_spec userId db' today) as [Hb [Hall _]].
  destruct (Z_le_gt_dec (getStreak today userId db') (today - t))
    as [H|H]; [exact H|].
  specialize (Hall (today - t) ltac:(lia)).
  replace (today - (today - t)) with t in Hall by lia.
  unfold db' in Hall. rewrite has_qualifying_upsert in Hall.
  rewrite String.eqb_refl in Hall. discriminate.
Qed.

(** Three days logged, the last of them then skipped. *)
Lemma getStreak_skip_after_run :
  19727 <= 19727
  /\ getStreak 19727 1 (log_run 3 19725 init) = 3
  /\ getStreak 19727 1
       (createOrUpdateEntry "2024-01-05T22:00:00.000Z" 1 (formatDate 19727)
          None true None (log_run 3 19725 init)) = 0.
Proof.
  split; [lia|split; [reflexivity|]].
  pose proof (getStreak_after_skipping_a_day
                "2024-01-05T22:00:00.000Z" 19727 19727 1 None None
                (log_run 3 19725 init) ltac:(lia)) as H.
  pose proof (getStreak_spec 1
                (createOrUpdateEntry "2024-01-05T22:00:00.000Z" 1
                   (formatDate 19727) None true None (log_run 3 19725 init))
                19727) as [Hb _].
  lia.
Defined.

Lemma filter_find_unique {A : Type} (p : A -> bool) (l : list A) :
  existsb p l = true -> (List.length (filter p l) <= 1)%nat ->
  exists x, filter p l = [x] /\ find p l = Some x.
Proof.
  induction l as [|x l IH]; [discriminate|].
  cbn [existsb filter find]. destruct (p x).
  - intros _ Hlen. exists x. split; [|reflexivity].
    destruct (filter p l); [reflexivity|cbn [List.length] in Hlen; lia].
  - cbn [orb]. exact IH.
Qed.

Lemma find_none_of_existsb {A : Type} (p : A -> bool) (l : list A) :
  existsb p l = false -> find p l = None.
Proof.
  intros H. rewrite <- (find_existsb p l) in H.
  now destruct (find p l).
Qed.

Section TotalAfterUpsert.

Variables (now : string) (userId : Z) (d : string) (txt : option string)
          (skip : bool) (rate : option Z).

Let new_qualifies : bool :=
  negb skip && match txt with Some _ => true | None => false end.

Let rewritten (e : entry) : entry :=
  if has_key userId d e
  then do_update txt rate (if skip then 1 else 0) now e else e.

(** Qualifying rows before and after the rows of the key are rewritten. *)
Lemma count_rewritten (l : list entry) :
  (List.length (filter (is_qualifying userId) (map rewritten l))
   + List.length (filter (is_qualifying userId)
                         (filter (has_key userId d) l))
   = List.length (filter (is_qualifying userId) l)
     + if new_qualifies
       then List.length (filter (has_key userId d) l) else 0)%nat.
Proof.
  induction l as [|x l IH];
    [cbn [map filter List.length]; destruct new_qualifies; reflexivity|].
  cbn [map filter].
  destruct (has_key userId d x) eqn:Hk.
  - pose proof (is_qualifying_rewritten now userId d txt skip rate x Hk) as Hq.
    fold rewritten new_qualifies in Hq. cbv beta in Hq. rewrite Hq.
    cbn [filter].
    destruct new_qualifies, (is_qualifying userId x);
      cbn [List.length]; lia.
  - unfold rewritten at 1. rewrite Hk.
    destruct (is_qualifying userId x); cbn [List.length]; lia.
Qed.

Lemma getTotalEntries_upsert (db : database) :
  (List.length (rows_for userId d db) <= 1)%nat ->
  getTotalEntries userId (createOrUpdateEntry now userId d txt skip rate db)
  = getTotalEntries userId db
    - Z.b2z match getEntry userId d db with
            | Some old => is_qualifying userId old
            | None => false
            end
    + Z.b2z new_qualifies.
Proof.
  intros Huniq. unfold getTotalEntries, qualifying.
  rewrite upsert_entries, filter_app, length_app.
  pose proof (count_rewritten (entries db)) as Hcount.
  fold rewritten.
  unfold rows_for in Huniq. unfold getEntry.
  destruct (existsb (has_key userId d) (entries db)) eqn:Hex.
  - pose proof (filter_some _ _ Hex) as Hne.
    destruct (filter_find_unique _ _ Hex Huniq) as [old [Hrows Hfind]].
    rewrite Hrows in Hcount. rewrite Hfind. cbn [filter List.length] in *.
    destruct new_qualifies, (is_qualifying userId old);
      cbn [List.length Z.b2z] in *; lia.
  - rewrite (filter_none _ _ Hex) in Hcount.
    cbn [filter List.length] in Hcount.
    pose proof (find_none_of_existsb _ _ Hex) as Hfind.
    rewrite Hfind. cbn [filter].
    pose proof (is_qualifying_added now userId d txt skip rate db) as Hq.
    fold new_qualifies in Hq. cbv beta in Hq. rewrite Hq.
    destruct new_qualifies; cbn [List.length Z.b2z] in *; lia.
Qed.

End TotalAfterUpsert.

(** X7.  In a table built by upserts, an upsert changes the user's total
    by what it does to the one row of its key: one less when a qualifying
    row is there before, one more when the row written is not a skip and
    has a text.  Rewriting a text leaves the total, as does skipping a
    skipped day. *)
Theorem getTotalEntries_after_upsert
    (now : string) (userId : Z) (d : string) (txt : option string)
    (skip : bool) (rate : option Z) (db : database) :
  reachable db ->
  getTotalEntries userId (createOrUpdateEntry now userId d txt skip rate db)
  = getTotalEntries userId db
    - Z.b2z match getEntry userId d db with
            | Some old => is_qualifying userId old
            | None => false
            end
    + Z.b2z (negb skip && match txt with Some _ => true | None => false end).
Proof.
  intros Hr. apply getTotalEntries_upsert. now apply reachable_unique.
Qed.

(** The skipped 2024-01-03 rewritten with a text: from 1 entry to 2. *)
Lemma getTotalEntries_january :
  reachable january_log
  /\ getTotalEntries 1 january_log = 1
  /\ getTotalEntries 1
       (createOrUpdateEntry "2024-01-05T09:00:00.000Z" 1 "2024-01-03"
          (Some barista_text) false (Some 3) january_log) = 2.
Proof.
  assert (Hr : reachable january_log) by (repeat constructor).
  split; [exact Hr|split; [reflexivity|]].
  rewrite (getTotalEntries_after_upsert
             "2024-01-05T09:00:00.000Z" 1 "2024-01-03" (Some barista_text)
             false (Some 3) january_log Hr).
  reflexivity.
Defined.

(* ================================================================== *)
(** ** GET /api/entries/action/stats *)

Section Stats.

Variables (userId : Z) (db : database).

Lemma day_range_length (s : Date) (n : nat) :
  List.length (day_range s n) = n.
Proof.
  revert s. induction n as [|n IH]; intros s; simpl; [reflexivity|].
  now rewrite IH.
Qed.

Lemma day_range_NoDup (s : Date) (n : nat) : NoDup (day_range s n).
Proof.
  revert s. induction n as [|n IH]; intros s; simpl; constructor.
  - intros Hin. apply day_range_In in Hin. lia.
  - apply IH.
Qed.

Lemma has_qualifying_In (t : Date) :
  has_qualifying userId db t = true ->
  In (formatDate t) (map date (qualifying userId db)).
Proof.
  unfold has_qualifying. cbv zeta. intros H.
  apply existsb_exists in H. destruct H as [e [Hin He]].
  apply andb_true_iff in He. destruct He as [Hq Hd].
  apply String.eqb_eq in Hd. rewrite <- Hd.
  apply in_map. unfold qualifying. apply filter_In. now split.
Qed.

(** The days of the current streak have an entry each. *)
Lemma getStreak_le_total (today : Date) :
  getStreak today userId db <= getTotalEntries userId db.
Proof.
  destruct (getStreak_spec userId db today) as [Hb [Hall _]].
  set (n := getStreak today userId db) in *.
  unfold getTotalEntries.
  rewrite <- (length_map date (qualifying userId db)).
  pose proof (day_range_length (today - n + 1) (Z.to_nat n)) as Hlen.
  rewrite <- (length_map formatDate) in Hlen.
  set (days := map formatDate (day_range (today - n + 1) (Z.to_nat n))) in *.
  assert (Hle : (List.length days
                 <= List.length (map date (qualifying userId db)))%nat).
  { apply NoDup_incl_length.
    - apply NoDup_map_NoDup_ForallPairs; [|apply day_range_NoDup].
      intros a b _ _. apply formatDate_inj.
    - intros s Hs. apply in_map_iff in Hs. destruct Hs as [t [<- Ht]].
      apply day_range_In in Ht. apply has_qualifying_In.
      replace t with (today - (today - t)) by lia. apply Hall. lia. }
  lia.
Qed.

(** The longest streak is the length of a part of the sorted entries. *)
Lemma getLongestStreak_le_total :
  0 <= getLongestStreak userId db <= getTotalEntries userId db.
Proof.
  unfold getLongestStreak, getTotalEntries.
  rewrite (Permutation_length (sort_by_perm date_asc (qualifying userId db))).
  destruct (sort_by date_asc (qualifying userId db)) as [|first rest];
    [simpl; lia|].
  pose proof (longest_loop_ge rest first 1 1) as Hge.
  destruct (longest_loop_attained rest first 1 1)
    as [Hr|[[s [post [Hs [_ Hr]]]]|[pre [s [post [_ [Hs [_ Hr]]]]]]]].
  - rewrite Hr. cbn [List.length]. lia.
  - rewrite Hr. injection Hs as ->.
    cbn [List.length]. rewrite length_app. lia.
  - rewrite Hr, Hs. cbn [List.length]. rewrite !length_app. lia.
Qed.

Lemma getLongestStreak_zero :
  getLongestStreak userId db = 0 <-> getTotalEntries userId db = 0.
Proof.
  unfold getLongestStreak, getTotalEntries.
  rewrite (Permutation_length (sort_by_perm date_asc (qualifying userId db))).
  destruct (sort_by date_asc (qualifying userId db)) as [|first rest];
    [simpl; tauto|].
  pose proof (longest_loop_ge rest first 1 1) as Hge.
  cbn [List.length]. lia.
Qed.

End Stats.

(** X8.  The three numbers of the stats route agree with each other: the
    current streak and the longest streak are between 0 and the total of
    entries, and the longest streak is 0 exactly when the total is. *)
Theorem get_stats_consistent (now : Date) (userId : Z) (db : database) :
  0 <= stats_currentStreak (get_stats now userId db)
    <= stats_totalEntries (get_stats now userId db)
  /\ 0 <= stats_longestStreak (get_stats now userId db)
       <= stats_totalEntries (get_stats now userId db)
  /\ (stats_longestStreak (get_stats now userId db) = 0 <->
      stats_totalEntries (get_stats now userId db) = 0).
Proof.
  unfold get_stats. cbn [stats_currentStreak stats_totalEntries
                         stats_longestStreak].
  split; [|split].
  - split; [|apply getStreak_le_total].
    now destruct (getStreak_spec userId db now) as [[H _] _].
  - apply getLongestStreak_le_total.
  - apply getLongestStreak_zero.
Qed.

(* ================================================================== *)
(** ** The random draw *)

Section RandomDraw.

Lemma with_random_In_iff (random : nat -> Z) (l : list entry) :
  forall (j : nat) (k : Z) (x : entry),
    In (k, x) (with_random random j l) <->
    exists n, nth_error l n = Some x /\ k = random (j + n)%nat.
Proof.
  induction l as [|y l IH]; intros j k x; cbn [with_random In].
  - split; [tauto|]. intros [[|n] [H _]]; discriminate.
  - rewrite IH. split.
    + intros [H|[n [Hn Hk]]].
      * injection H as <- <-. exists O. now rewrite Nat.add_0_r.
      * exists (S n). split; [exact Hn|]. now rewrite Nat.add_succ_r.
    + intros [[|n] [Hn Hk]].
      * left. cbn in Hn. injection Hn as ->. now rewrite Nat.add_0_r in Hk; subst.
      * right. exists n. split; [exact Hn|]. now rewrite Nat.add_succ_r in Hk.
Qed.

(** The first row of the sort has the least random value. *)
Lemma sort_head_least (P : list (Z * entry)) (h : Z * entry)
    (r : list (Z * entry)) :
  sort_by (fun a b => fst a <=? fst b) P = h :: r ->
  forall p, In p P -> fst h <= fst p.
Proof.
  intros Hsort p Hp.
  pose proof (sort_by_sorted (fun a b : Z * entry => fst a <=? fst b)) as Hs.
  specialize (Hs ltac:(intros x y; rewrite !Z.leb_le; lia) P).
  apply Sorted_StronglySorted in Hs;
    [|intros x y z; rewrite !Z.leb_le; lia].
  rewrite Hsort in Hs. inversion Hs as [|? ? _ Hall]; subst.
  apply (sort_by_In (fun a b : Z * entry => fst a <=? fst b)) in Hp.
  rewrite Hsort in Hp. destruct Hp as [<-|Hp]; [lia|].
  rewrite Forall_forall in Hall. apply Z.leb_le. now apply Hall.
Qed.

End RandomDraw.

(** X9.  Every qualifying entry of the user can come up in the random
    selection: for each there are values of RANDOM() under which it is the
    row returned.  The selection answers 404 for every draw exactly when
    the user's total of entries is 0. *)
Theorem getRandomEntry_reaches_every_entry
    (userId : Z) (db : database) :
  (forall e, In e (qualifying userId db) ->
     exists random, getRandomEntry random userId db = Some e)
  /\ (getTotalEntries userId db = 0 <->
      forall random,
        get_random random userId db = Error 404 "No entries found").
Proof.
  split.
  - intros e He. apply In_nth_error in He. destruct He as [i Hi].
    exists (fun j => if Nat.eqb j i then 0 else 1).
    unfold getRandomEntry.
    set (random := fun j => if Nat.eqb j i then 0 else 1).
    assert (Hin : In (0, e) (with_random random 0 (qualifying userId db))).
    { apply with_random_In_iff. exists i. split; [exact Hi|].
      unfold random. now rewrite Nat.add_0_l, Nat.eqb_refl. }
    destruct (sort_by _ (with_random random 0 (qualifying userId db)))
      as [|[k x] r] eqn:E.
    + apply sort_by_nil in E. rewrite E in Hin. destruct Hin.
    + pose proof (sort_head_least _ _ _ E (0, e) Hin) as Hle.
      assert (Hh : In (k, x) (with_random random 0 (qualifying userId db))).
      { apply (sort_by_In (fun a b : Z * entry => fst a <=? fst b)).
        rewrite E. now left. }
      apply with_random_In_iff in Hh. destruct Hh as [n [Hn Hk]].
      cbn [fst] in Hle. unfold random in Hk. rewrite Nat.add_0_l in Hk.
      destruct (Nat.eqb_spec n i) as [->|_]; [|lia].
      congruence.
  - unfold getTotalEntries, get_random. split.
    + intros H random.
      assert (Hnil : qualifying userId db = [])
        by (destruct (qualifying userId db); [reflexivity|simpl in H; lia]).
      apply (getRandomEntry_none random) in Hnil. now rewrite Hnil.
    + intros H. specialize (H (fun _ => 0)).
      destruct (getRandomEntry (fun _ => 0) userId db) eqn:E; [discriminate|].
      apply getRandomEntry_none in E. now rewrite E.
Qed.

(** The later of the two entries of [gap_log] can be drawn. *)
Lemma getRandomEntry_later_entry :
  exists random,
    getRandomEntry random 1 gap_log
    = Some (mkEntry 2 1 "2024-01-03" (Some barista_text) None 0
              "2024-01-03T21:00:00.000Z" "2024-01-03T21:00:00.000Z").
Proof.
  apply (proj1 (getRandomEntry_reaches_every_entry 1 gap_log)).
  right. left. reflexivity.
Defined.

(* ================================================================== *)
(** ** Missed days and backfill *)

Section Backfill.

Variables (now : string) (userId : Z) (d : string) (txt : option string)
          (skip : bool) (rate : option Z) (db : database).

Let unresolved (s : string) : bool := negb (String.eqb s d).

Lemma missed_loop_upsert (signup : option Date) (fuel : nat) :
  forall (c : Date) (acc : list string),
    missed_loop fuel userId
      (createOrUpdateEntry now userId d txt skip rate db) signup c
      (filter unresolved acc)
    = option_map (filter unresolved)
        (missed_loop fuel userId db signup c acc).
Proof.
  induction fuel as [|fuel IH]; intros c acc; [reflexivity|].
  cbn [missed_loop]. destruct (ge (Some c) signup); [|reflexivity].
  cbv zeta.
  destruct (String.eqb_spec (formatDate c) d) as [E|E].
  - rewrite E, getEntry_upsert_same.
    assert (Hacc : filter unresolved
              match getEntry userId d db with
              | Some _ => acc
              | None => (acc ++ [d])%list
              end = filter unresolved acc).
    { destruct (getEntry userId d db); [reflexivity|].
      rewrite filter_app. cbn [filter]. unfold unresolved at 2.
      rewrite String.eqb_refl. cbn [negb]. apply app_nil_r. }
    rewrite <- Hacc. apply IH.
  - rewrite getEntry_upsert_other by congruence.
    assert (Hacc : filter unresolved
              match getEntry userId (formatDate c) db with
              | Some _ => acc
              | None => (acc ++ [formatDate c])%list
              end
              = match getEntry userId (formatDate c) db with
                | Some _ => filter unresolved acc
                | None => (filter unresolved acc ++ [formatDate c])%list
                end).
    { destruct (getEntry userId (formatDate c) db); [reflexivity|].
      rewrite filter_app. cbn [filter]. unfold unresolved at 2.
      now replace (String.eqb (formatDate c) d) with false
        by (symmetry; now apply String.eqb_neq). }
    rewrite <- Hacc. apply IH.
Qed.

End Backfill.

Lemma sorted_snoc (l : list Date) (c : Date) :
  StronglySorted Z.lt l -> (forall x, In x l -> x < c) ->
  StronglySorted Z.lt (l ++ [c]).
Proof.
  induction 1 as [|x l Hs IH Hall]; intros Hlt; cbn [app].
  - repeat constructor.
  - constructor.
    + apply IH. intros y Hy. apply Hlt. now right.
    + apply Forall_app. split; [exact Hall|].
      constructor; [|constructor]. apply Hlt. now left.
Qed.

(** What the loop of [getMissedDays] returns, when it returns. *)
Lemma missed_loop_some (userId : Z) (db : database) (signup : option Date)
    (fuel : nat) :
  forall (c : Date) (acc l : list string),
    missed_loop fuel userId db signup c acc = Some l ->
    exists dates,
      l = (acc ++ rev (map formatDate dates))%list
      /\ StronglySorted Z.lt dates
      /\ (forall x, In x dates -> x <= c)
      /\ (forall x, In x dates -> getEntry userId (formatDate x) db = None).
Proof.
  induction fuel as [|fuel IH]; intros c acc l; [discriminate|].
  cbn [missed_loop]. destruct (ge (Some c) signup).
  - cbv zeta. rewrite setDate_previous_day. intros H.
    apply IH in H. destruct H as [dates [Hl [Hs [Hle Hnone]]]].
    destruct (getEntry userId (formatDate c) db) eqn:Hc.
    + exists dates. repeat split; auto. intros x Hx. apply Hle in Hx. lia.
    + exists (dates ++ [c])%list. repeat split.
      * rewrite Hl, map_app, rev_app_distr, <- app_assoc. reflexivity.
      * apply sorted_snoc; [exact Hs|]. intros x Hx. apply Hle in Hx. lia.
      * intros x Hx. apply in_app_iff in Hx.
        destruct Hx as [Hx|[<-|[]]]; [apply Hle in Hx|]; lia.
      * intros x Hx. apply in_app_iff in Hx.
        destruct Hx as [Hx|[<-|[]]]; [now apply Hnone|exact Hc].
  - intros H. injection H as <-. exists []. repeat split.
    + now rewrite app_nil_r.
    + constructor.
    + intros x [].
    + intros x [].
Qed.

(** X10.  After an upsert under a date, by the same user, the missed days
    are the missed days of before without that date, in the same order:
    logging or skipping a day resolves that day and no other. *)
Theorem getMissedDays_after_upsert
    (fuel : nat) (today : Date) (signupDate : string)
    (now : string) (userId : Z) (d : string) (txt : option string)
    (skip : bool) (rate : option Z) (db : database) :
  getMissedDays fuel today userId signupDate
    (createOrUpdateEntry now userId d txt skip rate db)
  = option_map (filter (fun s => negb (String.eqb s d)))
      (getMissedDays fuel today userId signupDate db).
Proof.
  unfold getMissedDays. cbv zeta.
  pose proof (missed_loop_upsert now userId d txt skip rate db
                (parse (signupDate ++ "T00:00:00")) fuel
                (setDate today (getDate today - 1)) []) as H.
  cbn [filter] in H. rewrite H.
  destruct (missed_loop fuel userId db _ _ []) as [l|]; [|reflexivity].
  cbn [option_map]. now rewrite filter_rev.
Qed.

(** X11.  The backfill step of the dashboard: when the missed days are
    [oldest :: rest], an upsert under [oldest], a text or a skip, leaves
    exactly [rest]. *)
Theorem getMissedDays_after_backfill
    (fuel : nat) (today : Date) (signupDate : string)
    (now : string) (userId : Z) (txt : option string)
    (skip : bool) (rate : option Z) (db : database)
    (oldest : string) (rest : list string) :
  getMissedDays fuel today userId signupDate db = Some (oldest :: rest) ->
  getMissedDays fuel today userId signupDate
    (createOrUpdateEntry now userId oldest txt skip rate db)
  = Some rest.
Proof.
  intros Hbefore.
  pose proof (missed_loop_upsert now userId oldest txt skip rate db
                (parse (signupDate ++ "T00:00:00")) fuel
                (setDate today (getDate today - 1)) []) as Hloop.
  cbn [filter] in Hloop.
  unfold getMissedDays in *. cbv zeta in *. rewrite Hloop. clear Hloop.
  destruct (missed_loop fuel userId db _ _ []) as [l|] eqn:E; [|discriminate].
  cbn [option_map] in *. injection Hbefore as Hl.
  apply missed_loop_some in E. destruct E as [dates [-> [Hs _]]].
  cbn [app] in *. rewrite rev_involutive in Hl.
  rewrite <- filter_rev, rev_involutive. f_equal.
  destruct dates as [|d0 ds]; [discriminate|].
  cbn [map] in Hl. injection Hl as <- <-.
  cbn [map filter]. rewrite String.eqb_refl. cbn [negb].
  inversion Hs as [|? ? _ Hall]; subst. clear Hs.
  rewrite Forall_forall in Hall. revert Hall.
  induction ds as [|x ds IH]; intros Hall; [reflexivity|].
  cbn [map filter].
  destruct (String.eqb_spec (formatDate x) (formatDate d0)) as [E|_].
  - apply formatDate_inj in E. specialize (Hall x ltac:(now left)). lia.
  - cbn [negb]. f_equal. apply IH. intros y Hy. apply Hall. now right.
Qed.

(** 2024-01-02, the older of the two missed days of [january_log], is
    skipped on 2024-01-05. *)
Lemma getMissedDays_backfill_january :
  getMissedDays 5 19727 1 "2024-01-01" january_log
  = Some ["2024-01-02"; "2024-01-04"]
  /\ getMissedDays 5 19727 1 "2024-01-01"
       (createOrUpdateEntry "2024-01-05T09:00:00.000Z" 1 "2024-01-02"
          None true None january_log)
     = Some ["2024-01-04"].
Proof.
  split; [reflexivity|].
  apply (getMissedDays_after_backfill 5 19727 "2024-01-01"
           "2024-01-05T09:00:00.000Z" 1 None true None january_log
           "2024-01-02" ["2024-01-04"]).
  reflexivity.
Defined.

(* ================================================================== *)
(** ** The month query *)

Section StringOrder.

Lemma ascii_compare_refl (c : ascii) : Ascii.compare c c = Eq.
Proof.
  pose proof (Ascii.compare_antisym c c) as H.
  destruct (Ascii.compare c c); simpl in H; congruence.
Qed.

Lemma leb_cons (c : ascii) (a b : string) :
  String.leb (String c a) (String c b) = String.leb a b.
Proof.
  unfold String.leb. cbn [String.compare]. now rewrite ascii_compare_refl.
Qed.

Lemma leb_append (p a b : string) :
  String.leb (p ++ a) (p ++ b) = String.leb a b.
Proof.
  induction p as [|c p IH]; [reflexivity|].
  cbn [String.append]. now rewrite leb_cons.
Qed.

Lemma append_assoc (a b c : string) :
  ((a ++ b) ++ c)%string = (a ++ (b ++ c))%string.
Proof. induction a as [|x a IH]; simpl; [reflexivity|now rewrite IH]. Qed.

Lemma leb_date_parts (a b x y : string) :
  String.leb (a ++ "-" ++ b ++ "-" ++ x) (a ++ "-" ++ b ++ "-" ++ y)
  = String.leb x y.
Proof.
  rewrite (leb_append a). cbn [String.append]. rewrite leb_cons.
  rewrite (leb_append b). cbn [String.append]. now rewrite leb_cons.
Qed.

(** A string between two strings that start alike starts like them. *)
Lemma leb_between (p x y s : string) :
  String.leb (p ++ x) s = true -> String.leb s (p ++ y) = true ->
  exists z, s = (p ++ z)%string.
Proof.
  revert s. induction p as [|c p IH]; intros s Hlo Hhi.
  - now exists s.
  - destruct s as [|c' s]; [discriminate|].
    cbn [String.append] in *. unfold String.leb in Hlo, Hhi.
    cbn [String.compare] in Hlo, Hhi.
    rewrite (Ascii.compare_antisym c' c) in Hhi.
    destruct (Ascii.compare c c') eqn:E; cbn [CompOpp] in Hhi;
      try discriminate.
    apply Ascii.compare_eq_iff in E. subst c'.
    destruct (IH s) as [z ->]; [exact Hlo|exact Hhi|].
    now exists z.
Qed.

(** A day of the month from 1 to 31, padded, sorts between 01 and 31. *)
Lemma day_between (n : Z) :
  1 <= n <= 31 ->
  String.leb "01" (JsString.padStart 2 "0" (JsString.ofInt n)) = true
  /\ String.leb (JsString.padStart 2 "0" (JsString.ofInt n)) "31" = true.
Proof.
  intros Hn.
  assert (H : all_days 31 1
            (fun n => String.leb "01"
                        (JsString.padStart 2 "0" (JsString.ofInt n))
                      && String.leb
                           (JsString.padStart 2 "0" (JsString.ofInt n))
                           "31") = true) by (vm_compute; reflexivity).
  pose proof (all_days_spec _ _ _ H n ltac:(lia)) as Hc. cbv beta in Hc.
  now apply andb_true_iff in Hc.
Qed.

End StringOrder.

Section MonthQuery.

Variables (userId year month : Z) (db : database).

Lemma getEntriesForMonth_In (e : entry) :
  In e (getEntriesForMonth userId year month db) <->
  In e (entries db) /\ user_id e = userId
  /\ String.leb (month_start year month) (date e) = true
  /\ String.leb (date e) (month_end year month) = true.
Proof.
  unfold getEntriesForMonth.
  rewrite sort_by_In, filter_In, !andb_true_iff, Z.eqb_eq. tauto.
Qed.

(** The dates of a month lie between the bounds of the month. *)
Lemma formatDate_in_month (t : Date) :
  getFullYear t = year -> getMonth t + 1 = month ->
  String.leb (month_start year month) (formatDate t) = true
  /\ String.leb (formatDate t) (month_end year month) = true.
Proof.
  intros <- <-. unfold month_start, month_end, formatDate. cbv zeta.
  destruct (civil_from_days_bounds t) as [_ Hd].
  destruct (day_between _ Hd) as [Hlo Hhi].
  split.
  - now rewrite (leb_date_parts _ _ "01").
  - now rewrite (leb_date_parts _ _ _ "31").
Qed.

(** A four-digit date between the bounds of a month is of that month. *)
Lemma formatDate_of_month (t : Date) :
  1000 <= year <= 9999 -> 1 <= month <= 12 ->
  1000 <= getFullYear t <= 9999 ->
  String.leb (month_start year month) (formatDate t) = true ->
  String.leb (formatDate t) (month_end year month) = true ->
  getFullYear t = year /\ getMonth t + 1 = month.
Proof.
  intros Hy Hm Hty Hlo Hhi.
  destruct (four_digits _ Hy) as [a [b [c [e [Ey Hy4]]]]].
  destruct (two_digits month ltac:(lia)) as [n1 [n2 [Em Hm2]]].
  destruct (formatDate_shape t) as [m1 [m2 [d1 [d2 [Et [Htm _]]]]]].
  destruct (four_digits _ Hty) as [a' [b' [c' [e' [Ety Hty4]]]]].
  unfold month_start, month_end in *. rewrite Ey, Em in Hlo, Hhi.
  cbn [String.append] in Hlo, Hhi.
  destruct (leb_between
              (String a (String b (String c (String e (String "-"
                 (String n1 (String n2 (String "-" ""))))))))
              "01" "31" (formatDate t) Hlo Hhi) as [z Hz].
  rewrite Et, Ety in Hz. cbn [String.append] in Hz.
  injection Hz as -> -> -> -> -> ->. split; congruence.
Qed.

End MonthQuery.

(** X12.  For a year and a month that are safe integers, as [parseInt]
    gives them, the month query returns rows of the user only, ordered by
    date ascending, among them every row of the user dated a day of that
    month; and for years of four digits a returned row dated by
    [formatDate] is dated a day of that month. *)
Theorem getEntriesForMonth_is_the_month
    (userId year month : Z) (db : database) :
  safe_integer year -> safe_integer month ->
  Sorted (fun a b => String.leb (date a) (date b) = true)
         (getEntriesForMonth userId year month db)
  /\ (forall e, In e (getEntriesForMonth userId year month db) ->
        In e (entries db) /\ user_id e = userId)
  /\ (forall e t,
        In e (entries db) -> user_id e = userId -> date e = formatDate t ->
        getFullYear t = year -> getMonth t + 1 = month ->
        In e (getEntriesForMonth userId year month db))
  /\ (forall e t,
        1000 <= year <= 9999 -> 1 <= month <= 12 ->
        1000 <= getFullYear t <= 9999 ->
        In e (getEntriesForMonth userId year month db) ->
        date e = formatDate t ->
        getFullYear t = year /\ getMonth t + 1 = month).
Proof.
  intros _ _.
  split; [|split; [|split]].
  - unfold getEntriesForMonth. apply (sort_by_sorted date_asc).
    intros x y. apply String.leb_total.
  - intros e He. apply getEntriesForMonth_In in He. tauto.
  - intros e t Hin Hu Hd Hy Hm. apply getEntriesForMonth_In.
    destruct (formatDate_in_month year month t Hy Hm) as [Hlo Hhi].
    rewrite Hd. tauto.
  - intros e t Hy Hm Hty He Hd. apply getEntriesForMonth_In in He.
    destruct He as [_ [_ [Hlo Hhi]]]. rewrite Hd in Hlo, Hhi.
    now apply formatDate_of_month.
Qed.

(** The three days of January 2024 of [log_run 3 19725 init] are in the
    query for January and not in the one for February. *)
Lemma getEntriesForMonth_january :
  map date (getEntriesForMonth 1 2024 1 (log_run 3 19725 init))
  = ["2024-01-03"; "2024-01-04"; "2024-01-05"]
  /\ (forall e,
        In e (getEntriesForMonth 1 2024 2 (log_run 3 19725 init)) ->
        date e = formatDate 19727 -> False).
Proof.
  split; [reflexivity|].
  intros e He Hd.
  assert (Hy : 1000 <= getFullYear 19727 <= 9999)
    by (vm_compute; split; discriminate).
  destruct (getEntriesForMonth_is_the_month 1 2024 2 (log_run 3 19725 init))
    as [_ [_ [_ Hmonth]]].
  - unfold safe_integer. lia.
  - unfold safe_integer. lia.
  - destruct (Hmonth e 19727 ltac:(lia) ltac:(lia) Hy He Hd) as [_ Hm].
    vm_compute in Hm. discriminate.
Defined.

(* ================================================================== *)
(** ** The date check of POST /api/entries and GET /api/entries/:date *)

Section PostAndGet.

Variables (today : Date) (now : string) (userId : Z).

Lemma formatDate_truthy (t : Date) : JsString.truthy (formatDate t) = true.
Proof.
  destruct (formatDate_shape t) as [m1 [m2 [d1 [d2 [E _]]]]]. rewrite E.
  now destruct (JsString.ofInt (getFullYear t)).
Qed.

(** The checks of the route that come before the date check pass. *)
Lemma post_entry_date_check (b : body) (d : string) (db : database) :
  body_date b = Some d -> JsString.truthy d = true ->
  ~ trimmed_text_too_short b -> ~ rating_outside b ->
  post_entry today now userId b db
  = if gt (parse (d ++ "T00:00:00")) (Some today)
    then (Error 400 "Cannot create entry for future date", db)
    else (Saved (if body_skipped b then "Day skipped" else "Entry saved")
                d (stored_rating b) (body_skipped b),
          createOrUpdateEntry now userId d (stored_text b) (body_skipped b)
                              (stored_rating b) db).
Proof.
  intros Hd Ht Htext Hrate. unfold post_entry. rewrite Hd, Ht. cbn [negb].
  pose proof (text_checks_iff b) as Hc.
  destruct (negb (body_skipped b) && text_blank (body_text b)
            || negb (body_skipped b)
               && (JsString.length (trimmed (body_text b)) <? MIN_CHARS))
    eqn:E; [exfalso; now apply Htext, Hc|].
  apply orb_false_iff in E. destruct E as [-> ->].
  pose proof (rating_invalid_iff (body_rating b)) as Hr.
  destruct (rating_invalid (body_rating b));
    [exfalso; apply Hrate; now apply Hr|].
  reflexivity.
Qed.

(** The route on a request dated a calendar day that passes the text and
    rating checks. *)
Lemma post_entry_dated (b : body) (t : Date) (db : database) :
  dated b t -> ~ trimmed_text_too_short b -> ~ rating_outside b ->
  post_entry today now userId b db
  = if today <? t
    then (Error 400 "Cannot create entry for future date", db)
    else (Saved (if body_skipped b then "Day skipped" else "Entry saved")
                (formatDate t) (stored_rating b) (body_skipped b),
          createOrUpdateEntry now userId (formatDate t) (stored_text b)
                              (body_skipped b) (stored_rating b) db).
Proof.
  intros [Hy Hd] Htext Hrate.
  rewrite (post_entry_date_check b (formatDate t) db Hd (formatDate_truthy t)
             Htext Hrate).
  rewrite (parse_formatDate t Hy). reflexivity.
Qed.

(** A request dated a calendar day is refused exactly when the day is
    after today, the trimmed text too short or the rating none of 1, 2,
    3. *)
Lemma post_entry_dated_refused_iff (b : body) (t : Date) (db : database) :
  dated b t ->
  (exists msg, fst (post_entry today now userId b db) = Error 400 msg)
  <-> (today < t \/ trimmed_text_too_short b \/ rating_outside b).
Proof.
  intros [Hy Hd]. rewrite post_entry_refused_iff. split.
  - intros [[H|H]|[[d [t' [Hd' [Hp Hlt]]]]|H]].
    + congruence.
    + rewrite Hd in H. injection H as H.
      pose proof (formatDate_truthy t) as Ht. rewrite H in Ht. discriminate.
    + left. rewrite Hd in Hd'. injection Hd' as <-.
      rewrite (parse_formatDate t Hy) in Hp. injection Hp as <-. exact Hlt.
    + right. exact H.
  - intros [H|H].
    + right. left. exists (formatDate t), t.
      split; [exact Hd|split; [now apply parse_formatDate|exact H]].
    + right. right. exact H.
Qed.

End PostAndGet.

(** Claim C4 (as amended).  For a request whose date is a calendar day
    written YYYY-MM-DD, the upsert fails with status 400 exactly when the
    day is after today, the text of a request that is not a skip is absent
    or, once trimmed, shorter than [MIN_CHARS], or a rating is sent that is
    none of 1, 2, 3; a request without a date, or with an empty one, fails
    with status 400 as well.  A refused request writes nothing.  Every
    other request succeeds, whatever older days are missing: it runs the
    one upsert, after which the row of its (user, date) holds what was
    sent, the trimmed text for the text, the only row of that key in a
    table built by upserts, the rows of the other keys being untouched. *)
Theorem post_entry_refuses_exactly_invalid
    (today : Date) (now : string) (userId : Z) (b : body) (db : database) :
  (date_missing b ->
   post_entry today now userId b db = (Error 400 "Date is required", db))
  /\ (forall t, dated b t ->
        ((exists msg, fst (post_entry today now userId b db) = Error 400 msg)
         <-> (today < t \/ trimmed_text_too_short b \/ rating_outside b))
        /\ (today < t \/ trimmed_text_too_short b \/ rating_outside b ->
            snd (post_entry today now userId b db) = db)
        /\ (~ (today < t \/ trimmed_text_too_short b \/ rating_outside b) ->
            exists e,
              post_entry today now userId b db
              = (Saved (if body_skipped b then "Day skipped"
                        else "Entry saved")
                       (formatDate t) (stored_rating b) (body_skipped b),
                 createOrUpdateEntry now userId (formatDate t)
                   (stored_text b) (body_skipped b) (stored_rating b) db)
              /\ getEntry userId (formatDate t)
                   (snd (post_entry today now userId b db)) = Some e
              /\ text e = stored_text b /\ rating e = stored_rating b
              /\ skipped e = (if body_skipped b then 1 else 0)
              /\ updated_at e = now
              /\ (reachable db ->
                  rows_for userId (formatDate t)
                    (snd (post_entry today now userId b db)) = [e])
              /\ (forall u k, (u, k) <> (userId, formatDate t) ->
                    rows_for u k (snd (post_entry today now userId b db))
                    = rows_for u k db))).
Proof.
  split.
  { unfold date_missing, post_entry. intros [H|H]; rewrite H; reflexivity. }
  intros t Hd.
  split; [now apply post_entry_dated_refused_iff|]. split.
  { intros H.
    apply (post_entry_dated_refused_iff today now userId b t db Hd) in H.
    destruct H as [msg Hmsg].
    exact (post_entry_error_keeps_db today now userId b db 400 msg Hmsg). }
  intros Hvalid.
  assert (Hpost : post_entry today now userId b db
                  = (Saved (if body_skipped b then "Day skipped"
                            else "Entry saved")
                           (formatDate t) (stored_rating b) (body_skipped b),
                     createOrUpdateEntry now userId (formatDate t)
                       (stored_text b) (body_skipped b) (stored_rating b)
                       db)).
  { rewrite (post_entry_dated today now userId b t db Hd) by tauto.
    replace (today <? t) with false by (symmetry; apply Z.ltb_ge; lia).
    reflexivity. }
  destruct (getEntry_written now userId (formatDate t) (stored_text b)
              (body_skipped b) (stored_rating b) db)
    as [e [Hget [Ht [Hr [Hs Hu]]]]].
  exists e. rewrite Hpost. cbn [snd].
  repeat split; auto.
  - intros Hreach.
    destruct (upsert_row now userId (formatDate t) (stored_text b)
                (body_skipped b) (stored_rating b) db
                (reachable_unique db Hreach)) as [e' [Hrows _]].
    rewrite Hrows. f_equal.
    unfold rows_for in Hrows. unfold getEntry in Hget.
    set (l := entries (createOrUpdateEntry now userId (formatDate t)
                         (stored_text b) (body_skipped b) (stored_rating b)
                         db)) in *.
    clearbody l. clear - Hrows Hget.
    induction l as [|x r IH]; [discriminate|].
    cbn [filter find] in *.
    destruct (has_key userId (formatDate t) x); [congruence|auto].
  - intros u k Hne. now apply rows_for_other.
Qed.

(** A text sent on 2024-01-05 for that day is stored. *)
Lemma post_entry_barista :
  dated (mkBody (Some "2024-01-05") (Some barista_text) (Some 3) false) 19727
  /\ fst (post_entry 19727 "2024-01-05T09:00:00.000Z" 1
            (mkBody (Some "2024-01-05") (Some barista_text) (Some 3) false)
            init)
     = Saved "Entry saved" "2024-01-05" (Some 3) false.
Proof.
  assert (Hd : dated (mkBody (Some "2024-01-05") (Some barista_text)
                             (Some 3) false) 19727).
  { split; [vm_compute; split; discriminate|reflexivity]. }
  split; [exact Hd|].
  destruct (proj2 (post_entry_refuses_exactly_invalid
                     19727 "2024-01-05T09:00:00.000Z" 1
                     (mkBody (Some "2024-01-05") (Some barista_text)
                             (Some 3) false) init) 19727 Hd)
    as [_ [_ Hsaved]].
  destruct Hsaved as [e [Hpost _]].
  - unfold trimmed_text_too_short, rating_outside.
    cbn [body_text body_rating body_skipped].
    intros [H|[[_ [H|[t [Ht Hlt]]]]|[r [Hr H]]]]; try discriminate.
    + injection Ht as <-. vm_compute in Hlt. discriminate.
    + injection Hr as <-. lia.
  - rewrite Hpost. reflexivity.
Defined.

(** Claim C4 as stated fails on a padded text: on 2024-01-05, for that
    day, a text of 100 code units, so neither empty nor shorter than the
    minimum, is refused because its trimmed form has 99. *)
Lemma post_entry_refuses_padded_text :
  dated (mkBody (Some "2024-01-05") (Some padded_text) None false) 19727
  /\ ~ (date_missing
          (mkBody (Some "2024-01-05") (Some padded_text) None false)
        \/ date_after 19727
             (mkBody (Some "2024-01-05") (Some padded_text) None false)
        \/ text_too_short
             (mkBody (Some "2024-01-05") (Some padded_text) None false)
        \/ rating_outside
             (mkBody (Some "2024-01-05") (Some padded_text) None false))
  /\ post_entry 19727 "2024-01-05T09:00:00.000Z" 1
       (mkBody (Some "2024-01-05") (Some padded_text) None false) init
     = (Error 400 "Entry must be at least 100 characters", init).
Proof.
  split; [split; [vm_compute; split; discriminate|reflexivity]|].
  split; [|vm_compute; reflexivity].
  unfold date_missing, date_after, dated, text_too_short, rating_outside.
  cbn [body_date body_text body_rating body_skipped].
  intros [[H|H]|[[t [[_ Hd] Hlt]]|[[_ [H|[t [Ht [H|Hlt]]]]]|[r [Hr H]]]]];
    try discriminate.
  - injection Hd as Hd. change "2024-01-05" with (formatDate 19727) in Hd.
    apply formatDate_inj in Hd. lia.
  - injection Ht as <-. discriminate.
  - injection Ht as <-. vm_compute in Hlt. discriminate.
Qed.

(** Claim C5 (as amended).  For every calendar day not after today, an
    upsert with skipped=true succeeds and stores an entry with text absent
    and rating absent, whatever text is sent along and whatever rating
    among absent, 1, 2 and 3; with any other rating the skip is refused
    with status 400 and nothing is written. *)
Theorem post_entry_skip_clears_text_and_rating
    (today : Date) (now : string) (userId : Z) (t : Date)
    (txt : option string) (rate : option Z) (db : database) :
  1000 <= getFullYear t <= 9999 -> t <= today ->
  (rate = None \/ rate = Some 1 \/ rate = Some 2 \/ rate = Some 3 ->
   fst (post_entry today now userId
          (mkBody (Some (formatDate t)) txt rate true) db)
   = Saved "Day skipped" (formatDate t) None true
   /\ exists e,
        getEntry userId (formatDate t)
          (snd (post_entry today now userId
                  (mkBody (Some (formatDate t)) txt rate true) db)) = Some e
        /\ text e = None /\ rating e = None /\ skipped e = 1)
  /\ ((exists r, rate = Some r /\ r <> 1 /\ r <> 2 /\ r <> 3) ->
      post_entry today now userId
        (mkBody (Some (formatDate t)) txt rate true) db
      = (Error 400 "Invalid rating value", db)).
Proof.
  intros Hy Hle. split.
  - intros Hrate.
    rewrite (post_entry_dated today now userId
               (mkBody (Some (formatDate t)) txt rate true) t db).
    + replace (today <? t) with false by (symmetry; apply Z.ltb_ge; lia).
      cbn [fst snd body_skipped]. unfold stored_rating, stored_text.
      cbn [body_skipped]. split; [reflexivity|].
      destruct (getEntry_written now userId (formatDate t) None true None db)
        as [e [Hget [Ht [Hr [Hs _]]]]].
      exists e. auto.
    + split; [exact Hy|reflexivity].
    + intros [H _]. discriminate.
    + intros [r [Hr [H1 [H2 H3]]]]. cbn [body_rating] in Hr.
      destruct Hrate as [E|[E|[E|E]]]; rewrite E in Hr; try discriminate;
        injection Hr as <-; lia.
  - intros Hout. unfold post_entry.
    cbn [body_date body_skipped body_text body_rating].
    rewrite formatDate_truthy. cbn [negb andb].
    replace (rating_invalid rate) with true
      by (symmetry; now apply rating_invalid_iff).
    reflexivity.
Qed.

(** On 2024-01-05, 2024-01-04 is skipped with a text and rating 2 sent
    along. *)
Lemma post_entry_skip_with_rating :
  formatDate 19726 = "2024-01-04"
  /\ exists e,
       getEntry 1 "2024-01-04"
         (snd (post_entry 19727 "2024-01-05T09:00:00.000Z" 1
                 (mkBody (Some "2024-01-04") (Some "meh") (Some 2) true)
                 january_log))
       = Some e
       /\ text e = None /\ rating e = None /\ skipped e = 1.
Proof.
  split; [reflexivity|].
  destruct (post_entry_skip_clears_text_and_rating
              19727 "2024-01-05T09:00:00.000Z" 1 19726 (Some "meh")
              (Some 2) january_log) as [Hskip _].
  - vm_compute. split; discriminate.
  - lia.
  - destruct Hskip as [_ He]; [|exact He].
    right. right. left. reflexivity.
Defined.

(** Claim C5 as stated fails for a rating outside 1, 2, 3: a skip of
    2024-01-05, sent that day with rating 7, is refused. *)
Lemma post_entry_skip_with_rating_7 :
  formatDate 19727 = "2024-01-05"
  /\ parse ("2024-01-05" ++ "T00:00:00") = Some 19727
  /\ post_entry 19727 "2024-01-05T09:00:00.000Z" 1
       (mkBody (Some "2024-01-05") None (Some 7) true) init
     = (Error 400 "Invalid rating value", init).
Proof. repeat split; vm_compute; reflexivity. Qed.


(** X13.  For a date written by [formatDate] for a day of a four-digit
    year, in a request that passes the text and rating checks, the route
    refuses the date as a future date exactly when the day is after today:
    the entry of today is accepted, the entry of tomorrow is not and leaves
    the table as it is. *)
Theorem post_entry_future_check
    (today : Date) (now : string) (userId : Z) (b : body) (t : Date)
    (db : database) :
  1000 <= getFullYear t <= 9999 ->
  body_date b = Some (formatDate t) ->
  ~ trimmed_text_too_short b -> ~ rating_outside b ->
  (today < t ->
   post_entry today now userId b db
   = (Error 400 "Cannot create entry for future date", db))
  /\ (t <= today ->
      post_entry today now userId b db
      = (Saved (if body_skipped b then "Day skipped" else "Entry saved")
               (formatDate t) (stored_rating b) (body_skipped b),
         createOrUpdateEntry now userId (formatDate t) (stored_text b)
                             (body_skipped b) (stored_rating b) db)).
Proof.
  intros Hy Hd Htext Hrate.
  rewrite (post_entry_date_check today now userId b (formatDate t) db
             Hd (formatDate_truthy t) Htext Hrate).
  rewrite (parse_formatDate t Hy). cbn [gt].
  split; intros H.
  - now replace (today <? t) with true by (symmetry; apply Z.ltb_lt; lia).
  - now replace (today <? t) with false by (symmetry; apply Z.ltb_ge; lia).
Qed.

(** On 2024-01-05 a skip of 2024-01-06 is refused. *)
Lemma post_entry_skip_tomorrow :
  post_entry 19727 "2024-01-05T09:00:00.000Z" 1
    (mkBody (Some (formatDate 19728)) None None true) january_log
  = (Error 400 "Cannot create entry for future date", january_log).
Proof.
  apply (post_entry_future_check 19727 "2024-01-05T09:00:00.000Z" 1
           (mkBody (Some (formatDate 19728)) None None true) 19728
           january_log).
  - vm_compute. split; discriminate.
  - reflexivity.
  - intros [H _]. discriminate.
  - intros [r [H _]]. discriminate.
  - lia.
Defined.

(** X14.  An accepted POST for a calendar day followed by GET
    /api/entries/:date for that day answers the entry stored: the date,
    the trimmed text (none for a skip), the rating kept, the skipped flag,
    the creation time of the row that was there or the time of the write,
    and the time of the write as the update time.  GET for every other
    day answers what it answered before. *)
Theorem get_entry_after_post
    (today : Date) (now : string) (userId : Z) (b : body) (t : Date)
    (db : database) :
  dated b t -> t <= today ->
  ~ trimmed_text_too_short b -> ~ rating_outside b ->
  get_entry userId (formatDate t) (snd (post_entry today now userId b db))
  = Json (mkEntryJson (formatDate t) (stored_text b) (stored_rating b)
            (body_skipped b)
            match getEntry userId (formatDate t) db with
            | Some old => created_at old
            | None => now
            end
            now)
  /\ (forall t', t' <> t ->
        get_entry userId (formatDate t')
          (snd (post_entry today now userId b db))
        = get_entry userId (formatDate t') db).
Proof.
  intros Hd Hle Htext Hrate.
  rewrite (post_entry_dated today now userId b t db Hd Htext Hrate).
  replace (today <? t) with false by (symmetry; apply Z.ltb_ge; lia).
  cbn [snd]. unfold get_entry. rewrite getEntry_upsert_same. split.
  - destruct (getEntry userId (formatDate t) db) as [old|] eqn:Hold.
    + apply find_some in Hold. destruct Hold as [_ Hk].
      unfold has_key in Hk. apply andb_true_iff in Hk.
      destruct Hk as [_ Hk]. apply String.eqb_eq in Hk.
      cbn [do_update date text rating skipped created_at updated_at].
      rewrite Hk. now destruct (body_skipped b).
    + cbn [date text rating skipped created_at updated_at].
      now destruct (body_skipped b).
  - intros t' Hne. rewrite getEntry_upsert_other; [reflexivity|].
    intros E. injection E as E. apply formatDate_inj in E. contradiction.
Qed.

(** The text of 2024-01-05 posted that day with spaces around it. *)
Lemma get_entry_barista :
  get_entry 1 "2024-01-05"
    (snd (post_entry 19727 "2024-01-05T09:00:00.000Z" 1
            (mkBody (Some "2024-01-05")
                    (Some ("  " ++ barista_text ++ " ")) (Some 3) false)
            init))
  = Json (mkEntryJson "2024-01-05" (Some barista_text) (Some 3) false
            "2024-01-05T09:00:00.000Z" "2024-01-05T09:00:00.000Z").
Proof.
  destruct (get_entry_after_post 19727 "2024-01-05T09:00:00.000Z" 1
              (mkBody (Some "2024-01-05")
                      (Some ("  " ++ barista_text ++ " ")) (Some 3) false)
              19727 init) as [Hget _].
  - split; [vm_compute; split; discriminate|reflexivity].
  - lia.
  - intros [_ [H|[s [Hs Hlt]]]]; [discriminate|].
    injection Hs as <-. vm_compute in Hlt. discriminate.
  - intros [r [Hr H]]. injection Hr as <-. lia.
  - exact Hget.
Defined.

(* ================================================================== *)
(** ** GET /api/entries/dashboard *)

Lemma served_reachable (db : database) : served db -> reachable db.
Proof.
  induction 1 as [|today now userId b db Hs IH]; [constructor|].
  unfold post_entry. destruct (body_date b) as [d|]; [|exact IH].
  repeat match goal with
         | |- context [if ?c then (Error _ _, _) else _] =>
             destruct c; [exact IH|]
         end.
  cbn [snd]. now constructor.
Qed.







(* ================================================================== *)
(** ** Objects keyed by date: the month and export routes *)

Section Objects.

Context {V : Type}.

Lemma own_get_set_same (k : string) (v : V) (o : object V) :
  object_get k (own_set k v o) = Some v.
Proof.
  unfold object_get. induction o as [|[k' v'] o IH]; cbn [own_set find fst].
  - now rewrite String.eqb_refl.
  - destruct (String.eqb k' k) eqn:E; cbn [find fst].
    + now rewrite String.eqb_refl.
    + rewrite E. exact IH.
Qed.

Lemma own_get_set_other (k k' : string) (v : V) (o : object V) :
  k <> k' -> object_get k (own_set k' v o) = object_get k o.
Proof.
  intros Hne. unfold object_get.
  induction o as [|[k0 v0] o IH]; cbn [own_set find fst].
  - now replace (String.eqb k' k) with false
      by (symmetry; apply String.eqb_neq; congruence).
  - destruct (String.eqb_spec k0 k') as [->|Hk0]; cbn [find fst].
    + replace (String.eqb k' k) with false
        by (symmetry; apply String.eqb_neq; congruence).
      reflexivity.
    + destruct (String.eqb k0 k); [reflexivity|exact IH].
Qed.

Lemma object_get_set_same (k : string) (v : V) (o : object V) :
  k <> "__proto__" -> object_get k (object_set k v o) = Some v.
Proof.
  intros Hk. unfold object_set.
  replace (String.eqb k "__proto__") with false
    by (symmetry; now apply String.eqb_neq).
  apply own_get_set_same.
Qed.

Lemma object_get_set_other (k k' : string) (v : V) (o : object V) :
  k <> k' -> object_get k (object_set k' v o) = object_get k o.
Proof.
  intros Hne. unfold object_set.
  destruct (String.eqb k' "__proto__"); [reflexivity|].
  now apply own_get_set_other.
Qed.

(** No assignment gives the object an own property [__proto__]. *)
Lemma object_get_set_proto (k : string) (v : V) (o : object V) :
  object_get "__proto__" (object_set k v o) = object_get "__proto__" o.
Proof.
  destruct (String.eqb_spec k "__proto__") as [->|Hk].
  - reflexivity.
  - apply object_get_set_other. congruence.
Qed.

(** The object built from rows of distinct dates holds, under a date
    other than [__proto__], the row of that date. *)
Lemma object_of_rows (f : entry -> V) (k : string) (l : list entry) :
  forall o : object V,
    NoDup (map date l) ->
    object_get k (fold_left (fun acc e => object_set (date e) (f e) acc) l o)
    = if String.eqb k "__proto__" then object_get k o
      else match find (fun e => String.eqb (date e) k) l with
           | Some e => Some (f e)
           | None => object_get k o
           end.
Proof.
  induction l as [|x l IH]; intros o Hnd.
  - cbn [fold_left find]. now destruct (String.eqb k "__proto__").
  - cbn [fold_left find map] in *.
    apply NoDup_cons_iff in Hnd. destruct Hnd as [Hx Hl].
    rewrite (IH _ Hl).
    destruct (String.eqb_spec k "__proto__") as [Hk|Hk].
    + subst k. apply object_get_set_proto.
    + destruct (String.eqb_spec (date x) k) as [E|E].
      * subst k.
        destruct (find (fun e => String.eqb (date e) (date x)) l)
          as [y|] eqn:Hy.
        -- apply find_some in Hy. destruct Hy as [Hin Hd].
           apply String.eqb_eq in Hd. exfalso. apply Hx. rewrite <- Hd.
           now apply in_map.
        -- now apply object_get_set_same.
      * destruct (find (fun e => String.eqb (date e) k) l); [reflexivity|].
        apply object_get_set_other. congruence.
Qed.

End Objects.

Section RowsOfAUser.

Variables (userId : Z) (p : entry -> bool).
Hypothesis p_user : forall e, p e = true -> user_id e = userId.

Lemma has_key_of_date (e : entry) :
  p e = true -> has_key userId (date e) e = true.
Proof.
  intros He. unfold has_key.
  now rewrite (p_user e He), Z.eqb_refl, String.eqb_refl.
Qed.

Lemma unique_row (l : list entry) (k : string) (a b : entry) :
  (List.length (filter (has_key userId k) l) <= 1)%nat ->
  In a l -> In b l ->
  has_key userId k a = true -> has_key userId k b = true -> a = b.
Proof.
  intros Huniq Ha Hb Hka Hkb.
  assert (Hfa : In a (filter (has_key userId k) l))
    by (apply filter_In; now split).
  assert (Hfb : In b (filter (has_key userId k) l))
    by (apply filter_In; now split).
  destruct (filter (has_key userId k) l) as [|x [|y r]].
  - destruct Hfa.
  - destruct Hfa as [<-|[]]. now destruct Hfb as [<-|[]].
  - cbn [List.length] in Huniq. lia.
Qed.

(** Rows of one user with one row at most under a key have distinct
    dates. *)
Lemma dates_NoDup (l : list entry) :
  (forall k, (List.length (filter (has_key userId k) l) <= 1)%nat) ->
  NoDup (map date (filter p l)).
Proof.
  induction l as [|x l IH]; intros Huniq; [constructor|].
  assert (Htail : forall k,
            (List.length (filter (has_key userId k) l) <= 1)%nat).
  { intros k. specialize (Huniq k). cbn [filter] in Huniq.
    destruct (has_key userId k x); cbn [List.length] in Huniq; lia. }
  cbn [filter]. destruct (p x) eqn:Hpx; [|now apply IH].
  cbn [map]. constructor; [|now apply IH].
  intros Hin. apply in_map_iff in Hin. destruct Hin as [y [Hd Hy]].
  apply filter_In in Hy. destruct Hy as [Hy Hpy].
  specialize (Huniq (date x)). cbn [filter] in Huniq.
  rewrite (has_key_of_date x Hpx) in Huniq.
  assert (Hiny : In y (filter (has_key userId (date x)) l)).
  { apply filter_In. split; [exact Hy|].
    rewrite <- Hd. now apply has_key_of_date. }
  destruct (filter (has_key userId (date x)) l); [destruct Hiny|].
  cbn [List.length] in Huniq. lia.
Qed.

Lemma sorted_dates_NoDup (le : entry -> entry -> bool) (l : list entry) :
  (forall k, (List.length (filter (has_key userId k) l) <= 1)%nat) ->
  NoDup (map date (sort_by le (filter p l))).
Proof.
  intros Huniq.
  apply (Permutation_NoDup
           (Permutation_map date (sort_by_perm le (filter p l)))).
  now apply dates_NoDup.
Qed.

(** The row of a date among the selected and sorted rows of the user is
    the row [getEntry] reads, when that row is selected. *)
Lemma find_sorted_filter (le : entry -> entry -> bool) (l : list entry)
    (k : string) :
  (List.length (filter (has_key userId k) l) <= 1)%nat ->
  find (fun e => String.eqb (date e) k) (sort_by le (filter p l))
  = match find (has_key userId k) l with
    | Some e => if p e then Some e else None
    | None => None
    end.
Proof.
  intros Huniq.
  assert (Hsel : forall e,
            In e (sort_by le (filter p l)) -> String.eqb (date e) k = true ->
            In e l /\ p e = true /\ has_key userId k e = true).
  { intros e He Hd. apply sort_by_In, filter_In in He.
    destruct He as [He Hp]. repeat split; auto.
    apply String.eqb_eq in Hd. rewrite <- Hd. now apply has_key_of_date. }
  destruct (find (fun e => String.eqb (date e) k) (sort_by le (filter p l)))
    as [e'|] eqn:Hsorted.
  - apply find_some in Hsorted. destruct Hsorted as [Hin Hd].
    destruct (Hsel e' Hin Hd) as [Hl [Hp Hk]].
    destruct (find (has_key userId k) l) as [e|] eqn:Hfind.
    + apply find_some in Hfind. destruct Hfind as [Hle Hke].
      rewrite (unique_row l k e e' Huniq Hle Hl Hke Hk). now rewrite Hp.
    + now rewrite (find_none _ _ Hfind e' Hl) in Hk.
  - destruct (find (has_key userId k) l) as [e|] eqn:Hfind; [|reflexivity].
    destruct (p e) eqn:Hp; [|reflexivity].
    apply find_some in Hfind. destruct Hfind as [Hle Hke].
    assert (Hin : In e (sort_by le (filter p l)))
      by (apply sort_by_In, filter_In; now split).
    pose proof (find_none _ _ Hsorted e Hin) as Hd. cbv beta in Hd.
    unfold has_key in Hke. apply andb_true_iff in Hke.
    destruct Hke as [_ Hke]. congruence.
Qed.

End RowsOfAUser.

(** X16.  In a table built by upserts, for a year and a month that are
    safe integers, the object the month route answers holds under a date
    exactly the user's entry of that date, when the date lies between the
    bounds of the month, and nothing otherwise; it has no property
    [__proto__]. *)
Theorem get_month_lookup
    (userId year month : Z) (db : database) (k : string) :
  reachable db -> safe_integer year -> safe_integer month ->
  object_get k (get_month userId year month db)
  = if String.eqb k "__proto__" then None
    else match getEntry userId k db with
         | Some e =>
             if String.leb (month_start year month) k
                && String.leb k (month_end year month)
             then Some (mkMonthEntry (text e) (rating e)
                                     (as_bool (skipped e)))
             else None
         | None => None
         end.
Proof.
  intros Hr _ _. pose proof (reachable_unique db Hr) as Huniq.
  unfold get_month, getEntriesForMonth, getEntry.
  set (p := fun e => (user_id e =? userId)
                     && String.leb (month_start year month) (date e)
                     && String.leb (date e) (month_end year month)).
  assert (Hp : forall e, p e = true -> user_id e = userId).
  { intros e He. unfold p in He. rewrite !andb_true_iff in He.
    now apply Z.eqb_eq. }
  rewrite object_of_rows
    by (apply (sorted_dates_NoDup userId p Hp); intros k'; apply Huniq).
  destruct (String.eqb k "__proto__"); [reflexivity|].
  rewrite (find_sorted_filter userId p Hp date_asc (entries db) k (Huniq _ _)).
  destruct (find (has_key userId k) (entries db)) as [e|] eqn:Hfind;
    [|reflexivity].
  apply find_some in Hfind. destruct Hfind as [_ Hk].
  unfold has_key in Hk. apply andb_true_iff in Hk. destruct Hk as [Hu Hd].
  apply String.eqb_eq in Hd. unfold p. rewrite Hu, Hd. cbn [andb].
  now destruct (String.leb (month_start year month) k
                && String.leb k (month_end year month)).
Qed.

(** January 2024 of [january_log]: the skipped 2024-01-03 is in the
    answer, a date of another month is not. *)
Lemma get_month_january :
  reachable january_log
  /\ object_get "2024-01-03" (get_month 1 2024 1 january_log)
     = Some (mkMonthEntry None None true)
  /\ object_get "2024-01-03" (get_month 1 2024 2 january_log) = None.
Proof.
  assert (Hr : reachable january_log) by (repeat constructor).
  assert (Hy : safe_integer 2024) by (unfold safe_integer; lia).
  assert (H1 : safe_integer 1) by (unfold safe_integer; lia).
  assert (H2 : safe_integer 2) by (unfold safe_integer; lia).
  split; [exact Hr|split].
  - rewrite (get_month_lookup 1 2024 1 january_log "2024-01-03" Hr Hy H1).
    reflexivity.
  - rewrite (get_month_lookup 1 2024 2 january_log "2024-01-03" Hr Hy H2).
    reflexivity.
Defined.

(** X17.  In a table built by upserts, the export of a user of the users
    table holds under each date other than [__proto__] exactly the user's
    entry of that date, skipped entries included, and no property
    [__proto__], with the email of the user, version 3, and the same total
    and current streak as the stats. *)
Theorem get_export_lookup
    (clock : string) (now : Date) (userId : Z) (users : Users.table)
    (db : database) (user : Users.user_info) :
  reachable db ->
  Users.getUserById userId users = Some user ->
  exists ex,
    get_export clock now userId users db = Json ex
    /\ export_user_email ex = Users.info_email user
    /\ export_version ex = 3
    /\ (forall k,
          object_get k (export_entries ex)
          = if String.eqb k "__proto__" then None
            else match getEntry userId k db with
                 | Some e => Some (to_export e)
                 | None => None
                 end)
    /\ export_totalEntries ex
       = stats_totalEntries (get_stats now userId db)
    /\ export_currentStreak ex
       = stats_currentStreak (get_stats now userId db).
Proof.
  intros Hr Huser. pose proof (reachable_unique db Hr) as Huniq.
  unfold get_export. rewrite Huser. cbv zeta.
  eexists. split; [reflexivity|].
  cbn [export_user_email export_version export_entries export_totalEntries
       export_currentStreak].
  repeat split.
  intros k. unfold getAllEntries, getEntry.
  set (p := fun e => user_id e =? userId).
  assert (Hp : forall e, p e = true -> user_id e = userId)
    by (intros e He; now apply Z.eqb_eq).
  rewrite object_of_rows
    by (apply (sorted_dates_NoDup userId p Hp); intros k'; apply Huniq).
  destruct (String.eqb k "__proto__"); [reflexivity|].
  rewrite (find_sorted_filter userId p Hp date_desc (entries db) k
             (Huniq _ _)).
  destruct (find (has_key userId k) (entries db)) as [e|] eqn:Hfind;
    [|reflexivity].
  apply find_some in Hfind. destruct Hfind as [_ Hk].
  unfold has_key in Hk. apply andb_true_iff in Hk. destruct Hk as [Hu _].
  unfold p. now rewrite Hu.
Qed.

(** The export of [january_log] holds the skipped 2024-01-03. *)
Lemma get_export_january :
  exists ex,
    get_export "2024-01-05T09:00:00.000Z" 19727 1 one_user january_log
    = Json ex
    /\ export_user_email ex = "ada@example.org"
    /\ object_get "2024-01-03" (export_entries ex)
       = Some (mkExportEntry None None NullLabel true
                 "2024-01-04T08:00:00.000Z" "2024-01-04T08:00:00.000Z")
    /\ object_get "__proto__" (export_entries ex) = None.
Proof.
  destruct (get_export_lookup "2024-01-05T09:00:00.000Z" 19727 1 one_user
              january_log
              (Users.mkInfo 1 "ada@example.org" "2024-01-01"
                            "2024-01-01 10:00:00"))
    as [ex [Hex [Hmail [_ [Hget _]]]]].
  - repeat constructor.
  - reflexivity.
  - exists ex. split; [exact Hex|split; [exact Hmail|split]].
    + rewrite Hget. reflexivity.
    + rewrite Hget. reflexivity.
Defined.

(** X18.  Every rating stored through the upsert route is absent or one
    of 1, 2, 3, so the export labels each entry: no label at all for an
    absent rating and one of the three labels otherwise, never an
    undefined one. *)
Theorem served_ratings_have_labels (db : database) (e : entry) :
  served db -> In e (entries db) ->
  (rating e = None \/ rating e = Some 1 \/ rating e = Some 2
   \/ rating e = Some 3)
  /\ export_ratingLabel (to_export e) <> UndefinedLabel
  /\ (export_ratingLabel (to_export e) = NullLabel <-> rating e = None).
Proof.
  intros Hserved Hin.
  assert (Hrate : rating e = None \/ rating e = Some 1 \/ rating e = Some 2
                  \/ rating e = Some 3).
  { revert e Hin.
    induction Hserved as [|today now userId b db Hs IH]; intros e Hin.
    - destruct Hin.
    - destruct (fst (post_entry today now userId b db)) eqn:Hres.
      + pose proof (post_entry_refused_iff today now userId b db) as Hiff.
        assert (Hvalid : ~ (date_missing b \/ date_in_future today b
                            \/ trimmed_text_too_short b
                            \/ rating_outside b)).
        { intros H. apply Hiff in H. destruct H as [msg' H]. congruence. }
        destruct (post_entry_accepted today now userId b db Hvalid)
          as [d' [Hd Hpost]].
        rewrite Hpost in Hin. cbn [snd] in Hin.
        apply upsert_In in Hin. destruct Hin as [Hin|[_ [Hr _]]].
        * now apply IH.
        * rewrite Hr. unfold stored_rating.
          destruct (body_skipped b); [now left|].
          destruct (body_rating b) as [r|] eqn:Hb; [|now left].
          destruct (Z.eq_dec r 1) as [->|H1]; [right; now left|].
          destruct (Z.eq_dec r 2) as [->|H2]; [right; right; now left|].
          destruct (Z.eq_dec r 3) as [->|H3]; [right; right; now right|].
          exfalso. apply Hvalid. right. right. right. now exists r.
      + unfold post_entry in Hres. destruct (body_date b); [|discriminate].
        repeat match type of Hres with
               | context [if ?c then (Error _ _, _) else _] =>
                   destruct c; [discriminate|]
               end.
        discriminate.
      + rewrite (post_entry_error_keeps_db _ _ _ _ _ _ _ Hres) in Hin.
        now apply IH. }
  split; [exact Hrate|].
  unfold to_export. cbn [export_ratingLabel].
  destruct Hrate as [H|[H|[H|H]]]; rewrite H; cbn [ratingLabel];
    (split; [discriminate|split; [discriminate|congruence]])
    || (split; [discriminate|split; [reflexivity|reflexivity]]).
Qed.

(** A text posted with rating 3. *)
Lemma served_rating_pure_joy :
  In (mkEntry 1 1 "2024-01-05" (Some barista_text) (Some 3) 0
        "2024-01-05T09:00:00.000Z" "2024-01-05T09:00:00.000Z")
     (entries (snd (post_entry 19727 "2024-01-05T09:00:00.000Z" 1
                      (mkBody (Some "2024-01-05") (Some barista_text)
                              (Some 3) false) init)))
  /\ export_ratingLabel
       (to_export (mkEntry 1 1 "2024-01-05" (Some barista_text) (Some 3) 0
                     "2024-01-05T09:00:00.000Z" "2024-01-05T09:00:00.000Z"))
     <> UndefinedLabel.
Proof.
  split; [now left|].
  apply (served_ratings_have_labels
           (snd (post_entry 19727 "2024-01-05T09:00:00.000Z" 1
                   (mkBody (Some "2024-01-05") (Some barista_text)
                           (Some 3) false) init))).
  - apply served_post. apply served_init.
  - now left.
Defined.

(* ================================================================== *)
(** ** The users table *)

Section UsersTable.

Lemma find_snoc {A : Type} (p : A -> bool) (l : list A) (x : A) :
  find p (l ++ [x]) = match find p l with
                      | Some y => Some y
                      | None => if p x then Some x else None
                      end.
Proof.
  induction l as [|y l IH]; cbn [app find]; [reflexivity|].
  now destruct (p y).
Qed.

Lemma users_update_rows (userId : Z) (h : string) (t : Users.table) :
  map Users.email (Users.rows (Users.updateUserPassword userId h t))
  = map Users.email (Users.rows t)
  /\ map Users.id (Users.rows (Users.updateUserPassword userId h t))
     = map Users.id (Users.rows t).
Proof.
  unfold Users.updateUserPassword. cbn [Users.rows].
  induction (Users.rows t) as [|u l [IH1 IH2]]; [now split|].
  cbn [map]. rewrite IH1, IH2.
  now destruct (Users.id u =? userId).
Qed.

(** Emails and ids are unique, and ids are those handed out so far. *)
Lemma registered_invariant (t : Users.table) :
  registered t ->
  NoDup (map Users.email (Users.rows t))
  /\ NoDup (map Users.id (Users.rows t))
  /\ (forall u, In u (Users.rows t) ->
        1 <= Users.id u <= Users.last_rowid t)
  /\ 0 <= Users.last_rowid t.
Proof.
  induction 1 as [|clock mail h s t Hr [He [Hi [Hb Hl]]]
                  |userId h t Hr [He [Hi [Hb Hl]]]].
  - cbn. repeat split; try constructor; try lia; intros u [].
  - unfold Users.createUser.
    destruct (existsb (fun u => String.eqb (Users.email u) mail)
                      (Users.rows t)) eqn:Hex; cbn [snd Users.rows].
    + split; [exact He|split; [exact Hi|split; [exact Hb|exact Hl]]].
    + cbn [Users.last_rowid]. rewrite !map_app. cbn [map Users.email Users.id].
      split; [|split; [|split]].
      * apply NoDup_app; [exact He|repeat constructor; intros []| ].
        intros m Hm [<-|[]]. apply in_map_iff in Hm.
        destruct Hm as [u [Hu Hin]].
        assert (Hc : existsb (fun u0 => String.eqb (Users.email u0) mail)
                             (Users.rows t) = true).
        { apply existsb_exists. exists u. split; [exact Hin|].
          now apply String.eqb_eq. }
        congruence.
      * apply NoDup_app; [exact Hi|repeat constructor; intros []| ].
        intros i Hin [<-|[]]. apply in_map_iff in Hin.
        destruct Hin as [u [Hu Hin]]. apply Hb in Hin. lia.
      * intros u Hin. apply in_app_iff in Hin.
        destruct Hin as [Hin|[<-|[]]]; [apply Hb in Hin|cbn]; lia.
      * lia.
  - destruct (users_update_rows userId h t) as [E1 E2].
    rewrite E1, E2. split; [exact He|split; [exact Hi|split; [|exact Hl]]].
    intros u Hin. unfold Users.updateUserPassword in Hin.
    cbn [Users.rows Users.last_rowid] in *. apply in_map_iff in Hin.
    destruct Hin as [v [Hv Hin]]. apply Hb in Hin.
    destruct (Users.id v =? userId); subst u; cbn; lia.
Qed.

End UsersTable.

Section UserLookup.

(** In a list without two elements of the same key, the search for the
    key of an element finds that element. *)
Lemma find_by_key {A K : Type} (key : A -> K) (eqb : K -> K -> bool)
    (l : list A) (u : A) :
  (forall a b, eqb a b = true <-> a = b) ->
  NoDup (map key l) -> In u l ->
  find (fun x => eqb (key x) (key u)) l = Some u.
Proof.
  intros Heqb. induction l as [|x l IH]; intros Hnd Hin; [destruct Hin|].
  cbn [map] in Hnd. inversion Hnd as [|? ? Hx Hl]; subst.
  cbn [find]. destruct Hin as [->|Hin].
  - now rewrite (proj2 (Heqb (key u) (key u)) eq_refl).
  - destruct (eqb (key x) (key u)) eqn:E; [|now apply IH].
    apply Heqb in E. exfalso. apply Hx. rewrite E. now apply in_map.
Qed.

Lemma Z_eqb_iff (a b : Z) : (a =? b) = true <-> a = b.
Proof. apply Z.eqb_eq. Qed.

Lemma getUserById_update (i userId : Z) (h : string) (t : Users.table) :
  Users.getUserById i (Users.updateUserPassword userId h t)
  = Users.getUserById i t.
Proof.
  unfold Users.getUserById, Users.updateUserPassword. cbn [Users.rows].
  induction (Users.rows t) as [|u l IH]; [reflexivity|].
  cbn [map find].
  destruct (Users.id u =? userId); cbn [Users.id];
    destruct (Users.id u =? i); auto.
Qed.

End UserLookup.

(** X19.  In a users table built by registrations and password changes,
    every user is found by their email and by their id, the answer by id
    being the row without its password: no two users share an email or an
    id. *)
Theorem registered_users_are_found (t : Users.table) (u : Users.user) :
  registered t -> In u (Users.rows t) ->
  Users.getUserByEmail (Users.email u) t = Some u
  /\ Users.getUserById (Users.id u) t
     = Some (Users.mkInfo (Users.id u) (Users.email u)
                          (Users.signup_date u) (Users.created_at u))
  /\ (forall v, In v (Users.rows t) ->
        Users.email v = Users.email u \/ Users.id v = Users.id u -> v = u).
Proof.
  intros Hr Hin. destruct (registered_invariant t Hr) as [He [Hi _]].
  pose proof (find_by_key Users.email String.eqb (Users.rows t) u
                String.eqb_eq He Hin) as Hmail.
  pose proof (find_by_key Users.id Z.eqb (Users.rows t) u
                Z_eqb_iff Hi Hin) as Hid.
  split; [exact Hmail|split].
  - unfold Users.getUserById. now rewrite Hid.
  - intros v Hv [E|E].
    + pose proof (find_by_key Users.email String.eqb (Users.rows t) v
                    String.eqb_eq He Hv) as Hv'.
      rewrite E in Hv'. congruence.
    + pose proof (find_by_key Users.id Z.eqb (Users.rows t) v
                    Z_eqb_iff Hi Hv) as Hv'.
      rewrite E in Hv'. congruence.
Qed.

(** The one user of [one_user]. *)
Lemma one_user_is_found :
  registered one_user
  /\ Users.getUserByEmail "ada@example.org" one_user
     = Some (Users.mkUser 1 "ada@example.org" "$2b$10$N9qo8uLOickgx2ZMRZoMye"
                          "2024-01-01" "2024-01-01 10:00:00").
Proof.
  assert (Hr : registered one_user) by (repeat constructor).
  split; [exact Hr|].
  apply (registered_users_are_found one_user
           (Users.mkUser 1 "ada@example.org" "$2b$10$N9qo8uLOickgx2ZMRZoMye"
                         "2024-01-01" "2024-01-01 10:00:00") Hr).
  now left.
Defined.

(** X20.  [createUser] with an email that is taken fails and leaves the
    table as it is.  With a free email it returns the next id and adds the
    one user, who is then found by the email and by the id, while every
    other email and id reads what it read before. *)
Theorem createUser_registers
    (clock mail hashedPassword signupDate : string) (t : Users.table) :
  registered t ->
  (Users.getUserByEmail mail t <> None ->
   Users.createUser clock mail hashedPassword signupDate t = (None, t))
  /\ (Users.getUserByEmail mail t = None ->
      fst (Users.createUser clock mail hashedPassword signupDate t)
      = Some (Users.last_rowid t + 1)
      /\ Users.getUserByEmail mail
           (snd (Users.createUser clock mail hashedPassword signupDate t))
         = Some (Users.mkUser (Users.last_rowid t + 1) mail hashedPassword
                              signupDate clock)
      /\ Users.getUserById (Users.last_rowid t + 1)
           (snd (Users.createUser clock mail hashedPassword signupDate t))
         = Some (Users.mkInfo (Users.last_rowid t + 1) mail signupDate clock)
      /\ (forall m, m <> mail ->
            Users.getUserByEmail m
              (snd (Users.createUser clock mail hashedPassword signupDate t))
            = Users.getUserByEmail m t)
      /\ (forall i, i <> Users.last_rowid t + 1 ->
            Users.getUserById i
              (snd (Users.createUser clock mail hashedPassword signupDate t))
            = Users.getUserById i t)).
Proof.
  intros Hr. destruct (registered_invariant t Hr) as [_ [_ [Hb _]]].
  unfold Users.createUser, Users.getUserByEmail.
  pose proof (find_existsb (fun u => String.eqb (Users.email u) mail)
                (Users.rows t)) as Hfe.
  destruct (existsb (fun u => String.eqb (Users.email u) mail)
                    (Users.rows t)) eqn:Hex.
  - split; [reflexivity|]. intros Hnone. rewrite Hnone in Hfe. discriminate.
  - split.
    { intros Hsome.
      destruct (find (fun u => String.eqb (Users.email u) mail)
                     (Users.rows t)); [discriminate|congruence]. }
    intros Hnone. cbn [fst snd Users.rows]. split; [reflexivity|].
    split; [|split; [|split]].
    + rewrite find_snoc, Hnone. cbn [Users.email].
      now rewrite String.eqb_refl.
    + unfold Users.getUserById. cbn [Users.rows]. rewrite find_snoc.
      destruct (find (fun u => Users.id u =? Users.last_rowid t + 1)
                     (Users.rows t)) as [u|] eqn:Hf.
      * apply find_some in Hf. destruct Hf as [Hin Hid].
        apply Hb in Hin. apply Z.eqb_eq in Hid. lia.
      * cbn [Users.id]. now rewrite Z.eqb_refl.
    + intros m Hm. rewrite find_snoc. cbn [Users.email].
      replace (String.eqb mail m) with false
        by (symmetry; apply String.eqb_neq; congruence).
      now destruct (find (fun u => String.eqb (Users.email u) m)
                         (Users.rows t)).
    + intros i Hi. unfold Users.getUserById. cbn [Users.rows].
      rewrite find_snoc. cbn [Users.id].
      replace (Users.last_rowid t + 1 =? i) with false
        by (symmetry; apply Z.eqb_neq; congruence).
      now destruct (find (fun u => Users.id u =? i) (Users.rows t)).
Qed.

(** A second registration with the email of [one_user] fails. *)
Lemma createUser_same_email :
  Users.createUser "2024-02-01 08:00:00" "ada@example.org"
    "$2b$10$7EqJtq98hPqEX7fNZaFWoO" "2024-02-01" one_user
  = (None, one_user).
Proof.
  apply (createUser_registers "2024-02-01 08:00:00" "ada@example.org"
           "$2b$10$7EqJtq98hPqEX7fNZaFWoO" "2024-02-01" one_user).
  - repeat constructor.
  - discriminate.
Defined.

(** X21.  [updateUserPassword] replaces the password of the user of that
    id and nothing else: that user is found by their email with the new
    password, every other email reads what it read before, no answer of
    [getUserById] changes, and an id that no user has changes nothing. *)
Theorem updateUserPassword_changes_one_password
    (hashedPassword : string) (t : Users.table) (u : Users.user) :
  registered t -> In u (Users.rows t) ->
  Users.getUserByEmail (Users.email u)
    (Users.updateUserPassword (Users.id u) hashedPassword t)
  = Some (Users.mkUser (Users.id u) (Users.email u) hashedPassword
                       (Users.signup_date u) (Users.created_at u))
  /\ (forall m, m <> Users.email u ->
        Users.getUserByEmail m
          (Users.updateUserPassword (Users.id u) hashedPassword t)
        = Users.getUserByEmail m t)
  /\ (forall i,
        Users.getUserById i
          (Users.updateUserPassword (Users.id u) hashedPassword t)
        = Users.getUserById i t)
  /\ (forall i, (forall v, In v (Users.rows t) -> Users.id v <> i) ->
        Users.updateUserPassword i hashedPassword t = t).
Proof.
  intros Hr Hin. destruct (registered_invariant t Hr) as [He [Hi _]].
  assert (Hsame : forall v, In v (Users.rows t) ->
                            Users.id v = Users.id u -> v = u).
  { intros v Hv E.
    pose proof (find_by_key Users.id Z.eqb (Users.rows t) v Z_eqb_iff Hi Hv)
      as Hv'.
    pose proof (find_by_key Users.id Z.eqb (Users.rows t) u Z_eqb_iff Hi Hin)
      as Hu'.
    rewrite E in Hv'. congruence. }
  pose proof (find_by_key Users.email String.eqb (Users.rows t) u
                String.eqb_eq He Hin) as Hmail.
  unfold Users.getUserByEmail, Users.updateUserPassword in *.
  cbn [Users.rows].
  split; [|split; [|split]].
  - revert Hmail Hsame. clear.
    induction (Users.rows t) as [|x l IH]; intros Hmail Hsame;
      [discriminate|].
    cbn [map find] in *.
    destruct (Users.id x =? Users.id u) eqn:Ex.
    + apply Z.eqb_eq in Ex. rewrite (Hsame x (or_introl eq_refl) Ex).
      cbn [Users.email]. now rewrite String.eqb_refl.
    + destruct (String.eqb (Users.email x) (Users.email u)).
      * injection Hmail as ->. now rewrite Z.eqb_refl in Ex.
      * apply IH; [exact Hmail|]. intros v Hv. apply Hsame. now right.
  - intros m Hm. revert Hsame. clear - Hm.
    induction (Users.rows t) as [|x l IH]; intros Hsame; [reflexivity|].
    cbn [map find].
    destruct (Users.id x =? Users.id u) eqn:Ex.
    + apply Z.eqb_eq in Ex. rewrite (Hsame x (or_introl eq_refl) Ex).
      cbn [Users.email].
      replace (String.eqb (Users.email u) m) with false
        by (symmetry; apply String.eqb_neq; congruence).
      apply IH. intros v Hv. apply Hsame. now right.
    + destruct (String.eqb (Users.email x) m); [reflexivity|].
      apply IH. intros v Hv. apply Hsame. now right.
  - intros i. apply getUserById_update.
  - intros i Hnone. destruct t as [rows last]. cbn [Users.rows] in *.
    f_equal. clear - Hnone.
    induction rows as [|x l IH]; [reflexivity|].
    cbn [map].
    replace (Users.id x =? i) with false
      by (symmetry; apply Z.eqb_neq; apply Hnone; now left).
    f_equal. apply IH. intros v Hv. apply Hnone. now right.
Qed.

(** The password of the user of [one_user] is changed. *)
Lemma updateUserPassword_one_user :
  Users.getUserByEmail "ada@example.org"
    (Users.updateUserPassword 1 "$2b$10$7EqJtq98hPqEX7fNZaFWoO" one_user)
  = Some (Users.mkUser 1 "ada@example.org" "$2b$10$7EqJtq98hPqEX7fNZaFWoO"
                       "2024-01-01" "2024-01-01 10:00:00").
Proof.
  apply (updateUserPassword_changes_one_password
           "$2b$10$7EqJtq98hPqEX7fNZaFWoO" one_user
           (Users.mkUser 1 "ada@example.org" "$2b$10$N9qo8uLOickgx2ZMRZoMye"
                         "2024-01-01" "2024-01-01 10:00:00")).
  - repeat constructor.
  - now left.
Defined.

(* ================================================================== *)
(** ** Date strings sort as days do *)

Section Chronology.

Lemma year_of_era_succ (doe : Z) :
  0 <= doe < 146096 ->
  (doe - doe / 1460 + doe / 36524 - doe / 146096) / 365
  <= (doe + 1 - (doe + 1) / 1460 + (doe + 1) / 36524
      - (doe + 1) / 146096) / 365.
Proof.
  intros H. apply Z.div_le_mono; [lia|].
  Z.div_mod_to_equations. lia.
Qed.

Lemma month_succ (doy : Z) :
  0 <= doy < 365 ->
  let mp := (5 * doy + 2) / 153 in
  let mp' := (5 * (doy + 1) + 2) / 153 in
  (mp' = mp
   /\ doy + 1 - (153 * mp' + 2) / 5 + 1 = doy - (153 * mp + 2) / 5 + 1 + 1)
  \/ (mp' = mp + 1 /\ doy + 1 - (153 * mp' + 2) / 5 + 1 = 1).
Proof.
  intros H mp mp'. subst mp mp'. Z.div_mod_to_equations. lia.
Qed.

(** The number YYYYMMDD of a day, from the year, month and day counted
    from March. *)
Lemma date_number_eq (t : Date) :
  let z' := t + 719468 in
  let era := z' / 146097 in
  let doe := z' - era * 146097 in
  let yoe := (doe - doe / 1460 + doe / 36524 - doe / 146096) / 365 in
  let doy := doe - (365 * yoe + yoe / 4 - yoe / 100) in
  let mp := (5 * doy + 2) / 153 in
  let d := doy - (153 * mp + 2) / 5 + 1 in
  date_number t
  = (yoe + era * 400) * 10000
    + (if mp <? 10 then (mp + 3) * 100 else 10000 + (mp - 9) * 100) + d.
Proof.
  cbv zeta. unfold date_number, getFullYear, getMonth, getDate,
    civil_from_days. cbn [fst snd].
  set (doe := t + 719468 - (t + 719468) / 146097 * 146097).
  set (yoe := (doe - doe / 1460 + doe / 36524 - doe / 146096) / 365).
  set (doy := doe - (365 * yoe + yoe / 4 - yoe / 100)).
  set (mp := (5 * doy + 2) / 153).
  assert (Hdoe : 0 <= doe < 146097).
  { subst doe.
    pose proof (Z.mod_pos_bound (t + 719468) 146097 ltac:(lia)) as Hm.
    rewrite Z.mod_eq in Hm by lia. lia. }
  destruct (year_of_era_bounds doe Hdoe) as [_ Hdoy]. fold yoe doy in Hdoy.
  pose proof (month_bounds doy Hdoy) as Hmp. fold mp in Hmp.
  destruct (mp <? 10) eqn:Hlt.
  - apply Z.ltb_lt in Hlt.
    replace (mp + 3 <=? 2) with false by (symmetry; apply Z.leb_gt; lia).
    lia.
  - apply Z.ltb_ge in Hlt.
    replace (mp - 9 <=? 2) with true by (symmetry; apply Z.leb_le; lia).
    lia.
Qed.

Lemma date_number_succ (t : Date) : date_number t < date_number (t + 1).
Proof.
  rewrite (date_number_eq t), (date_number_eq (t + 1)). cbv zeta.
  replace (t + 1 + 719468) with (t + 719468 + 1) by lia.
  set (z := t + 719468).
  set (era := z / 146097). set (era' := (z + 1) / 146097).
  set (doe := z - era * 146097). set (doe' := z + 1 - era' * 146097).
  assert (Hdoe : 0 <= doe < 146097).
  { subst doe era. pose proof (Z.mod_pos_bound z 146097 ltac:(lia)) as Hm.
    rewrite Z.mod_eq in Hm by lia. lia. }
  assert (Hdoe' : 0 <= doe' < 146097).
  { subst doe' era'.
    pose proof (Z.mod_pos_bound (z + 1) 146097 ltac:(lia)) as Hm.
    rewrite Z.mod_eq in Hm by lia. lia. }
  assert (Hera : (era' = era /\ doe' = doe + 1)
                 \/ (era' = era + 1 /\ doe = 146096 /\ doe' = 0)).
  { subst doe doe'. clearbody era era'. nia. }
  clearbody era era' doe doe'. clear z.
  destruct Hera as [[-> ->]|[-> [-> ->]]].
  - assert (Hlt : 0 <= doe < 146096) by lia.
    pose proof (year_of_era_succ doe Hlt) as Hyoe.
    destruct (year_of_era_bounds doe Hdoe) as [Hy Hdoy].
    destruct (year_of_era_bounds (doe + 1) Hdoe') as [Hy' Hdoy'].
    set (yoe := (doe - doe / 1460 + doe / 36524 - doe / 146096) / 365) in *.
    set (yoe' := (doe + 1 - (doe + 1) / 1460 + (doe + 1) / 36524
                  - (doe + 1) / 146096) / 365) in *.
    set (doy := doe - (365 * yoe + yoe / 4 - yoe / 100)) in *.
    set (doy' := doe + 1 - (365 * yoe' + yoe' / 4 - yoe' / 100)) in *.
    pose proof (month_bounds doy Hdoy) as Hmp.
    pose proof (month_bounds doy' Hdoy') as Hmp'.
    assert (Hd : 1 <= doy - (153 * ((5 * doy + 2) / 153) + 2) / 5 + 1 <= 31).
    { clearbody doy. Z.div_mod_to_equations. lia. }
    assert (Hd' : 1 <= doy' - (153 * ((5 * doy' + 2) / 153) + 2) / 5 + 1
                  <= 31).
    { clearbody doy'. Z.div_mod_to_equations. lia. }
    destruct (Z.eq_dec yoe' yoe) as [E|E].
    + assert (Hdoy1 : doy' = doy + 1) by (subst doy doy'; rewrite E; lia).
      rewrite E, Hdoy1 in *.
      destruct (month_succ doy ltac:(lia)) as [[Em Ed]|[Em Ed]];
        rewrite Em, Ed in *.
      * lia.
      * set (mp := (5 * doy + 2) / 153) in *. clearbody mp.
        destruct (mp <? 10) eqn:H1; destruct (mp + 1 <? 10) eqn:H2;
          try apply Z.ltb_lt in H1; try apply Z.ltb_ge in H1;
          try apply Z.ltb_lt in H2; try apply Z.ltb_ge in H2; lia.
    + set (mp := (5 * doy + 2) / 153) in *.
      set (mp' := (5 * doy' + 2) / 153) in *. clearbody mp mp'.
      destruct (mp <? 10) eqn:H1; destruct (mp' <? 10) eqn:H2;
        try apply Z.ltb_lt in H1; try apply Z.ltb_ge in H1;
        try apply Z.ltb_lt in H2; try apply Z.ltb_ge in H2; lia.
  - clear Hdoe Hdoe'.
    repeat match goal with
           | |- context [?a / ?b] =>
               let v := eval vm_compute in (a / b) in
               change (a / b) with v
           end.
    repeat match goal with
           | |- context [?a <? ?b] =>
               let v := eval vm_compute in (a <? b) in
               change (a <? b) with v
           end.
    cbv iota. lia.
Qed.

Lemma date_number_mono (a b : Date) :
  a < b -> date_number a < date_number b.
Proof.
  intros Hlt. replace b with (a + 1 + Z.of_nat (Z.to_nat (b - a - 1))) by lia.
  induction (Z.to_nat (b - a - 1)) as [|n IH].
  - rewrite Z.add_0_r. apply date_number_succ.
  - pose proof (date_number_succ (a + 1 + Z.of_nat n)) as Hs.
    replace (a + 1 + Z.of_nat (S n)) with (a + 1 + Z.of_nat n + 1) by lia.
    lia.
Qed.

Lemma date_number_le (a b : Date) :
  date_number a <= date_number b <-> a <= b.
Proof.
  split; intros H.
  - destruct (Z_le_gt_dec a b) as [Hle|Hgt]; [exact Hle|].
    pose proof (date_number_mono b a ltac:(lia)). lia.
  - destruct (Z.eq_dec a b) as [->|Hne]; [lia|].
    pose proof (date_number_mono a b ltac:(lia)). lia.
Qed.

Lemma digit_range (c : ascii) (x : Z) : digit c = Some x -> 0 <= x <= 9.
Proof.
  unfold digit.
  destruct ((48 <=? Z.of_N (N_of_ascii c))
            && (Z.of_N (N_of_ascii c) <=? 57)) eqn:E; [|discriminate].
  intros H. injection H as <-.
  apply andb_true_iff in E. destruct E as [H1 H2].
  apply Z.leb_le in H1, H2. lia.
Qed.

(** Digits compare as their values do. *)
Lemma digit_compare (c c' : ascii) (x x' : Z) :
  digit c = Some x -> digit c' = Some x' ->
  Ascii.compare c c' = Z.compare x x'.
Proof.
  unfold digit, Ascii.compare.
  destruct ((48 <=? Z.of_N (N_of_ascii c))
            && (Z.of_N (N_of_ascii c) <=? 57)); [|discriminate].
  destruct ((48 <=? Z.of_N (N_of_ascii c'))
            && (Z.of_N (N_of_ascii c') <=? 57)); [|discriminate].
  intros H H'. injection H as <-. injection H' as <-.
  rewrite <- N2Z.inj_compare.
  rewrite (Z.compare_sub (Z.of_N (N_of_ascii c) - 48)).
  rewrite (Z.compare_sub (Z.of_N (N_of_ascii c))).
  f_equal. lia.
Qed.

(** One step of a comparison digit by digit. *)
Lemma compare_digit_step (x x' r r' B : Z) :
  0 <= r < B -> 0 <= r' < B ->
  Z.compare (x * B + r) (x' * B + r')
  = match Z.compare x x' with
    | Eq => Z.compare r r'
    | Lt => Lt
    | Gt => Gt
    end.
Proof.
  intros Hr Hr'. destruct (Z.compare_spec x x') as [->|Hlt|Hgt].
  - rewrite Z.add_compare_mono_l. reflexivity.
  - apply Z.compare_lt_iff. nia.
  - apply Z.compare_gt_iff. nia.
Qed.

(** Two dates of the form YYYY-MM-DD compare as their numbers YYYYMMDD
    do. *)
Lemma date_string_compare
    (y1 y2 y3 y4 m1 m2 d1 d2 y1' y2' y3' y4' m1' m2' d1' d2' : ascii)
    (y m d y' m' d' : Z) :
  number4 y1 y2 y3 y4 = Some y -> number2 m1 m2 = Some m ->
  number2 d1 d2 = Some d ->
  number4 y1' y2' y3' y4' = Some y' -> number2 m1' m2' = Some m' ->
  number2 d1' d2' = Some d' ->
  String.compare
    (String y1 (String y2 (String y3 (String y4 (String "-"
       (String m1 (String m2 (String "-" (String d1 (String d2 ""))))))))))
    (String y1' (String y2' (String y3' (String y4' (String "-"
       (String m1' (String m2' (String "-"
          (String d1' (String d2' ""))))))))))
  = Z.compare (y * 10000 + m * 100 + d) (y' * 10000 + m' * 100 + d').
Proof.
  unfold number4, number2.
  destruct (digit y1) as [a1|] eqn:A1; [|discriminate].
  destruct (digit y2) as [a2|] eqn:A2; [|discriminate].
  destruct (digit y3) as [a3|] eqn:A3; [|discriminate].
  destruct (digit y4) as [a4|] eqn:A4; [|discriminate].
  destruct (digit m1) as [a5|] eqn:A5; [|discriminate].
  destruct (digit m2) as [a6|] eqn:A6; [|discriminate].
  destruct (digit d1) as [a7|] eqn:A7; [|discriminate].
  destruct (digit d2) as [a8|] eqn:A8; [|discriminate].
  destruct (digit y1') as [b1|] eqn:B1; [|discriminate].
  destruct (digit y2') as [b2|] eqn:B2; [|discriminate].
  destruct (digit y3') as [b3|] eqn:B3; [|discriminate].
  destruct (digit y4') as [b4|] eqn:B4; [|discriminate].
  destruct (digit m1') as [b5|] eqn:B5; [|discriminate].
  destruct (digit m2') as [b6|] eqn:B6; [|discriminate].
  destruct (digit d1') as [b7|] eqn:B7; [|discriminate].
  destruct (digit d2') as [b8|] eqn:B8; [|discriminate].
  intros Hy Hm Hd Hy' Hm' Hd'.
  assert (Ey : y = 100 * (10 * a1 + a2) + (10 * a3 + a4)) by congruence.
  assert (Em : m = 10 * a5 + a6) by congruence.
  assert (Ed : d = 10 * a7 + a8) by congruence.
  assert (Ey' : y' = 100 * (10 * b1 + b2) + (10 * b3 + b4)) by congruence.
  assert (Em' : m' = 10 * b5 + b6) by congruence.
  assert (Ed' : d' = 10 * b7 + b8) by congruence.
  clear Hy Hm Hd Hy' Hm' Hd'.
  pose proof (digit_range _ _ A1). pose proof (digit_range _ _ A2).
  pose proof (digit_range _ _ A3). pose proof (digit_range _ _ A4).
  pose proof (digit_range _ _ A5). pose proof (digit_range _ _ A6).
  pose proof (digit_range _ _ A7). pose proof (digit_range _ _ A8).
  pose proof (digit_range _ _ B1). pose proof (digit_range _ _ B2).
  pose proof (digit_range _ _ B3). pose proof (digit_range _ _ B4).
  pose proof (digit_range _ _ B5). pose proof (digit_range _ _ B6).
  pose proof (digit_range _ _ B7). pose proof (digit_range _ _ B8).
  cbn [String.compare].
  rewrite (digit_compare _ _ _ _ A1 B1), (digit_compare _ _ _ _ A2 B2),
    (digit_compare _ _ _ _ A3 B3), (digit_compare _ _ _ _ A4 B4),
    (digit_compare _ _ _ _ A5 B5), (digit_compare _ _ _ _ A6 B6),
    (digit_compare _ _ _ _ A7 B7), (digit_compare _ _ _ _ A8 B8).
  rewrite !ascii_compare_refl.
  replace (y * 10000 + m * 100 + d)
    with (a1 * 10000000
          + (a2 * 1000000 + (a3 * 100000 + (a4 * 10000
             + (a5 * 1000 + (a6 * 100 + (a7 * 10 + a8))))))) by lia.
  replace (y' * 10000 + m' * 100 + d')
    with (b1 * 10000000
          + (b2 * 1000000 + (b3 * 100000 + (b4 * 10000
             + (b5 * 1000 + (b6 * 100 + (b7 * 10 + b8))))))) by lia.
  clear Ey Em Ed Ey' Em' Ed'.
  rewrite !compare_digit_step by lia.
  destruct (a8 ?= b8) eqn:E8; destruct (a7 ?= b7); destruct (a6 ?= b6);
    destruct (a5 ?= b5); destruct (a4 ?= b4); destruct (a3 ?= b3);
    destruct (a2 ?= b2); destruct (a1 ?= b1); reflexivity.
Qed.

(** Dates written by [formatDate] for four-digit years sort as their
    days do. *)
Lemma formatDate_leb (a b : Date) :
  1000 <= getFullYear a <= 9999 -> 1000 <= getFullYear b <= 9999 ->
  String.leb (formatDate a) (formatDate b) = true <-> a <= b.
Proof.
  intros Ha Hb.
  destruct (formatDate_shape a) as [m1 [m2 [d1 [d2 [Ea [Hma Hda]]]]]].
  destruct (formatDate_shape b) as [n1 [n2 [e1 [e2 [Eb [Hmb Hdb]]]]]].
  destruct (four_digits _ Ha) as [y1 [y2 [y3 [y4 [Eya Hya]]]]].
  destruct (four_digits _ Hb) as [z1 [z2 [z3 [z4 [Eyb Hyb]]]]].
  rewrite Ea, Eb, Eya, Eyb. cbn [String.append]. unfold String.leb.
  rewrite (date_string_compare _ _ _ _ _ _ _ _ _ _ _ _ _ _ _ _ _ _ _ _ _ _
             Hya Hma Hda Hyb Hmb Hdb).
  fold (date_number a). fold (date_number b).
  rewrite <- date_number_le.
  destruct (Z.compare_spec (date_number a) (date_number b));
    split; intros; try lia; try reflexivity; discriminate.
Qed.

End Chronology.

(** X22.  For days of four-digit years the byte order of the formatted
    dates is the order of the days, so ORDER BY date ASC and DESC order
    the rows dated by [formatDate] by calendar day. *)
Theorem formatDate_order_is_day_order (a b : Date) (e1 e2 : entry) :
  1000 <= getFullYear a <= 9999 -> 1000 <= getFullYear b <= 9999 ->
  date e1 = formatDate a -> date e2 = formatDate b ->
  (String.leb (formatDate a) (formatDate b) = true <-> a <= b)
  /\ (date_asc e1 e2 = true <-> a <= b)
  /\ (date_desc e1 e2 = true <-> b <= a).
Proof.
  intros Ha Hb E1 E2. unfold date_asc, date_desc. rewrite E1, E2.
  split; [|split]; apply formatDate_leb; assumption.
Qed.

Lemma formatDate_order_new_year :
  (date_asc (mkEntry 1 1 "2023-12-31" None None 1 "" "")
            (mkEntry 2 1 "2024-01-01" None None 1 "" "") = true
   <-> 19722 <= 19723)
  /\ formatDate 19722 = "2023-12-31" /\ formatDate 19723 = "2024-01-01".
Proof.
  split; [|split; reflexivity].
  apply (formatDate_order_is_day_order 19722 19723
           (mkEntry 1 1 "2023-12-31" None None 1 "" "")
           (mkEntry 2 1 "2024-01-01" None None 1 "" ""));
    try reflexivity; vm_compute; split; discriminate.
Defined.

Section StreakInLongest.

Variable day_of : entry -> Date.

Let before (a b : entry) : Prop := day_of a < day_of b.

Lemma Sorted_local {A : Type} (R R' : A -> A -> Prop) (l : list A) :
  (forall a b, In a l -> In b l -> R a b -> R' a b) ->
  Sorted R l -> Sorted R' l.
Proof.
  intros Himp Hs. induction Hs as [|x l Hs IH Hd].
  - constructor.
  - constructor.
    + apply IH. intros a b Ia Ib. apply Himp; right; assumption.
    + destruct Hd as [|y l Hxy]; constructor.
      apply Himp; [left; reflexivity | right; left; reflexivity | exact Hxy].
Qed.

Lemma strictly_sorted (l : list entry) :
  StronglySorted (fun a b => day_of a <= day_of b) l ->
  NoDup (map day_of l) ->
  StronglySorted before l.
Proof.
  intros Hs. induction Hs as [|x l Hs IH Hall]; intros Hnd.
  - constructor.
  - cbn [map] in Hnd. inversion Hnd as [|? ? Hnotin Hnd']; subst.
    constructor.
    + apply IH. exact Hnd'.
    + rewrite Forall_forall in *. intros y Hy. unfold before.
      specialize (Hall y Hy).
      assert (day_of y <> day_of x).
      { intros E. apply Hnotin. rewrite <- E. apply in_map. exact Hy. }
      lia.
Qed.

(** Strictly ascending days none of which is before [a]: when every day
    of [a .. a + n - 1] is there, these days are the first [n]. *)
Lemma sorted_run_prefix (n : nat) :
  forall (a : Date) (l : list entry),
    StronglySorted before l ->
    (forall e, In e l -> a <= day_of e) ->
    (forall d, a <= d < a + Z.of_nat n ->
               exists e, In e l /\ day_of e = d) ->
    exists s post, l = (s ++ post)%list /\ map day_of s = day_range a n.
Proof.
  induction n as [|n IH]; intros a l Hs Hlow Hall.
  - exists [], l. split; reflexivity.
  - destruct (Hall a ltac:(lia)) as [e0 [He0 Ee0]].
    destruct l as [|x l']; [contradiction|].
    apply StronglySorted_inv in Hs. destruct Hs as [Hs' Hx].
    rewrite Forall_forall in Hx.
    assert (Ex : day_of x = a).
    { destruct He0 as [->|He0]; [exact Ee0|].
      specialize (Hx _ He0). unfold before in Hx.
      specialize (Hlow x (or_introl eq_refl)). lia. }
    destruct (IH (a + 1) l' Hs') as [s [post [El Es]]].
    + intros e He. specialize (Hx _ He). unfold before in Hx. lia.
    + intros d Hd. destruct (Hall d ltac:(lia)) as [e [He Ee]].
      destruct He as [->|He]; [lia|]. exists e. split; assumption.
    + exists (x :: s), post. split.
      * cbn [app]. rewrite El. reflexivity.
      * cbn [map day_range]. rewrite Ex, Es. reflexivity.
Qed.

Lemma sorted_run_segment (l : list entry) :
  forall (a : Date) (n : nat),
    StronglySorted before l ->
    (forall d, a <= d < a + Z.of_nat n ->
               exists e, In e l /\ day_of e = d) ->
    exists pre s post,
      l = (pre ++ s ++ post)%list /\ map day_of s = day_range a n.
Proof.
  induction l as [|x l IH]; intros a n Hs Hall.
  - destruct n as [|n].
    + exists [], [], []. split; reflexivity.
    + destruct (Hall a ltac:(lia)) as [e [[] _]].
  - destruct (Z_lt_le_dec (day_of x) a) as [Hlt|Hge].
    + apply StronglySorted_inv in Hs. destruct Hs as [Hs' Hx].
      rewrite Forall_forall in Hx.
      destruct (IH a n Hs') as [pre [s [post [El Es]]]].
      * intros d Hd. destruct (Hall d Hd) as [e [He Ee]].
        destruct He as [->|He]; [lia|]. exists e. split; assumption.
      * exists (x :: pre), s, post. split; [|exact Es].
        cbn [app]. rewrite El. reflexivity.
    + destruct (sorted_run_prefix n a (x :: l) Hs) as [s [post [El Es]]].
      * apply StronglySorted_inv in Hs. destruct Hs as [Hs' Hx].
        rewrite Forall_forall in Hx.
        intros e [->|He]; [exact Hge|].
        specialize (Hx _ He). unfold before in Hx. lia.
      * exact Hall.
      * exists [], s, post. split; [exact El | exact Es].
Qed.

Lemma day_range_is_run (s : list entry) :
  forall (a : Date) (n : nat),
    (forall e, In e s -> entry_date e = Some (day_of e)) ->
    map day_of s = day_range a n ->
    is_run s = true.
Proof.
  induction s as [|x s IH]; intros a n Hd Hm.
  - reflexivity.
  - destruct s as [|y s']; [reflexivity|].
    destruct n as [|[|n]]; try discriminate.
    cbn [map day_range] in Hm.
    injection Hm as Ex Ey Hm'.
    change (is_run (x :: y :: s'))
      with (consecutive x y && is_run (y :: s')).
    apply andb_true_iff. split.
    + apply consecutive_iff. exists (day_of x). split.
      * apply Hd. left. reflexivity.
      * rewrite Ex, <- Ey. apply Hd. right. left. reflexivity.
    + apply (IH (a + 1) (S n)).
      * intros e He. apply Hd. right. exact He.
      * cbn [map day_range]. rewrite Ey, Hm'. reflexivity.
Qed.

(** The days of a run of rows are consecutive days. *)
Lemma is_run_day_range (s : list entry) :
  forall (x : entry) (r : list entry),
    s = x :: r ->
    (forall e, In e s -> entry_date e = Some (day_of e)) ->
    is_run s = true ->
    map day_of s = day_range (day_of x) (List.length s).
Proof.
  induction s as [|y s IH]; intros x r E Hd Hrun; [discriminate|].
  injection E as Ey Es. subst y s.
  destruct r as [|z r']; [reflexivity|].
  change (is_run (x :: z :: r'))
    with (consecutive x z && is_run (z :: r')) in Hrun.
  apply andb_true_iff in Hrun. destruct Hrun as [Hc Hrun].
  apply consecutive_iff in Hc. destruct Hc as [D [Hx Hz]].
  rewrite (Hd x (or_introl eq_refl)) in Hx. injection Hx as <-.
  rewrite (Hd z (or_intror (or_introl eq_refl))) in Hz. injection Hz as Hz.
  change (map day_of (x :: z :: r'))
    with (day_of x :: map day_of (z :: r')).
  change (day_range (day_of x) (List.length (x :: z :: r')))
    with (day_of x :: day_range (day_of x + 1) (List.length (z :: r'))).
  f_equal. rewrite <- Hz.
  apply (IH z r' eq_refl); [|exact Hrun].
  intros e He. apply Hd. right. exact He.
Qed.

End StreakInLongest.

Section StreakAndLongest.

Variables (userId : Z) (db : database).

Hypothesis one_row_per_key :
  forall k, (List.length (rows_for userId k db) <= 1)%nat.
Hypothesis dated_by_formatDate :
  forall e, In e (qualifying userId db) ->
    exists t, 1000 <= getFullYear t <= 9999 /\ date e = formatDate t.

Let day_of (e : entry) : Date :=
  match entry_date e with Some t => t | None => 0 end.

Let rows := sort_by date_asc (qualifying userId db).

Lemma rows_day (e : entry) :
  In e rows ->
  1000 <= getFullYear (day_of e) <= 9999
  /\ date e = formatDate (day_of e)
  /\ entry_date e = Some (day_of e).
Proof.
  intros He. apply sort_by_In in He.
  destruct (dated_by_formatDate e He) as [t [Ht Et]].
  assert (E : entry_date e = Some t).
  { unfold entry_date. rewrite Et. apply parse_formatDate. exact Ht. }
  unfold day_of. rewrite E. auto.
Qed.

Lemma rows_strictly_sorted :
  StronglySorted (fun a b => day_of a < day_of b) rows.
Proof.
  apply strictly_sorted.
  - apply Sorted_StronglySorted.
    + intros a b c. lia.
    + apply (Sorted_local (fun a b => date_asc a b = true)).
      * intros a b Ia Ib Hab.
        destruct (rows_day a Ia) as [Ya [Da _]].
        destruct (rows_day b Ib) as [Yb [Db _]].
        unfold date_asc in Hab. rewrite Da, Db in Hab.
        exact (proj1 (formatDate_leb _ _ Ya Yb) Hab).
      * apply (sort_by_sorted date_asc).
        intros x y. apply String.leb_total.
  - apply (NoDup_map_inv formatDate).
    rewrite map_map.
    rewrite (map_ext_in _ date).
    + apply (sorted_dates_NoDup userId (is_qualifying userId)).
      * intros e He. unfold is_qualifying in He.
        apply andb_true_iff in He. destruct He as [He _].
        apply andb_true_iff in He. destruct He as [He _].
        apply Z.eqb_eq. exact He.
      * exact one_row_per_key.
    + intros e He. symmetry. apply rows_day. exact He.
Qed.

Lemma has_qualifying_row (e : entry) :
  In e rows -> has_qualifying userId db (day_of e) = true.
Proof.
  intros He. destruct (rows_day e He) as [_ [Hd _]].
  apply sort_by_In in He. unfold qualifying in He.
  apply filter_In in He. destruct He as [Hin Hq].
  unfold has_qualifying. cbv zeta. apply existsb_exists. exists e.
  split; [exact Hin|]. rewrite Hq, <- Hd. apply String.eqb_refl.
Qed.

(** No run of consecutive days with entries is longer than the longest
    streak. *)
Lemma run_le_longest (a : Date) (n : nat) :
  (forall d, a <= d < a + Z.of_nat n ->
             has_qualifying userId db d = true) ->
  Z.of_nat n <= getLongestStreak userId db.
Proof.
  intros Hrun.
  destruct (sorted_run_segment day_of rows a n rows_strictly_sorted)
    as [pre [s [post [El Es]]]].
  - intros d Hd. specialize (Hrun d Hd).
    apply has_qualifying_In in Hrun.
    apply in_map_iff in Hrun. destruct Hrun as [e [Ee He]].
    assert (Ie : In e rows) by (apply sort_by_In; exact He).
    exists e. split; [exact Ie|].
    destruct (rows_day e Ie) as [_ [De _]].
    apply formatDate_inj. rewrite <- De. exact Ee.
  - assert (Hlen : List.length s = n).
    { rewrite <- (length_map day_of), Es. apply day_range_length. }
    assert (Hr : is_run s = true).
    { apply (day_range_is_run day_of s a n).
      - intros e He. apply rows_day. rewrite El.
        apply in_or_app. right. apply in_or_app. left. exact He.
      - exact Es. }
    unfold getLongestStreak. fold rows.
    destruct rows as [|first rest] eqn:Erows.
    + destruct pre; [|discriminate]. destruct s; [|discriminate].
      cbn [List.length] in Hlen. lia.
    + pose proof (longest_loop_segment rest first 1 1 pre s post
                    ltac:(lia) El Hr) as Hseg.
      rewrite Hlen in Hseg. exact Hseg.
Qed.

Lemma getStreak_le_longest (today : Date) :
  getStreak today userId db <= getLongestStreak userId db.
Proof.
  destruct (getStreak_spec userId db today) as [Hn [Hrun _]].
  set (n := getStreak today userId db) in *.
  pose proof (run_le_longest (today - n + 1) (Z.to_nat n)) as Hle.
  rewrite Z2Nat.id in Hle by lia. apply Hle.
  intros d Hd. specialize (Hrun (today - d) ltac:(lia)).
  replace (today - (today - d)) with d in Hrun by lia. exact Hrun.
Qed.

(** Every day spanned by a run of rows has an entry. *)
Lemma segment_days (s : list entry) (x : entry) (r : list entry) :
  s = x :: r -> (forall e, In e s -> In e rows) -> is_run s = true ->
  forall d, day_of x <= d < day_of x + Z.of_nat (List.length s) ->
            has_qualifying userId db d = true.
Proof.
  intros E Hin Hrun d Hd.
  pose proof (is_run_day_range day_of s x r E
                (fun e He => proj2 (proj2 (rows_day e (Hin e He)))) Hrun)
    as Hmap.
  assert (Hd' : In d (map day_of s))
    by (rewrite Hmap; apply day_range_In; exact Hd).
  apply in_map_iff in Hd'. destruct Hd' as [e [<- He]].
  apply has_qualifying_row. apply Hin. exact He.
Qed.

(** The longest streak is the length of a run of consecutive days with
    entries. *)
Lemma longest_is_run :
  qualifying userId db <> [] ->
  1 <= getLongestStreak userId db
  /\ exists a, forall d, a <= d < a + getLongestStreak userId db ->
                         has_qualifying userId db d = true.
Proof.
  intros Hne. unfold getLongestStreak. fold rows.
  destruct rows as [|first rest] eqn:Erows.
  - exfalso. apply Hne. apply (sort_by_nil date_asc). exact Erows.
  - split; [apply longest_loop_ge|].
    destruct (longest_loop_attained rest first 1 1)
      as [Hr|[[s [post [Hs [Hrun Hr]]]]|[pre [s [post [Hs0 [Hs [Hrun Hr]]]]]]]].
    + rewrite Hr. exists (day_of first). intros d Hd.
      apply (segment_days [first] first [] eq_refl).
      * intros e [<-|[]]. rewrite Erows. now left.
      * reflexivity.
      * cbn [List.length]. lia.
    + rewrite Hr. exists (day_of first). intros d Hd.
      apply (segment_days (first :: s) first s eq_refl).
      * intros e He. rewrite Erows, Hs.
        destruct He as [<-|He]; [now left|].
        right. apply in_or_app. now left.
      * exact Hrun.
      * cbn [List.length]. lia.
    + rewrite Hr. destruct s as [|x r]; [now elim Hs0|].
      exists (day_of x). intros d Hd.
      apply (segment_days (x :: r) x r eq_refl).
      * intros e He. rewrite Erows. right. rewrite Hs.
        apply in_or_app. right. apply in_or_app. now left.
      * exact Hrun.
      * exact Hd.
Qed.

End StreakAndLongest.

(** X23.  In a table built by upserts where the user's entries with a text
    are dated by [formatDate] for days of four-digit years, as the routes
    of the application date them, the current streak of any day is at most
    the longest streak. *)
Theorem getStreak_at_most_getLongestStreak
    (today : Date) (userId : Z) (db : database) :
  reachable db ->
  (forall e, In e (qualifying userId db) ->
     exists t, 1000 <= getFullYear t <= 9999 /\ date e = formatDate t) ->
  stats_currentStreak (get_stats today userId db)
  <= stats_longestStreak (get_stats today userId db).
Proof.
  intros Hr Hd. unfold get_stats. cbn [stats_currentStreak stats_longestStreak].
  apply getStreak_le_longest.
  - intros k. apply reachable_unique. exact Hr.
  - exact Hd.
Qed.

Lemma getStreak_at_most_longest_three_days :
  stats_currentStreak (get_stats 19725 1 (log_run 3 19723 init)) = 3
  /\ stats_currentStreak (get_stats 19725 1 (log_run 3 19723 init))
     <= stats_longestStreak (get_stats 19725 1 (log_run 3 19723 init)).
Proof.
  split; [reflexivity|].
  apply (getStreak_at_most_getLongestStreak 19725 1 (log_run 3 19723 init)).
  - cbn [log_run]. repeat constructor.
  - intros e He. vm_compute in He.
    destruct He as [<-|[<-|[<-|[]]]];
      [exists 19723 | exists 19724 | exists 19725];
      (split; [vm_compute; split; discriminate | reflexivity]).
Defined.

(** When every qualifying entry is dated one of [days], no other day has
    one. *)
Lemma has_qualifying_among (userId : Z) (db : database) (days : list Date) :
  (forall e, In e (qualifying userId db) ->
             In (date e) (map formatDate days)) ->
  forall d, ~ In d days -> has_qualifying userId db d = false.
Proof.
  intros Hall d Hd.
  destruct (has_qualifying userId db d) eqn:E; [|reflexivity].
  exfalso. apply Hd. apply has_qualifying_In in E.
  apply in_map_iff in E. destruct E as [e [Ee He]].
  specialize (Hall e He). apply in_map_iff in Hall.
  destruct Hall as [d' [Ed' Hd']].
  assert (d' = d) by (apply formatDate_inj; congruence).
  now subst.
Qed.

(** Claim C3.  [getLongestStreak] returns 0 without qualifying entries
    and otherwise a count from 1 to their number, an entry after a gap
    counting as a run of 1.  In a table built by upserts where the user's
    qualifying entries are dated calendar days written YYYY-MM-DD, it is
    the greatest length of a run of consecutive calendar days that each
    have a qualifying entry: no such run is longer than the result and
    some run has its length; it is 1 when the qualifying entries are those
    of D and D+2. *)
Theorem getLongestStreak_is_longest_run (userId : Z) (db : database) :
  (qualifying userId db = [] -> getLongestStreak userId db = 0)
  /\ (qualifying userId db <> [] ->
      1 <= getLongestStreak userId db <= getTotalEntries userId db)
  /\ (reachable db ->
      (forall e, In e (qualifying userId db) ->
         exists t, 1000 <= getFullYear t <= 9999 /\ date e = formatDate t) ->
      (forall a n,
         run_of_days userId db a n -> n <= getLongestStreak userId db)
      /\ (qualifying userId db <> [] ->
          exists a, run_of_days userId db a (getLongestStreak userId db))
      /\ (forall D,
            has_qualifying userId db D = true ->
            has_qualifying userId db (D + 1) = false ->
            has_qualifying userId db (D + 2) = true ->
            (forall d, d < D \/ D + 2 < d ->
                       has_qualifying userId db d = false) ->
            getLongestStreak userId db = 1)).
Proof.
  split; [|split].
  { intros E. unfold getLongestStreak. rewrite E. reflexivity. }
  { intros Hne. split; [|apply getLongestStreak_le_total].
    unfold getLongestStreak.
    destruct (sort_by date_asc (qualifying userId db))
      as [|first rest] eqn:E.
    - exfalso. apply Hne. exact (sort_by_nil date_asc _ E).
    - apply longest_loop_ge. }
  intros Hr Hd.
  assert (Huniq : forall k, (List.length (rows_for userId k db) <= 1)%nat)
    by (intros k; now apply reachable_unique).
  assert (Hbound : forall a n,
            run_of_days userId db a n -> n <= getLongestStreak userId db).
  { intros a n Hrun. destruct (Z_le_gt_dec n 0) as [Hn|Hn].
    - pose proof (getLongestStreak_le_total userId db). lia.
    - pose proof (run_le_longest userId db Huniq Hd a (Z.to_nat n)) as H.
      rewrite Z2Nat.id in H by lia. apply H. exact Hrun. }
  split; [exact Hbound|split].
  - intros Hne.
    destruct (longest_is_run userId db Hd Hne) as [_ [a Ha]].
    exists a. exact Ha.
  - intros D HD HD1 HD2 Hout.
    assert (Hne : qualifying userId db <> []).
    { intros E. apply has_qualifying_In in HD. rewrite E in HD.
      destruct HD. }
    destruct (longest_is_run userId db Hd Hne) as [H1 [a Ha]].
    destruct (Z_le_gt_dec (getLongestStreak userId db) 1) as [Hle|Hgt];
      [lia|].
    exfalso.
    assert (Hone : forall d, has_qualifying userId db d = true ->
                             d = D \/ d = D + 2).
    { intros d Hq.
      destruct (Z_lt_le_dec d D) as [H|H];
        [rewrite Hout in Hq by lia; discriminate|].
      destruct (Z_lt_le_dec (D + 2) d) as [H'|H'];
        [rewrite Hout in Hq by lia; discriminate|].
      destruct (Z.eq_dec d (D + 1)) as [->|Hn]; [congruence|]. lia. }
    pose proof (Hone a (Ha a ltac:(lia))) as Ea.
    pose proof (Hone (a + 1) (Ha (a + 1) ltac:(lia))) as Ea1.
    lia.
Qed.

(** Entries on 2024-01-01 and 2024-01-03 only give 1; the three days
    from 2024-01-01 on give at least 3. *)
Lemma getLongestStreak_across_gap :
  getLongestStreak 1 gap_log = 1
  /\ 3 <= getLongestStreak 1 (log_run 3 19723 init).
Proof.
  split.
  - destruct (getLongestStreak_is_longest_run 1 gap_log)
      as [_ [_ Hruns]].
    destruct Hruns as [_ [_ Hgap]].
    + repeat constructor.
    + intros e He. vm_compute in He.
      destruct He as [<-|[<-|[]]]; [exists 19723 | exists 19725];
        (split; [vm_compute; split; discriminate | reflexivity]).
    + apply (Hgap 19723); try reflexivity.
      intros d Hd. apply (has_qualifying_among 1 gap_log [19723; 19725]).
      * intros e He. vm_compute in He.
        destruct He as [<-|[<-|[]]]; [left|right; left]; reflexivity.
      * intros [H|[H|[]]]; lia.
  - destruct (getLongestStreak_is_longest_run 1 (log_run 3 19723 init))
      as [_ [_ Hruns]].
    destruct Hruns as [Hbound _].
    + cbn [log_run]. repeat constructor.
    + intros e He. vm_compute in He.
      destruct He as [<-|[<-|[<-|[]]]];
        [exists 19723 | exists 19724 | exists 19725];
        (split; [vm_compute; split; discriminate | reflexivity]).
    + apply (Hbound 19723 3). intros d Hd.
      assert (E : d = 19723 \/ d = 19724 \/ d = 19725) by lia.
      destruct E as [ -> | [ -> | -> ] ]; reflexivity.
Defined.
